(** * NudgeAI: compliance-gated delivery engine

    A shallow embedding of the compliance evaluator
    ([ComplianceService.checkCompliance] and its utilities, in
    src/analytics-update/interfaces.ts) and of the retry and
    error-classification utilities of the communication service
    (src/communication-service/utils.ts), together with the properties the
    specification states about them.

    JavaScript values are represented as follows.
    - A [Date] is the instant it denotes, an integer number of
      milliseconds since the epoch; an ISO timestamp string is the instant
      it parses to.  Local-time accessors ([getHours], [toDateString], ...)
      are read in a host time zone with a fixed offset from UTC.
    - A [number] holding a count, an hour or a delay is an integer.
    - A template literal is kept as the list of its literal chunks and of
      the values interpolated into it ([Text]).
    - The wall clock and [Math.random] belong to the host: an evaluation
      consumes successive clock readings and random draws, and writes to
      the console; this is threaded through a state monad. *)

From Stdlib Require Import ZArith List String Ascii Bool Lia Arith.
Import ListNotations.

Local Open Scope string_scope.
Local Open Scope list_scope.
Local Open Scope bool_scope.
Local Open Scope Z_scope.

(* ================================================================== *)
(** ** JavaScript strings *)

Module JsString.

(** One character of [String.prototype.toLowerCase], on ASCII letters. *)
Definition lowerChar (c : ascii) : ascii :=
  let n := nat_of_ascii c in
  if (Nat.leb 65 n && Nat.leb n 90)%bool then ascii_of_nat (n + 32) else c.

Fixpoint toLowerCase (s : string) : string :=
  match s with
  | EmptyString => EmptyString
  | String c s' => String (lowerChar c) (toLowerCase s')
  end.

Definition upperChar (c : ascii) : ascii :=
  let n := nat_of_ascii c in
  if (Nat.leb 97 n && Nat.leb n 122)%bool then ascii_of_nat (n - 32) else c.

Fixpoint toUpperCase (s : string) : string :=
  match s with
  | EmptyString => EmptyString
  | String c s' => String (upperChar c) (toUpperCase s')
  end.

(** [s.includes(sub)]: [sub] occurs in [s] at some position. *)
Fixpoint includes (s sub : string) : bool :=
  String.prefix sub s ||
  match s with
  | EmptyString => false
  | String _ s' => includes s' sub
  end.

(** [s.startsWith(p)]. *)
Definition startsWith (s p : string) : bool := String.prefix p s.

(** Truthiness of a string: the empty string is falsy. *)
Definition truthy (s : string) : bool :=
  match s with EmptyString => false | _ => true end.

(** [l.join(sep)]. *)
Definition join (sep : string) (l : list string) : string :=
  String.concat sep l.

End JsString.

(* ================================================================== *)
(** ** JavaScript dates *)

Module JsDate.

Definition msPerSecond : Z := 1000.
Definition msPerMinute : Z := 60000.
Definition msPerHour : Z := 3600000.
Definition msPerDay : Z := 86400000.

Section Zone.
(** Offset of the host's local time from UTC, in milliseconds. *)
Variable tz : Z.

Definition localTime (d : Z) : Z := d + tz.

(** The local calendar day of [d], counted from 1970-01-01. *)
Definition dayNumber (d : Z) : Z := localTime d / msPerDay.

(** [d.toDateString()].  The source only compares these strings for
    equality; a date string is represented by the local calendar day
    it names. *)
Definition toDateString (d : Z) : Z := dayNumber d.

(** [d.getHours()]. *)
Definition getHours (d : Z) : Z := (localTime d / msPerHour) mod 24.

(** [d.getSeconds()]. *)
Definition getSeconds (d : Z) : Z := (localTime d / msPerSecond) mod 60.

(** [d.getDay()]: 0 is Sunday; 1970-01-01 was a Thursday. *)
Definition getDay (d : Z) : Z := (dayNumber d + 4) mod 7.

(** [d.setHours(h, 0, 0, 0)]: local midnight of [d]'s day plus [h]
    hours. *)
Definition setHours (d h : Z) : Z :=
  dayNumber d * msPerDay + h * msPerHour - tz.

(** [d.setDate(d.getDate() + n)]: the same local time of day, [n]
    days later ([n] may be negative: the date rolls into the
    previous month). *)
Definition addDays (d n : Z) : Z := d + n * msPerDay.

(** [d.setSeconds(s)]: replaces the seconds field; values outside
    0..59 carry into the minutes. *)
Definition setSeconds (d s : Z) : Z :=
  d - getSeconds d * msPerSecond + s * msPerSecond.

(** [getWeekStart]: the Sunday of [date]'s week, at [date]'s time of
    day ([setDate(getDate() - getDay())]). *)
Definition getWeekStart (date : Z) : Z :=
  let d := date in
  let day := getDay d in
  addDays d (- day).
End Zone.

End JsDate.

(* ================================================================== *)
(** ** Shared vocabulary *)

Inductive Channel := email | sms | phone.

Definition Channel_eqb (a b : Channel) : bool :=
  match a, b with
  | email, email | sms, sms | phone, phone => true
  | _, _ => false
  end.

Definition channelName (c : Channel) : string :=
  match c with email => "email" | sms => "sms" | phone => "phone" end.

Inductive Strategy := reminder | negotiation | final_notice.

(** A piece of a template literal. *)
Inductive Piece :=
| Lit (s : string)                (* literal text, or an interpolated string *)
| Num (n : Z)                     (* an interpolated integer *)
| Iso (t : Z)                     (* an interpolated timestamp string *)
| HoursFixed1 (ms : Z)            (* (ms / 3600000).toFixed(1) *)
| HoursLeft (minHours ms : Z).    (* minHours - ms / 3600000 *)

Definition Text := list Piece.

(** The text starts with the literal [p]. *)
Definition textStartsWith (t : Text) (p : string) : bool :=
  match t with
  | Lit s :: _ => JsString.startsWith s p
  | _ => false
  end.

(** Truthiness of an interpolated text: empty only when every chunk is an
    empty literal. *)
Definition textTruthy (t : Text) : bool :=
  existsb (fun p => match p with Lit s => JsString.truthy s | _ => true end) t.

(** Truthiness of an optional string property. *)
Definition truthyOpt (o : option string) : bool :=
  match o with Some s => JsString.truthy s | None => false end.

(* ================================================================== *)
(** ** The host: clock, random source and console *)

Module Effects.

Section Log.
(** What is written to the console. *)
Variable Line : Type.

Record World := mkWorld {
  reads : nat;           (* clock readings consumed so far *)
  draws : nat;           (* random draws consumed so far *)
  console : list Line    (* lines logged so far, oldest first *)
}.

Definition M (A : Type) : Type := World -> A * World.

Definition ret {A} (a : A) : M A := fun w => (a, w).

Definition bind {A B} (c : M A) (k : A -> M B) : M B :=
  fun w => let (a, w') := c w in k a w'.

Section Host.
(** [clock n] is the [n]-th reading of the wall clock, in
    milliseconds since the epoch. *)
Variable clock : nat -> Z.
(** [random n] is the [n]-th value of
    [Math.random().toString(36).substr(2, 9)]. *)
Variable random : nat -> string.

(** [Date.now()], [new Date()]. *)
Definition dateNow : M Z :=
  fun w => (clock (reads w),
            mkWorld (S (reads w)) (draws w) (console w)).

Definition mathRandom36 : M string :=
  fun w => (random (draws w),
            mkWorld (reads w) (S (draws w)) (console w)).
End Host.

(** [console.log]. *)
Definition consoleLog (l : Line) : M unit :=
  fun w => (tt, mkWorld (reads w) (draws w) (console w ++ [l])).
End Log.

Arguments mkWorld {Line}.
Arguments reads {Line}.
Arguments draws {Line}.
Arguments console {Line}.
Arguments ret {Line A}.
Arguments bind {Line A B}.
Arguments dateNow {Line}.
Arguments mathRandom36 {Line}.
Arguments consoleLog {Line}.

Declare Scope js_scope.
Delimit Scope js_scope with js.
Notation "x <- c ;; k" := (bind c (fun x => k))
  (at level 61, c at next level, right associativity) : js_scope.

End Effects.

(* ================================================================== *)
(** ** src/communication-service/utils.ts *)

Module Communication.
Import Effects.
Local Open Scope js_scope.

Inductive DeliveryStatus :=
| pending | sent | delivered | failed | bounced.

Record CommunicationMessage := {
  id : string;
  customerId : string;
  channel : Channel;
  strategy : Strategy;
  content : string;
  deliveryStatus : DeliveryStatus;
  retryCount : nat;
  maxRetries : nat
}.

Record RetryLogic := {
  rl_maxRetries : nat;
  retryDelays : list Z;          (* in seconds *)
  backoffMultiplier : Z;
  maxDelaySeconds : Z;
  retryableErrors : list string
}.

(** [x || d] on an optional number: [undefined] and [0] are falsy. *)
Definition orElse (x : option Z) (d : Z) : Z :=
  match x with
  | Some 0 | None => d
  | Some v => v
  end.

(** The [delay] computed by [calculateNextRetry]. *)
Definition retryDelay (message : CommunicationMessage)
    (retryLogic : RetryLogic) : Z :=
  orElse (nth_error (retryDelays retryLogic) (retryCount message))
    (Z.min
       (orElse (nth_error (retryDelays retryLogic) 0%nat) 60
        * Z.pow (backoffMultiplier retryLogic)
                (Z.of_nat (retryCount message)))
       (maxDelaySeconds retryLogic)).

Section Host.
Variable tz : Z.
Variable clock : nat -> Z.
Let M := M unit.

Definition calculateNextRetry (message : CommunicationMessage)
    (retryLogic : RetryLogic) : M (option Z) :=
  if Nat.leb (rl_maxRetries retryLogic) (retryCount message) then
    ret None
  else
    let delay := retryDelay message retryLogic in
    nextRetry <- dateNow clock ;;
    ret (Some (JsDate.setSeconds tz nextRetry
                 (JsDate.getSeconds tz nextRetry + delay))).
End Host.

Definition nonRetryableErrors : list string :=
  ["permanent_failure"; "invalid_recipient"; "compliance_violation";
   "blocked"].

Definition shouldRetry (message : CommunicationMessage)
    (error : option string) : bool :=
  if Nat.leb (maxRetries message) (retryCount message) then false
  else
    match error with
    | Some e =>
        if JsString.truthy e &&
           existsb (fun pattern =>
                      JsString.includes (JsString.toLowerCase e) pattern)
                   nonRetryableErrors
        then false else true
    | None => true
    end.

Inductive ErrorType :=
| temporary | permanent | rate_limit | compliance | unknown.

Record Classification := {
  cl_type : ErrorType;
  retryable : bool;
  cl_message : string
}.

(** The argument of [classifyError]: its [message] property, if any, and
    what [String(error)] yields. *)
Record JsError := {
  message : option string;
  asString : string
}.

Definition errorMessageOf (error : JsError) : string :=
  match message error with
  | Some m => if JsString.truthy m then m else asString error
  | None => asString error
  end.

Definition classifyError (error : JsError) : Classification :=
  let errorMessage := errorMessageOf error in
  let lowerError := JsString.toLowerCase errorMessage in
  if JsString.includes lowerError "rate limit" ||
     JsString.includes lowerError "too many requests" then
    {| cl_type := rate_limit; retryable := true;
       cl_message := errorMessage |}
  else if JsString.includes lowerError "invalid recipient" ||
          JsString.includes lowerError "blocked" ||
          JsString.includes lowerError "unsubscribed" ||
          JsString.includes lowerError "compliance" then
    {| cl_type := if JsString.includes lowerError "compliance"
                  then compliance else permanent;
       retryable := false;
       cl_message := errorMessage |}
  else if JsString.includes lowerError "timeout" ||
          JsString.includes lowerError "network" ||
          JsString.includes lowerError "temporary" then
    {| cl_type := temporary; retryable := true;
       cl_message := errorMessage |}
  else
    {| cl_type := unknown; retryable := true;
       cl_message := errorMessage |}.

End Communication.

(* ================================================================== *)
(** ** src/communication-service/utils.ts: further utilities *)

Module CommunicationUtils.
Import Effects Communication.
Local Open Scope js_scope.

(** [s.substring(0, n)]. *)
Definition substring0 (n : nat) (s : string) : string :=
  String.substring 0 n s.

(** [s.split(sep)] for a separator of one character. *)
Fixpoint split (sep : ascii) (s : string) : list string :=
  match s with
  | EmptyString => [EmptyString]
  | String c s' =>
      if Ascii.eqb c sep then EmptyString :: split sep s'
      else match split sep s' with
           | piece :: pieces => String c piece :: pieces
           | [] => [String c EmptyString]
           end
  end.

Definition formatSmsContent (content : string) : string :=
  let maxLength := 1600%nat in
  if Nat.leb (String.length content) maxLength then content
  else (substring0 (maxLength - 3) content ++ "...")%string.

Record PhoneCallScript := {
  script : string;
  notes : list string
}.

Definition preparePhoneCallScript (content : string) : PhoneCallScript :=
  {| script :=
       if Nat.ltb 500 (String.length content)
       then (substring0 497 content ++ "...")%string
       else content;
     notes := ["Speak clearly and slowly"; "Verify customer identity";
               "Follow compliance guidelines"] |}.

(** The request [validateCommunicationRequest] receives, as parsed from
    the body of the call: any property may be absent and the channel and
    strategy may be any string. *)
Record Customizations := {
  cz_subject : option string;
  cz_content : option string
}.

Record CommunicationRequest := {
  rq_customerId : option string;
  rq_channel : option string;
  rq_strategy : option string;
  rq_customizations : option Customizations
}.

Record Validation := {
  isValid : bool;
  errors : list string
}.

Definition stringIn (s : string) (l : list string) : bool :=
  existsb (String.eqb s) l.

(** [request.customizations?.subject]. *)
Definition subjectOf (request : CommunicationRequest) : option string :=
  match rq_customizations request with
  | Some c => cz_subject c
  | None => None
  end.

Definition validateCommunicationRequest (request : CommunicationRequest)
    : Validation :=
  let errors :=
    (if negb (truthyOpt (rq_customerId request))
     then ["Customer ID is required"] else [])
    ++ (if negb (truthyOpt (rq_channel request))
           || negb (match rq_channel request with
                    | Some ch => stringIn ch ["email"; "sms"; "phone"]
                    | None => false
                    end)
        then ["Valid channel (email, sms, phone) is required"] else [])
    ++ (if negb (truthyOpt (rq_strategy request))
           || negb (match rq_strategy request with
                    | Some st =>
                        stringIn st ["reminder"; "negotiation"; "final_notice"]
                    | None => false
                    end)
        then ["Valid strategy (reminder, negotiation, final_notice) is required"]
        else [])
    ++ (if match rq_channel request with
           | Some ch => String.eqb ch "email"
           | None => false
           end
           && negb (truthyOpt (subjectOf request))
        then ["Email subject is required"] else []) in
  {| isValid := Nat.eqb (List.length errors) 0; errors := errors |}.

Inductive Provider := sendgrid | twilio | twilio_voice.

Inductive AttemptStatus :=
| at_pending | at_in_progress | at_completed | at_failed.

Record DeliveryAttempt := {
  da_id : string;
  da_messageId : string;
  attemptNumber : nat;
  da_status : AttemptStatus;
  provider : Provider
}.

Record QuietHours := {
  qh_start : string;   (* HH:mm *)
  qh_end : string      (* HH:mm *)
}.

Inductive Frequency := immediate | fr_daily | fr_weekly.

(** The settings of one channel; the phone settings have no frequency. *)
Record ChannelSettings := {
  enabled : bool;
  frequency : option Frequency;
  quietHours : option QuietHours
}.

Record CommunicationPreferences := {
  cp_customerId : string;
  cp_email : ChannelSettings;
  cp_sms : ChannelSettings;
  cp_phone : ChannelSettings
}.

Definition settingsOf (preferences : CommunicationPreferences)
    (channel : Channel) : ChannelSettings :=
  match channel with
  | email => cp_email preferences
  | sms => cp_sms preferences
  | phone => cp_phone preferences
  end.

Definition providerChannel (p : Provider) : Channel :=
  match p with
  | sendgrid => email
  | twilio => sms
  | twilio_voice => phone
  end.

Definition allChannels : list Channel := [email; sms; phone].

Definition determineNextChannel (previousAttempts : list DeliveryAttempt)
    (preferences : CommunicationPreferences) : option Channel :=
  let attemptedChannels :=
    map (fun a => providerChannel (provider a)) previousAttempts in
  find (fun channel =>
          negb (existsb (Channel_eqb channel) attemptedChannels)
          && enabled (settingsOf preferences channel))
       allChannels.

(** The payload of a provider webhook, with the properties
    [parseProviderWebhook] reads. *)
Record WebhookPayload := {
  message_id : option string;
  wp_id : option string;
  event : option string;
  wp_status : option string;
  wp_error : option string;
  reason : option string
}.

Record ParsedWebhook := {
  pw_messageId : string;
  pw_status : DeliveryStatus;
  pw_error : option string
}.

Definition optIs (o : option string) (s : string) : bool :=
  match o with Some x => String.eqb x s | None => false end.

Definition parseProviderWebhook (provider : Provider)
    (payload : WebhookPayload) : ParsedWebhook :=
  let messageId :=
    match message_id payload with
    | Some m => if JsString.truthy m then m
                else match wp_id payload with
                     | Some i => if JsString.truthy i then i else "unknown"
                     | None => "unknown"
                     end
    | None => match wp_id payload with
              | Some i => if JsString.truthy i then i else "unknown"
              | None => "unknown"
              end
    end in
  let status :=
    if optIs (event payload) "dropped" || optIs (event payload) "bounce"
       || optIs (wp_status payload) "failed" then failed
    else if optIs (event payload) "processed"
            || optIs (wp_status payload) "queued" then pending
    else delivered in
  {| pw_messageId := messageId;
     pw_status := status;
     pw_error := if truthyOpt (wp_error payload) then wp_error payload
                 else reason payload |}.

Section Host.
Variable tz : Z.
Variable clock : nat -> Z.
(** [Number(s)] on the pieces of an "HH:mm" string: the integer the piece
    denotes, or nothing for [NaN]. *)
Variable Number : string -> option Z.

Let M := M unit.

(** [const [h, m] = s.split(':').map(Number)], then [h || 0] and
    [m || 0]. *)
Definition hourAndMinute (s : string) : Z * Z :=
  let parts := map Number (split ":" s) in
  (orElse (match nth_error parts 0 with Some x => x | None => None end) 0,
   orElse (match nth_error parts 1 with Some x => x | None => None end) 0).

(** [d.getMinutes()]. *)
Definition getMinutes (d : Z) : Z :=
  (JsDate.localTime tz d / JsDate.msPerMinute) mod 60.

(** [d.setHours(h, m, 0, 0)]. *)
Definition setHoursMinutes (d h m : Z) : Z :=
  JsDate.dayNumber tz d * JsDate.msPerDay + h * JsDate.msPerHour
  + m * JsDate.msPerMinute - tz.

(** [isWithinAllowedHours] of the communication service: whether the
    current time is outside the channel's quiet hours. *)
Definition isWithinAllowedHours (preferences : CommunicationPreferences)
    (channel : Channel) : M bool :=
  now <- dateNow clock ;;
  let currentHour := JsDate.getHours tz now in
  let currentMinute := getMinutes now in
  let currentTime := currentHour * 60 + currentMinute in
  match quietHours (settingsOf preferences channel) with
  | None => ret true
  | Some quietHours =>
      let (startHour, startMin) := hourAndMinute (qh_start quietHours) in
      let (endHour, endMin) := hourAndMinute (qh_end quietHours) in
      let startTime := startHour * 60 + startMin in
      let endTime := endHour * 60 + endMin in
      if startTime <=? endTime then
        ret ((currentTime <? startTime) || (endTime <? currentTime))
      else
        ret ((endTime <? currentTime) && (currentTime <? startTime))
  end.

(** [getNextAllowedTime] of the communication service. *)
Definition getNextAllowedTime (preferences : CommunicationPreferences)
    (channel : Channel) : M Z :=
  now <- dateNow clock ;;
  match quietHours (settingsOf preferences channel) with
  | None => ret now
  | Some quietHours =>
      let (endHour, endMin) := hourAndMinute (qh_end quietHours) in
      let nextAllowed := setHoursMinutes now endHour endMin in
      ret (if nextAllowed <=? now then JsDate.addDays nextAllowed 1
           else nextAllowed)
  end.

End Host.

End CommunicationUtils.

(* ================================================================== *)
(** ** src/communication-service/utils.ts: the content filter *)

Module ContentFilter.

(** Whether the word matches at the head of the text under
    [new RegExp(word, 'gi')], for a word of plain characters: letter case
    aside, character by character. *)
Fixpoint matchesAt (word s : string) : bool :=
  match word with
  | EmptyString => true
  | String a word' =>
      match s with
      | EmptyString => false
      | String b s' =>
          Ascii.eqb (JsString.lowerChar a) (JsString.lowerChar b)
          && matchesAt word' s'
      end
  end.

(** [s.replace(new RegExp(word, 'gi'), replacement)] for a non-empty word
    of plain characters: the matches are taken from left to right and do
    not overlap; [skip] counts the characters still to drop of the match
    being replaced. *)
Fixpoint replaceFrom (word replacement : string) (skip : nat) (s : string)
    : string :=
  match s with
  | EmptyString => EmptyString
  | String c s' =>
      match skip with
      | S k => replaceFrom word replacement k s'
      | O =>
          if matchesAt word s then
            (replacement
             ++ replaceFrom word replacement (String.length word - 1) s')%string
          else String c (replaceFrom word replacement 0 s')
      end
  end.

Definition replaceAll (word replacement s : string) : string :=
  replaceFrom word replacement 0 s.

Definition prohibitedWords : list string :=
  ["lawsuit"; "legal action"; "arrest"; "wage garnishment"].

Record Filtered := {
  filteredContent : string;
  violations : list string
}.

Definition filterContentForCompliance (content : string) (channel : Channel)
    : Filtered :=
  fold_left
    (fun acc word =>
       if JsString.includes (JsString.toLowerCase content) word then
         {| filteredContent :=
              replaceAll word "[REDACTED]" (filteredContent acc);
            violations :=
              violations acc ++ [("Prohibited term: " ++ word)%string] |}
       else acc)
    prohibitedWords
    {| filteredContent := content; violations := [] |}.

End ContentFilter.

(* ================================================================== *)
(** ** The compliance service: its interfaces

    The declarations the compliance code of
    src/analytics-update/interfaces.ts imports from [./interfaces]. *)

Module Compliance.
Import Effects.
Local Open Scope js_scope.

Inductive ViolationType :=
| TCPA_TIME_RESTRICTION
| FDCPA_DISCLOSURE_MISSING
| FDCPA_HARASSMENT
| TCPA_CONSENT_MISSING
| CONTENT_PROHIBITED.

Definition violationTypeName (t : ViolationType) : string :=
  match t with
  | TCPA_TIME_RESTRICTION => "TCPA_TIME_RESTRICTION"
  | FDCPA_DISCLOSURE_MISSING => "FDCPA_DISCLOSURE_MISSING"
  | FDCPA_HARASSMENT => "FDCPA_HARASSMENT"
  | TCPA_CONSENT_MISSING => "TCPA_CONSENT_MISSING"
  | CONTENT_PROHIBITED => "CONTENT_PROHIBITED"
  end.

Inductive Severity := high | medium | low.

Record ComplianceViolation := {
  v_type : ViolationType;
  v_severity : Severity;
  v_description : Text;
  v_regulation : string;
  v_section : option string;
  v_suggestedFix : option Text
}.

Inductive WarningType :=
| FREQUENCY_LIMIT | CONTENT_RISK | TIME_BOUNDARY | CONSENT_EXPIRING.

Definition warningTypeName (t : WarningType) : string :=
  match t with
  | FREQUENCY_LIMIT => "FREQUENCY_LIMIT"
  | CONTENT_RISK => "CONTENT_RISK"
  | TIME_BOUNDARY => "TIME_BOUNDARY"
  | CONSENT_EXPIRING => "CONSENT_EXPIRING"
  end.

Record ComplianceWarning := {
  w_type : WarningType;
  w_severity : Severity;
  w_description : Text;
  w_recommendation : option Text
}.

Inductive AuditResult := PASS | FAIL | WARNING.

Record AuditEntry := {
  a_id : Text;
  a_timestamp : Z;
  a_customerId : string;
  a_communicationId : string;
  a_checkType : string;
  a_result : AuditResult;
  a_violations : list Text;
  a_warnings : list Text;
  a_processingTimeMs : Z
}.

Record ComplianceCheckRequest := {
  customerId : string;
  communicationId : string;
  content : string;
  channel : Channel;
  strategy : Strategy;
  customerTimezone : option string
}.

Record ComplianceCheckResult := {
  compliant : bool;
  violations : list ComplianceViolation;
  warnings : list ComplianceWarning;
  auditEntry : AuditEntry;
  recommendedActions : list Text;
  canProceed : bool;
  nextAllowedTime : option Z
}.

Record CallingHours := { start : Z; end_ : Z }.

Record TcpaComplianceRule := {
  callingHours : CallingHours;
  maxDailyCalls : Z;
  maxWeeklyCalls : Z;
  maxDailyTexts : Z;
  maxWeeklyTexts : Z;
  consentRequired : bool;
  consentExpirationDays : Z;
  prohibitedContent : list string
}.

Record CallFrequencyRules := {
  minHoursBetweenCalls : Z;
  minDaysBetweenThirdPartyContact : Z
}.

Record RequiredContentElements := {
  identityDisclosure : bool;
  purposeDisclosure : bool;
  debtValidationNotice : bool;
  rightsDisclosure : bool
}.

Record FdcpaComplianceRule := {
  requiredDisclosures : list string;
  prohibitedPractices : list string;
  maxDailyContacts : Z;
  maxWeeklyContacts : Z;
  callFrequencyRules : CallFrequencyRules;
  requiredContentElements : RequiredContentElements
}.

Record ComplianceRuleSet := {
  tcpa : TcpaComplianceRule;
  fdcpa : FdcpaComplianceRule;
  lastUpdated : Z;
  version : string
}.

Inductive ConsentMethod := written | electronic | verbal.

Record ConsentRecord := {
  c_id : string;
  c_type : Channel;
  granted : bool;
  c_timestamp : Z;
  method : ConsentMethod;
  ipAddress : option string;
  userAgent : option string;
  expiresAt : option Z;
  revokedAt : option string
}.

Record CommunicationComplianceRecord := {
  r_id : string;
  r_timestamp : Z;
  r_channel : Channel;
  r_strategy : Strategy;
  r_compliant : bool;
  r_violations : list ViolationType;
  r_warnings : list WarningType;
  r_processingTimeMs : Z
}.

Inductive ContactFrequency := cf_low | cf_medium | cf_high.

Record ContactPreferences := {
  preferredChannel : option Channel;
  contactFrequency : ContactFrequency
}.

Record CustomerComplianceProfile := {
  p_customerId : string;
  contactPreferences : ContactPreferences;
  consentHistory : list ConsentRecord;
  communicationHistory : list CommunicationComplianceRecord;
  violationHistory : list ComplianceViolation;
  riskScore : Z
}.

(** What a check returns: [{ violations, warnings }]. *)
Record Findings := {
  f_violations : list ComplianceViolation;
  f_warnings : list ComplianceWarning
}.

(** The console line of [updateCustomerComplianceProfile]. *)
Inductive Line :=
| UpdatingProfile (customerId : string)
                  (communicationRecord : CommunicationComplianceRecord).

(* ---------------------------------------------------------------- *)
(** *** src/analytics-update/interfaces.ts, the utilities: pure helpers *)

Definition containsProhibitedContent (content : string)
    (prohibitedTerms : list string) : bool :=
  let lowerContent := JsString.toLowerCase content in
  existsb (fun term =>
             JsString.includes lowerContent (JsString.toLowerCase term))
          prohibitedTerms.

Record DisclosureValidation := {
  present : list string;
  missing : list string
}.

Definition validateRequiredDisclosures (content : string)
    (requiredDisclosures : list string) : DisclosureValidation :=
  let lowerContent := JsString.toLowerCase content in
  let found := fun disclosure =>
    JsString.includes lowerContent (JsString.toLowerCase disclosure) in
  {| present := filter found requiredDisclosures;
     missing := filter (fun d => negb (found d)) requiredDisclosures |}.

(** [Array.prototype.sort] with a comparator: a stable sort. *)
Fixpoint insertBy {A} (cmp : A -> A -> Z) (x : A) (l : list A) : list A :=
  match l with
  | [] => [x]
  | y :: l' => if cmp x y <=? 0 then x :: l else y :: insertBy cmp x l'
  end.

Definition sortBy {A} (cmp : A -> A -> Z) (l : list A) : list A :=
  fold_right (insertBy cmp) [] l.

(** [Math.ceil(x / d)] for integers [x] and [d > 0]. *)
Definition ceilDiv (x d : Z) : Z := - ((- x) / d).

(** [n >= cap * 0.8], for an integer count and an integer cap.  The
    product is rounded to the nearest double, which is [4 * cap / 5]
    itself when that is an integer and otherwise lies strictly between the
    same two integers, so the comparison with an integer count decides
    [4 * cap <= 5 * n]. *)
Definition reaches80 (n cap : Z) : bool := 4 * cap <=? 5 * n.

Definition len {A} (l : list A) : Z := Z.of_nat (List.length l).

Definition validateContent (content : string) (strategy : Strategy)
    (rules : ComplianceRuleSet) : Findings :=
  let hasTcpaProhibited :=
    containsProhibitedContent content (prohibitedContent (tcpa rules)) in
  let prohibitedV :=
    if hasTcpaProhibited then
      [ {| v_type := CONTENT_PROHIBITED;
           v_severity := high;
           v_description := [Lit "Content contains prohibited terms"];
           v_regulation := "TCPA";
           v_section := Some "47 C.F.R. § 64.1200";
           v_suggestedFix :=
             Some [Lit "Remove prohibited terms from content"] |} ]
    else [] in
  let disclosureValidation :=
    validateRequiredDisclosures content
      (requiredDisclosures (fdcpa rules)) in
  let disclosureV :=
    if 0 <? len (missing disclosureValidation) then
      [ {| v_type := FDCPA_DISCLOSURE_MISSING;
           v_severity := high;
           v_description :=
             [Lit "Missing required disclosures: ";
              Lit (JsString.join ", " (missing disclosureValidation))];
           v_regulation := "FDCPA";
           v_section := Some "15 U.S.C. § 1692e";
           v_suggestedFix :=
             Some [Lit "Add missing required disclosures"] |} ]
    else [] in
  let riskTerms :=
    ["urgent"; "immediate action"; "final notice"; "legal consequences"] in
  let foundRisks :=
    filter (fun term =>
              JsString.includes (JsString.toLowerCase content) term)
           riskTerms in
  let riskW :=
    if 0 <? len foundRisks then
      [ {| w_type := CONTENT_RISK;
           w_severity := medium;
           w_description :=
             [Lit "Content contains potentially concerning terms: ";
              Lit (JsString.join ", " foundRisks)];
           w_recommendation :=
             Some [Lit "Review content for compliance with harassment regulations"] |} ]
    else [] in
  {| f_violations := prohibitedV ++ disclosureV; f_warnings := riskW |}.

Definition generateRecommendedActions
    (violations : list ComplianceViolation)
    (warnings : list ComplianceWarning) : list Text :=
  let fixes :=
    flat_map (fun violation =>
                match v_suggestedFix violation with
                | Some s => if textTruthy s then [s] else []
                | None => []
                end) violations in
  let recommendations :=
    flat_map (fun warning =>
                match w_recommendation warning with
                | Some r => if textTruthy r then [r] else []
                | None => []
                end) warnings in
  let actions := fixes ++ recommendations in
  if (len actions =? 0) && (0 <? len warnings) then
    actions ++ [[Lit "Review communication for compliance best practices"]]
  else actions.

(* ---------------------------------------------------------------- *)
(** *** src/analytics-update/interfaces.ts, the utilities: checks that
    read the clock *)

Section Host.
Variable tz : Z.
Variable clock : nat -> Z.
Variable random : nat -> string.

Let M := M Line.
Let getHours := JsDate.getHours tz.
Let toDateString := JsDate.toDateString tz.
Let setHours := JsDate.setHours tz.
Let getWeekStart := JsDate.getWeekStart tz.
Let addDays := JsDate.addDays.

(** The [find] of the consent checks: the first granted, unrevoked
    record of the channel. *)
Definition findConsent (request : ComplianceCheckRequest)
    (customerProfile : CustomerComplianceProfile) : option ConsentRecord :=
  find (fun c => Channel_eqb (c_type c) (channel request)
                 && granted c && negb (truthyOpt (revokedAt c)))
       (consentHistory customerProfile).

Definition checkTcpaCompliance (request : ComplianceCheckRequest)
    (customerProfile : CustomerComplianceProfile)
    (rules : TcpaComplianceRule) : M Findings :=
  (* Check consent *)
  consentV <-
    (if consentRequired rules then
       match findConsent request customerProfile with
       | None =>
           ret [ {| v_type := TCPA_CONSENT_MISSING;
                    v_severity := high;
                    v_description :=
                      [Lit "Missing required consent for ";
                       Lit (channelName (channel request));
                       Lit " communication"];
                    v_regulation := "TCPA";
                    v_section := Some "47 U.S.C. § 227";
                    v_suggestedFix :=
                      Some [Lit "Obtain explicit consent from customer before communication"] |} ]
       | Some consent =>
           match expiresAt consent with
           | Some e =>
               now <- dateNow clock ;;
               ret (if e <? now then
                      [ {| v_type := TCPA_CONSENT_MISSING;
                           v_severity := high;
                           v_description :=
                             [Lit "Consent for ";
                              Lit (channelName (channel request));
                              Lit " has expired"];
                           v_regulation := "TCPA";
                           v_section := Some "47 U.S.C. § 227";
                           v_suggestedFix :=
                             Some [Lit "Renew consent from customer"] |} ]
                    else [])
           | None => ret []
           end
       end
     else ret []) ;;
  (* Check calling hours *)
  now <- dateNow clock ;;
  let currentHour := getHours now in
  let hoursV :=
    if (currentHour <? start (callingHours rules))
       || (end_ (callingHours rules) <? currentHour) then
      [ {| v_type := TCPA_TIME_RESTRICTION;
           v_severity := high;
           v_description :=
             [Lit "Communication attempted outside allowed hours (";
              Num (start (callingHours rules)); Lit ":00 - ";
              Num (end_ (callingHours rules)); Lit ":00)"];
           v_regulation := "TCPA";
           v_section := Some "47 C.F.R. § 64.1200";
           v_suggestedFix :=
             Some [Lit "Wait until "; Num (start (callingHours rules));
                   Lit ":00 to attempt communication"] |} ]
    else [] in
  (* Check frequency limits *)
  todayDate <- dateNow clock ;;
  let today := toDateString todayDate in
  weekDate <- dateNow clock ;;
  let thisWeek := getWeekStart weekDate in
  let todayComms :=
    filter (fun c => (toDateString (r_timestamp c) =? today)
                     && Channel_eqb (r_channel c) (channel request))
           (communicationHistory customerProfile) in
  let weekComms :=
    filter (fun c => (thisWeek <=? r_timestamp c)
                     && Channel_eqb (r_channel c) (channel request))
           (communicationHistory customerProfile) in
  let frequencyV :=
    if Channel_eqb (channel request) sms
       || Channel_eqb (channel request) phone then
      let dailyLimit :=
        if Channel_eqb (channel request) sms
        then maxDailyTexts rules else maxDailyCalls rules in
      let weeklyLimit :=
        if Channel_eqb (channel request) sms
        then maxWeeklyTexts rules else maxWeeklyCalls rules in
      (if dailyLimit <=? len todayComms then
         [ {| v_type := TCPA_CONSENT_MISSING;
              v_severity := medium;
              v_description :=
                [Lit "Daily "; Lit (channelName (channel request));
                 Lit " limit exceeded ("; Num (len todayComms);
                 Lit "/"; Num dailyLimit; Lit ")"];
              v_regulation := "TCPA";
              v_section := None;
              v_suggestedFix :=
                Some [Lit "Wait until tomorrow to send communication"] |} ]
       else [])
      ++
      (if weeklyLimit <=? len weekComms then
         [ {| v_type := TCPA_CONSENT_MISSING;
              v_severity := medium;
              v_description :=
                [Lit "Weekly "; Lit (channelName (channel request));
                 Lit " limit exceeded ("; Num (len weekComms);
                 Lit "/"; Num weeklyLimit; Lit ")"];
              v_regulation := "TCPA";
              v_section := None;
              v_suggestedFix :=
                Some [Lit "Wait until next week to send communication"] |} ]
       else [])
    else [] in
  (* Check prohibited content *)
  let hasProhibited :=
    containsProhibitedContent (content request)
      (prohibitedContent rules) in
  let contentV :=
    if hasProhibited then
      [ {| v_type := CONTENT_PROHIBITED;
           v_severity := high;
           v_description :=
             [Lit "Communication contains prohibited content"];
           v_regulation := "TCPA";
           v_section := Some "47 C.F.R. § 64.1200";
           v_suggestedFix :=
             Some [Lit "Remove prohibited content from communication"] |} ]
    else [] in
  ret {| f_violations := consentV ++ hoursV ++ frequencyV ++ contentV;
         f_warnings := [] |}.

Definition prohibitedPatterns : list string :=
  ["threaten violence"; "arrest without cause"; "misrepresent amount";
   "false legal action"].

Definition checkFdcpaCompliance (request : ComplianceCheckRequest)
    (customerProfile : CustomerComplianceProfile)
    (rules : FdcpaComplianceRule) : M Findings :=
  (* Check required disclosures *)
  let disclosureValidation :=
    validateRequiredDisclosures (content request)
      (requiredDisclosures rules) in
  let disclosureV :=
    if 0 <? len (missing disclosureValidation) then
      [ {| v_type := FDCPA_DISCLOSURE_MISSING;
           v_severity := high;
           v_description :=
             [Lit "Missing required FDCPA disclosures: ";
              Lit (JsString.join ", " (missing disclosureValidation))];
           v_regulation := "FDCPA";
           v_section := Some "15 U.S.C. § 1692e";
           v_suggestedFix :=
             Some [Lit "Include required disclosures: ";
                   Lit (JsString.join ", "
                          (missing disclosureValidation))] |} ]
    else [] in
  (* Check harassment patterns *)
  todayDate <- dateNow clock ;;
  let today := toDateString todayDate in
  let todayComms :=
    filter (fun c => toDateString (r_timestamp c) =? today)
           (communicationHistory customerProfile) in
  let dailyV :=
    if maxDailyContacts rules <=? len todayComms then
      [ {| v_type := FDCPA_HARASSMENT;
           v_severity := high;
           v_description :=
             [Lit "Daily contact limit exceeded (";
              Num (len todayComms); Lit "/";
              Num (maxDailyContacts rules); Lit ")"];
           v_regulation := "FDCPA";
           v_section := Some "15 U.S.C. § 1692d";
           v_suggestedFix :=
             Some [Lit "Wait until tomorrow to attempt communication"] |} ]
    else [] in
  (* Check call frequency rules *)
  let lastCall :=
    hd_error
      (sortBy (fun a b => r_timestamp b - r_timestamp a)
         (filter (fun c => Channel_eqb (r_channel c) phone)
                 (communicationHistory customerProfile))) in
  spacingV <-
    match lastCall with
    | Some lastCall =>
        if Channel_eqb (channel request) phone then
          now <- dateNow clock ;;
          let sinceLastCall := now - r_timestamp lastCall in
          let minHours :=
            minHoursBetweenCalls (callFrequencyRules rules) in
          (* hoursSinceLastCall < minHoursBetweenCalls, in milliseconds *)
          ret (if sinceLastCall <? minHours * JsDate.msPerHour then
                 [ {| v_type := FDCPA_HARASSMENT;
                      v_severity := medium;
                      v_description :=
                        [Lit "Insufficient time between calls (";
                         HoursFixed1 sinceLastCall;
                         Lit " hours, minimum "; Num minHours; Lit ")"];
                      v_regulation := "FDCPA";
                      v_section := Some "15 U.S.C. § 1692d";
                      v_suggestedFix :=
                        Some [Lit "Wait at least ";
                              HoursLeft minHours sinceLastCall;
                              Lit " more hours"] |} ]
               else [])
        else ret []
    | None => ret []
    end ;;
  (* Check prohibited practices *)
  let lowerContent := JsString.toLowerCase (content request) in
  let practiceV :=
    flat_map
      (fun practice =>
         if JsString.includes lowerContent practice then
           [ {| v_type := FDCPA_HARASSMENT;
                v_severity := high;
                v_description :=
                  [Lit "Prohibited practice detected: "; Lit practice];
                v_regulation := "FDCPA";
                v_section := Some "15 U.S.C. § 1692e";
                v_suggestedFix :=
                  Some [Lit "Remove prohibited language from communication"] |} ]
         else [])
      prohibitedPatterns in
  ret {| f_violations := disclosureV ++ dailyV ++ spacingV ++ practiceV;
         f_warnings := [] |}.

Definition isWithinAllowedHours (timestamp : Z) (timezone : string)
    (rules : TcpaComplianceRule) : bool :=
  let hour := getHours timestamp in
  (start (callingHours rules) <=? hour)
  && (hour <=? end_ (callingHours rules)).

Definition checkFrequencyLimits (customerId : string) (channel : Channel)
    (customerProfile : CustomerComplianceProfile)
    (rules : ComplianceRuleSet) : M Findings :=
  todayDate <- dateNow clock ;;
  let today := toDateString todayDate in
  weekDate <- dateNow clock ;;
  let thisWeek := getWeekStart weekDate in
  let todayComms :=
    filter (fun c => (toDateString (r_timestamp c) =? today)
                     && Channel_eqb (r_channel c) channel)
           (communicationHistory customerProfile) in
  let weekComms :=
    filter (fun c => (thisWeek <=? r_timestamp c)
                     && Channel_eqb (r_channel c) channel)
           (communicationHistory customerProfile) in
  (* Check daily limits *)
  let channelV :=
    if Channel_eqb channel sms then
      (if maxDailyTexts (tcpa rules) <=? len todayComms then
         [ {| v_type := TCPA_CONSENT_MISSING;
              v_severity := medium;
              v_description :=
                [Lit "Daily SMS limit exceeded ("; Num (len todayComms);
                 Lit "/"; Num (maxDailyTexts (tcpa rules)); Lit ")"];
              v_regulation := "TCPA";
              v_section := None;
              v_suggestedFix :=
                Some [Lit "Wait until tomorrow to send SMS"] |} ]
       else [])
      ++
      (if maxWeeklyTexts (tcpa rules) <=? len weekComms then
         [ {| v_type := TCPA_CONSENT_MISSING;
              v_severity := medium;
              v_description :=
                [Lit "Weekly SMS limit exceeded ("; Num (len weekComms);
                 Lit "/"; Num (maxWeeklyTexts (tcpa rules)); Lit ")"];
              v_regulation := "TCPA";
              v_section := None;
              v_suggestedFix :=
                Some [Lit "Wait until next week to send SMS"] |} ]
       else [])
    else if Channel_eqb channel phone then
      (if maxDailyCalls (tcpa rules) <=? len todayComms then
         [ {| v_type := TCPA_CONSENT_MISSING;
              v_severity := medium;
              v_description :=
                [Lit "Daily call limit exceeded ("; Num (len todayComms);
                 Lit "/"; Num (maxDailyCalls (tcpa rules)); Lit ")"];
              v_regulation := "TCPA";
              v_section := None;
              v_suggestedFix :=
                Some [Lit "Wait until tomorrow to make call"] |} ]
       else [])
      ++
      (if maxWeeklyCalls (tcpa rules) <=? len weekComms then
         [ {| v_type := TCPA_CONSENT_MISSING;
              v_severity := medium;
              v_description :=
                [Lit "Weekly call limit exceeded ("; Num (len weekComms);
                 Lit "/"; Num (maxWeeklyCalls (tcpa rules)); Lit ")"];
              v_regulation := "TCPA";
              v_section := None;
              v_suggestedFix :=
                Some [Lit "Wait until next week to make call"] |} ]
       else [])
    else [] in
  (* Check FDCPA contact limits *)
  let allTodayComms :=
    filter (fun c => toDateString (r_timestamp c) =? today)
           (communicationHistory customerProfile) in
  let contactV :=
    if maxDailyContacts (fdcpa rules) <=? len allTodayComms then
      [ {| v_type := FDCPA_HARASSMENT;
           v_severity := high;
           v_description :=
             [Lit "Daily contact limit exceeded (";
              Num (len allTodayComms); Lit "/";
              Num (maxDailyContacts (fdcpa rules)); Lit ")"];
           v_regulation := "FDCPA";
           v_section := Some "15 U.S.C. § 1692d";
           v_suggestedFix :=
             Some [Lit "Wait until tomorrow for any communication"] |} ]
    else [] in
  (* Add frequency warnings approaching limits *)
  let approachingW :=
    if Channel_eqb channel sms
       && reaches80 (len todayComms) (maxDailyTexts (tcpa rules)) then
      [ {| w_type := FREQUENCY_LIMIT;
           w_severity := medium;
           w_description :=
             [Lit "Approaching daily SMS limit ("; Num (len todayComms);
              Lit "/"; Num (maxDailyTexts (tcpa rules)); Lit ")"];
           w_recommendation :=
             Some [Lit "Consider spacing out communications"] |} ]
    else [] in
  ret {| f_violations := channelV ++ contactV;
         f_warnings := approachingW |}.

Definition verifyConsent (request : ComplianceCheckRequest)
    (customerProfile : CustomerComplianceProfile)
    (rules : TcpaComplianceRule) : M Findings :=
  if negb (consentRequired rules) then
    ret {| f_violations := []; f_warnings := [] |}
  else
    (* Find current consent for the channel *)
    match findConsent request customerProfile with
    | None =>
        ret {| f_violations :=
                 [ {| v_type := TCPA_CONSENT_MISSING;
                      v_severity := high;
                      v_description :=
                        [Lit "No valid consent found for ";
                         Lit (channelName (channel request));
                         Lit " communication"];
                      v_regulation := "TCPA";
                      v_section := Some "47 U.S.C. § 227";
                      v_suggestedFix :=
                        Some [Lit "Obtain explicit consent from customer"] |} ];
               f_warnings := [] |}
    | Some consent =>
        (* Check consent method meets requirements *)
        let methodW :=
          if Channel_eqb (channel request) phone
             && match method consent with verbal => true | _ => false end
             && negb (truthyOpt (ipAddress consent)) then
            [ {| w_type := CONSENT_EXPIRING;
                 w_severity := low;
                 w_description :=
                   [Lit "Verbal consent lacks proper documentation"];
                 w_recommendation :=
                   Some [Lit "Document verbal consent with additional verification"] |} ]
          else [] in
        match expiresAt consent with
        | Some e =>
            (* Check if consent is expired *)
            now <- dateNow clock ;;
            if e <? now then
              ret {| f_violations :=
                       [ {| v_type := TCPA_CONSENT_MISSING;
                            v_severity := high;
                            v_description :=
                              [Lit "Consent for ";
                               Lit (channelName (channel request));
                               Lit " expired on "; Iso e];
                            v_regulation := "TCPA";
                            v_section := Some "47 U.S.C. § 227";
                            v_suggestedFix :=
                              Some [Lit "Renew consent from customer"] |} ];
                     f_warnings := [] |}
            else
              (* Check if consent is expiring soon *)
              now' <- dateNow clock ;;
              let daysUntilExpiry := ceilDiv (e - now') JsDate.msPerDay in
              let expiringW :=
                if daysUntilExpiry <=? 30 then
                  [ {| w_type := CONSENT_EXPIRING;
                       w_severity := medium;
                       w_description :=
                         [Lit "Consent for ";
                          Lit (channelName (channel request));
                          Lit " expires in "; Num daysUntilExpiry;
                          Lit " days"];
                       w_recommendation :=
                         Some [Lit "Plan to renew consent before expiration"] |} ]
                else [] in
              ret {| f_violations := [];
                     f_warnings := expiringW ++ methodW |}
        | None =>
            ret {| f_violations := []; f_warnings := methodW |}
        end
    end.

(** [createAuditEntry] reads only the [violations] and [warnings] of
    the result it is given, which are passed here. *)
Definition createAuditEntry (request : ComplianceCheckRequest)
    (violations : list ComplianceViolation)
    (warnings : list ComplianceWarning)
    (processingTimeMs : Z) : M AuditEntry :=
  stamp <- dateNow clock ;;
  suffix <- mathRandom36 random ;;
  timestamp <- dateNow clock ;;
  ret {| a_id := [Lit "audit_"; Num stamp; Lit "_"; Lit suffix];
         a_timestamp := timestamp;
         a_customerId := customerId request;
         a_communicationId := communicationId request;
         a_checkType :=
           (JsString.toUpperCase (channelName (channel request))
            ++ "_COMPLIANCE")%string;
         a_result :=
           if 0 <? len violations then FAIL
           else if 0 <? len warnings then WARNING else PASS;
         a_violations :=
           map (fun v => Lit (violationTypeName (v_type v)) :: Lit ": "
                         :: v_description v) violations;
         a_warnings :=
           map (fun w => Lit (warningTypeName (w_type w)) :: Lit ": "
                         :: w_description w) warnings;
         a_processingTimeMs := processingTimeMs |}.

Definition loadComplianceRules (version : option string)
    : M ComplianceRuleSet :=
  lastUpdated <- dateNow clock ;;
  ret {| tcpa :=
           {| callingHours := {| start := 8; end_ := 21 |};
              maxDailyCalls := 3;
              maxWeeklyCalls := 7;
              maxDailyTexts := 5;
              maxWeeklyTexts := 14;
              consentRequired := true;
              consentExpirationDays := 730;
              prohibitedContent :=
                ["threat"; "harassment"; "abuse"; "violence"] |};
         fdcpa :=
           {| requiredDisclosures :=
                ["This is an attempt to collect a debt";
                 "Name of creditor";
                 "Amount of debt";
                 "Right to dispute the debt"];
              prohibitedPractices :=
                ["violence"; "arrest threat"; "misrepresentation";
                 "false legal action"];
              maxDailyContacts := 7;
              maxWeeklyContacts := 21;
              callFrequencyRules :=
                {| minHoursBetweenCalls := 2;
                   minDaysBetweenThirdPartyContact := 7 |};
              requiredContentElements :=
                {| identityDisclosure := true;
                   purposeDisclosure := true;
                   debtValidationNotice := true;
                   rightsDisclosure := true |} |};
         lastUpdated := lastUpdated;
         version :=
           match version with
           | Some v => if JsString.truthy v then v else "1.0.0"
           | None => "1.0.0"
           end |}.

Definition getCustomerComplianceProfile (customerId : string)
    : M CustomerComplianceProfile :=
  ret {| p_customerId := customerId;
         contactPreferences :=
           {| preferredChannel := None; contactFrequency := cf_medium |};
         consentHistory := [];
         communicationHistory := [];
         violationHistory := [];
         riskScore := 0 |}.

Definition updateCustomerComplianceProfile (customerId : string)
    (communicationRecord : CommunicationComplianceRecord) : M unit :=
  consoleLog (UpdatingProfile customerId communicationRecord).

Definition getNextAllowedTime (customerId : string) (channel : Channel)
    (timezone : string) (customerProfile : CustomerComplianceProfile)
    (rules : TcpaComplianceRule) : M Z :=
  now <- dateNow clock ;;
  let nextAllowed := now in
  (* Check if we're outside calling hours *)
  let currentHour := getHours now in
  let nextAllowed :=
    if currentHour <? start (callingHours rules) then
      setHours nextAllowed (start (callingHours rules))
    else if end_ (callingHours rules) <? currentHour then
      setHours (addDays nextAllowed 1) (start (callingHours rules))
    else nextAllowed in
  (* Check daily limits *)
  let today := toDateString now in
  let todayComms :=
    filter (fun c => (toDateString (r_timestamp c) =? today)
                     && Channel_eqb (r_channel c) channel)
           (communicationHistory customerProfile) in
  let dailyLimit :=
    if Channel_eqb channel sms
    then maxDailyTexts rules else maxDailyCalls rules in
  let nextAllowed :=
    if dailyLimit <=? len todayComms then
      setHours (addDays nextAllowed 1) (start (callingHours rules))
    else nextAllowed in
  (* Check weekly limits *)
  let thisWeek := getWeekStart now in
  let weekComms :=
    filter (fun c => (thisWeek <=? r_timestamp c)
                     && Channel_eqb (r_channel c) channel)
           (communicationHistory customerProfile) in
  let weeklyLimit :=
    if Channel_eqb channel sms
    then maxWeeklyTexts rules else maxWeeklyCalls rules in
  let nextAllowed :=
    if weeklyLimit <=? len weekComms then
      let nextWeek := addDays thisWeek 7 in
      setHours nextWeek (start (callingHours rules))
    else nextAllowed in
  ret nextAllowed.

(* -------------------------------------------------------------- *)
(** *** src/analytics-update/interfaces.ts, [ComplianceService] *)

(** [checkCompliance] once the rules and the customer's profile are
    loaded. *)
Definition evaluate (startTime : Z) (rules : ComplianceRuleSet)
    (customerProfile : CustomerComplianceProfile)
    (request : ComplianceCheckRequest) : M ComplianceCheckResult :=
  tcpaResult <- checkTcpaCompliance request customerProfile (tcpa rules) ;;
  fdcpaResult <-
    checkFdcpaCompliance request customerProfile (fdcpa rules) ;;
  let contentResult :=
    validateContent (content request) (strategy request) rules in
  consentResult <- verifyConsent request customerProfile (tcpa rules) ;;
  frequencyResult <-
    checkFrequencyLimits (customerId request) (channel request)
      customerProfile rules ;;
  let allViolations :=
    f_violations tcpaResult ++ f_violations fdcpaResult
    ++ f_violations contentResult ++ f_violations consentResult
    ++ f_violations frequencyResult in
  let allWarnings :=
    f_warnings tcpaResult ++ f_warnings fdcpaResult
    ++ f_warnings contentResult ++ f_warnings consentResult
    ++ f_warnings frequencyResult in
  (* Determine if communication can proceed *)
  let canProceed := len allViolations =? 0 in
  (* Calculate next allowed time if not compliant *)
  nextAllowedTime <-
    (if negb canProceed then
       t <- getNextAllowedTime (customerId request) (channel request)
              (match customerTimezone request with
               | Some z => if JsString.truthy z then z else "UTC"
               | None => "UTC"
               end)
              customerProfile (tcpa rules) ;;
       ret (Some t)
     else ret None) ;;
  auditTime <- dateNow clock ;;
  auditEntry <-
    createAuditEntry request allViolations allWarnings
      (auditTime - startTime) ;;
  let result :=
    {| compliant := canProceed;
       violations := allViolations;
       warnings := allWarnings;
       auditEntry := auditEntry;
       recommendedActions :=
         generateRecommendedActions allViolations allWarnings;
       canProceed := canProceed;
       nextAllowedTime := nextAllowedTime |} in
  (* Update customer profile with communication record *)
  recordTime <- dateNow clock ;;
  endTime <- dateNow clock ;;
  let communicationRecord :=
    {| r_id := communicationId request;
       r_timestamp := recordTime;
       r_channel := channel request;
       r_strategy := strategy request;
       r_compliant := canProceed;
       r_violations := map v_type allViolations;
       r_warnings := map w_type allWarnings;
       r_processingTimeMs := endTime - startTime |} in
  _ <- updateCustomerComplianceProfile (customerId request)
         communicationRecord ;;
  ret result.

Definition checkCompliance (request : ComplianceCheckRequest)
    : M ComplianceCheckResult :=
  startTime <- dateNow clock ;;
  rules <- loadComplianceRules None ;;
  customerProfile <- getCustomerComplianceProfile (customerId request) ;;
  evaluate startTime rules customerProfile request.

End Host.

End Compliance.

(* ================================================================== *)
(** ** src/analytics-update/interfaces.ts, the utilities: the risk score *)

Module ComplianceRisk.
Import Effects Compliance.
Local Open Scope js_scope.

Section Host.
Variable clock : nat -> Z.

Let M := M Line.

(** [Array.prototype.filter] with a predicate that uses the host: the
    predicate runs on every element, in order. *)
Fixpoint filterM {A} (p : A -> M bool) (l : list A) : M (list A) :=
  match l with
  | [] => ret []
  | x :: l' =>
      b <- p x ;;
      rest <- filterM p l' ;;
      ret (if (b : bool) then x :: rest else rest)
  end.

(** [Array.prototype.some] with a predicate that uses the host: it stops
    at the first element the predicate accepts. *)
Fixpoint someM {A} (p : A -> M bool) (l : list A) : M bool :=
  match l with
  | [] => ret false
  | x :: l' =>
      b <- p x ;;
      if (b : bool) then ret true else someM p l'
  end.

Definition sevenDays : Z := 7 * 24 * 60 * 60 * 1000.

Definition calculateRiskScore (customerProfile : CustomerComplianceProfile)
    : M Z :=
  let riskScore := 0 in
  (* Base score from violation history *)
  let riskScore := riskScore + len (violationHistory customerProfile) * 10 in
  (* Weight violations by severity *)
  let riskScore :=
    fold_left (fun riskScore violation =>
                 match v_severity violation with
                 | high => riskScore + 20
                 | medium => riskScore + 10
                 | low => riskScore + 5
                 end)
              (violationHistory customerProfile) riskScore in
  (* Consider communication frequency *)
  recentCommunications <-
    filterM (fun c => now <- dateNow clock ;;
                      ret (now - sevenDays <? r_timestamp c))
            (communicationHistory customerProfile) ;;
  let riskScore :=
    if 20 <? len recentCommunications then riskScore + 15
    else if 10 <? len recentCommunications then riskScore + 5
    else riskScore in
  (* Consent status *)
  hasExpiredConsent <-
    someM (fun c =>
             if granted c then
               match expiresAt c with
               | Some e => now <- dateNow clock ;; ret (e <? now)
               | None => ret false
               end
             else ret false)
          (consentHistory customerProfile) ;;
  let riskScore :=
    if (hasExpiredConsent : bool) then riskScore + 25 else riskScore in
  (* Cap at 100 *)
  ret (Z.min riskScore 100).

End Host.

End ComplianceRisk.

(* ================================================================== *)
(** ** Vocabulary of the specification *)

Module Spec.
Import Communication.

(** The phrases [classifyError] looks for. *)
Definition classifierPhrases : list string :=
  ["rate limit"; "too many requests"; "invalid recipient"; "blocked";
   "unsubscribed"; "compliance"; "timeout"; "network"; "temporary"].

(** The first delay of the backoff formula: the head of the delay
    table, or 60 seconds when the table has no (non-zero) head. *)
Definition firstDelay (rl : RetryLogic) : Z :=
  match retryDelays rl with
  | d :: _ => if d =? 0 then 60 else d
  | [] => 60
  end.

(** [min(firstDelay * multiplier ^ retryCount, maxDelay)]. *)
Definition backoffDelay (m : CommunicationMessage) (rl : RetryLogic) : Z :=
  Z.min (firstDelay rl * backoffMultiplier rl ^ Z.of_nat (retryCount m))
        (maxDelaySeconds rl).

(** The place of a channel in the fixed order email, sms, phone. *)
Definition rank (ch : Channel) : nat :=
  match ch with email => 0 | sms => 1 | phone => 2 end.

(** The channels already attempted, by the provider of each attempt. *)
Definition attempted (attempts : list CommunicationUtils.DeliveryAttempt)
    : list Channel :=
  map (fun a => CommunicationUtils.providerChannel
                  (CommunicationUtils.provider a)) attempts.

(** A minute of the day, from an hour and a minute. *)
Definition minuteOfDay (hm : Z * Z) : Z := fst hm * 60 + snd hm.

End Spec.

(* ================================================================== *)
(** ** Sample inputs *)

Module Samples.
Import Communication.

Definition defaultRetryLogic : RetryLogic :=
  {| rl_maxRetries := 3;
     retryDelays := [60; 300; 900];
     backoffMultiplier := 2;
     maxDelaySeconds := 3600;
     retryableErrors := ["timeout"; "rate_limit"; "temporary"] |}.

(** A retry policy whose first configured delay is zero seconds. *)
Definition immediateRetryLogic : RetryLogic :=
  {| rl_maxRetries := 3;
     retryDelays := [0; 300; 900];
     backoffMultiplier := 2;
     maxDelaySeconds := 3600;
     retryableErrors := ["timeout"; "rate_limit"; "temporary"] |}.

Definition messageAt (n : nat) : CommunicationMessage :=
  {| id := "msg_1";
     customerId := "CUST-001";
     channel := sms;
     strategy := reminder;
     content := "Default content";
     deliveryStatus := failed;
     retryCount := n;
     maxRetries := 3 |}.

Definition errorOf (msg : string) : JsError :=
  {| message := Some msg; asString := ("Error: " ++ msg)%string |}.

(** 2025-01-01T12:00:00Z, a Wednesday. *)
Definition noon : Z := 1735732800000.

Definition idle : Effects.World unit := Effects.mkWorld 0%nat 0%nat [].

(** 2025-01-01T22:00:00Z. *)
Definition night : Z := 1735768800000.

(** The local day of [noon] and [night] at UTC. *)
Definition newYear : Z := 20089.

Definition noonClock : nat -> Z := fun _ => noon.
Definition nightClock : nat -> Z := fun _ => night.
Definition noRandom : nat -> string := fun _ => "k3j9x0q2a".
Definition otherRandom : nat -> string := fun _ => "z81mmp4ty".

Definition quiet : Effects.World Compliance.Line :=
  Effects.mkWorld 0%nat 0%nat [].

(** The rule set [loadComplianceRules] returns. *)
Definition defaultRules : Compliance.ComplianceRuleSet :=
  fst (Compliance.loadComplianceRules noonClock None quiet).

(** The default rules with a daily call cap of five. *)
Definition fiveCallRules : Compliance.ComplianceRuleSet :=
  {| Compliance.tcpa :=
       {| Compliance.callingHours :=
            Compliance.callingHours (Compliance.tcpa defaultRules);
          Compliance.maxDailyCalls := 5;
          Compliance.maxWeeklyCalls := 14;
          Compliance.maxDailyTexts := 5;
          Compliance.maxWeeklyTexts := 14;
          Compliance.consentRequired := true;
          Compliance.consentExpirationDays := 730;
          Compliance.prohibitedContent :=
            Compliance.prohibitedContent (Compliance.tcpa defaultRules) |};
     Compliance.fdcpa := Compliance.fdcpa defaultRules;
     Compliance.lastUpdated := noon;
     Compliance.version := "1.0.0" |}.

Definition disclosed : string :=
  "This is an attempt to collect a debt. Name of creditor: ABC Corp. Amount of debt: $100. You have the right to dispute the debt.".

Definition requestOn (ch : Channel) : Compliance.ComplianceCheckRequest :=
  {| Compliance.customerId := "CUST-001";
     Compliance.communicationId := "COMM-001";
     Compliance.content := disclosed;
     Compliance.channel := ch;
     Compliance.strategy := reminder;
     Compliance.customerTimezone := None |}.

(** A record of a communication on [ch] at instant [t]. *)
Definition recordOn (ch : Channel) (t : Z) (ok : bool)
    : Compliance.CommunicationComplianceRecord :=
  {| Compliance.r_id := "COMM-000";
     Compliance.r_timestamp := t;
     Compliance.r_channel := ch;
     Compliance.r_strategy := reminder;
     Compliance.r_compliant := ok;
     Compliance.r_violations := [];
     Compliance.r_warnings := [];
     Compliance.r_processingTimeMs := 1 |}.

(** Consent for [ch], granted electronically on 2023-01-01. *)
Definition consentFor (ch : Channel) (expires : option Z)
    : Compliance.ConsentRecord :=
  {| Compliance.c_id := "CONSENT-001";
     Compliance.c_type := ch;
     Compliance.granted := true;
     Compliance.c_timestamp := 1672531200000;
     Compliance.method := Compliance.electronic;
     Compliance.ipAddress := Some "203.0.113.7";
     Compliance.userAgent := None;
     Compliance.expiresAt := expires;
     Compliance.revokedAt := None |}.

Definition profileWith (consents : list Compliance.ConsentRecord)
    (history : list Compliance.CommunicationComplianceRecord)
    : Compliance.CustomerComplianceProfile :=
  {| Compliance.p_customerId := "CUST-001";
     Compliance.contactPreferences :=
       {| Compliance.preferredChannel := None;
          Compliance.contactFrequency := Compliance.cf_medium |};
     Compliance.consentHistory := consents;
     Compliance.communicationHistory := history;
     Compliance.violationHistory := [];
     Compliance.riskScore := 0 |}.

(** A customer with standing consent for [ch] and [n] communications on
    [ch] earlier on the day of [noon]. *)
Definition contacted (ch : Channel) (n : nat)
    : Compliance.CustomerComplianceProfile :=
  profileWith [consentFor ch None]
    (repeat (recordOn ch (noon - 3600000) true) n).

(** 2024-12-01T00:00:00Z, a month before [noon]. *)
Definition lastMonth : Z := 1733011200000.

(** A customer whose sms consent lapsed last month and was renewed: the
    lapsed record stays on file, followed by the renewal. *)
Definition renewed : Compliance.CustomerComplianceProfile :=
  profileWith [consentFor sms (Some lastMonth); consentFor sms None] [].

(** The evaluation of a request on [ch] at the given clock, at UTC, over
    the given rules and profile. *)
Definition run (clock : nat -> Z) (rules : Compliance.ComplianceRuleSet)
    (profile : Compliance.CustomerComplianceProfile) (ch : Channel)
    : Compliance.ComplianceCheckResult :=
  fst (Compliance.evaluate 0 clock noRandom (clock 0%nat) rules profile
         (requestOn ch) quiet).

(** One more sms record of the day of [noon], of a blocked attempt. *)
Definition blockedRecord : Compliance.CommunicationComplianceRecord :=
  recordOn sms (noon - 60000) false.

(** [contacted sms 4] with [blockedRecord] added to its history. *)
Definition contactedAndBlocked : Compliance.CustomerComplianceProfile :=
  profileWith [consentFor sms None]
    (Compliance.communicationHistory (contacted sms 4) ++ [blockedRecord]).

(** The evaluation of [run] with another random source. *)
Definition runWith (random : nat -> string) (clock : nat -> Z)
    (rules : Compliance.ComplianceRuleSet)
    (profile : Compliance.CustomerComplianceProfile) (ch : Channel)
    : Compliance.ComplianceCheckResult :=
  fst (Compliance.evaluate 0 clock random (clock 0%nat) rules profile
         (requestOn ch) quiet).

(** [Number] on a string of decimal digits; any other string is not a
    number here. *)
Fixpoint digits (acc : Z) (s : string) : option Z :=
  match s with
  | EmptyString => Some acc
  | String c s' =>
      let n := Z.of_nat (nat_of_ascii c) in
      if (48 <=? n) && (n <=? 57) then digits (10 * acc + (n - 48)) s'
      else None
  end.

Definition decimal (s : string) : option Z := digits 0 s.

Definition anyTime : CommunicationUtils.ChannelSettings :=
  {| CommunicationUtils.enabled := true;
     CommunicationUtils.frequency := Some CommunicationUtils.immediate;
     CommunicationUtils.quietHours := None |}.

(** Preferences with quiet hours for sms from ten in the evening to eight
    in the morning. *)
Definition nightQuiet : CommunicationUtils.CommunicationPreferences :=
  {| CommunicationUtils.cp_customerId := "CUST-001";
     CommunicationUtils.cp_email := anyTime;
     CommunicationUtils.cp_sms :=
       {| CommunicationUtils.enabled := true;
          CommunicationUtils.frequency := Some CommunicationUtils.immediate;
          CommunicationUtils.quietHours :=
            Some {| CommunicationUtils.qh_start := "22:00";
                    CommunicationUtils.qh_end := "08:00" |} |};
     CommunicationUtils.cp_phone := anyTime |}.

(** 2025-01-02T08:00:00Z. *)
Definition morning : Z := 1735804800000.

(** A clock that reads [night] first and [morning] from then on. *)
Definition resumeClock : nat -> Z :=
  fun n => match n with O => night | S _ => morning end.

(** The host after one clock reading. *)
Definition later : Effects.World unit := Effects.mkWorld 1%nat 0%nat [].

End Samples.

(* ================================================================== *)
(** ** Vocabulary of the specification: verdicts *)

Module Verdict.
Import Compliance Effects.

(** The violation a per-channel daily cap produces.  The source files it
    under the type [TCPA_CONSENT_MISSING]; its description tells it from
    the consent violations. *)
Definition isDailyLimitViolation (v : ComplianceViolation) : bool :=
  match v_type v with
  | TCPA_CONSENT_MISSING => textStartsWith (v_description v) "Daily "
  | _ => false
  end.

(** The violations of the consent checks: no consent on file, or the
    consent found has expired. *)
Definition isConsentViolation (v : ComplianceViolation) : bool :=
  match v_type v with
  | TCPA_CONSENT_MISSING =>
      textStartsWith (v_description v) "Missing required consent"
      || textStartsWith (v_description v) "No valid consent found"
      || textStartsWith (v_description v) "Consent for "
  | _ => false
  end.

(** The violations filed under the type [TCPA_CONSENT_MISSING]: consent
    violations and per-channel cap violations alike. *)
Definition filedUnderConsent (v : ComplianceViolation) : bool :=
  match v_type v with TCPA_CONSENT_MISSING => true | _ => false end.

Definition isFrequencyWarning (w : ComplianceWarning) : bool :=
  match w_type w with FREQUENCY_LIMIT => true | _ => false end.

(** Valid consent, in the specification's words: granted, not revoked,
    and without an expiry or with one that is not yet past at [now]. *)
Definition validConsent (now : Z) (ch : Channel) (c : ConsentRecord) : bool :=
  Channel_eqb (c_type c) ch
  && granted c
  && negb (truthyOpt (revokedAt c))
  && match expiresAt c with
     | Some e => now <=? e
     | None => true
     end.

(** The number of records of the history on channel [ch] whose timestamp
    falls on the local day [day]. *)
Definition sentOn (tz : Z) (day : Z) (ch : Channel)
    (history : list CommunicationComplianceRecord) : Z :=
  len (filter (fun c => (JsDate.toDateString tz (r_timestamp c) =? day)
                        && Channel_eqb (r_channel c) ch) history).

(** The per-channel daily cap of the TCPA rules. *)
Definition dailyCap (rules : TcpaComplianceRule) (ch : Channel) : Z :=
  match ch with
  | sms => maxDailyTexts rules
  | _ => maxDailyCalls rules
  end.

(** Successive clock readings never go back. *)
Definition monotone (clock : nat -> Z) : Prop :=
  forall n m, (n <= m)%nat -> clock n <= clock m.

(** A record with the [compliant] flag replaced. *)
Definition withCompliant (b : bool) (c : CommunicationComplianceRecord)
    : CommunicationComplianceRecord :=
  {| r_id := r_id c;
     r_timestamp := r_timestamp c;
     r_channel := r_channel c;
     r_strategy := r_strategy c;
     r_compliant := b;
     r_violations := r_violations c;
     r_warnings := r_warnings c;
     r_processingTimeMs := r_processingTimeMs c |}.

(** A result whose audit entry carries another id. *)
Definition withAuditId (id : Text) (r : ComplianceCheckResult)
    : ComplianceCheckResult :=
  {| compliant := compliant r;
     violations := violations r;
     warnings := warnings r;
     auditEntry :=
       {| a_id := id;
          a_timestamp := a_timestamp (auditEntry r);
          a_customerId := a_customerId (auditEntry r);
          a_communicationId := a_communicationId (auditEntry r);
          a_checkType := a_checkType (auditEntry r);
          a_result := a_result (auditEntry r);
          a_violations := a_violations (auditEntry r);
          a_warnings := a_warnings (auditEntry r);
          a_processingTimeMs := a_processingTimeMs (auditEntry r) |};
     recommendedActions := recommendedActions r;
     canProceed := canProceed r;
     nextAllowedTime := nextAllowedTime r |}.

(** A profile with another communication history. *)
Definition withHistory (history : list CommunicationComplianceRecord)
    (p : CustomerComplianceProfile) : CustomerComplianceProfile :=
  {| p_customerId := p_customerId p;
     contactPreferences := contactPreferences p;
     consentHistory := consentHistory p;
     communicationHistory := history;
     violationHistory := violationHistory p;
     riskScore := riskScore p |}.

(** A check only reads the clock: it draws no random value and logs
    nothing. *)
Definition onlyReads (w w' : World Line) : Prop :=
  (reads w <= reads w')%nat /\ draws w' = draws w /\ console w' = console w.

(** A computation whose value and clock use are fixed by the number of
    readings already consumed: it draws nothing at random and does not
    look at the console. *)
Definition clockOnly {A} (c : M Line A) : Prop :=
  forall w1 w2,
    reads w1 = reads w2 ->
    fst (c w1) = fst (c w2) /\ reads (snd (c w1)) = reads (snd (c w2)).

(** *** Further vocabulary *)

Definition ViolationType_eqb (a b : ViolationType) : bool :=
  match a, b with
  | TCPA_TIME_RESTRICTION, TCPA_TIME_RESTRICTION
  | FDCPA_DISCLOSURE_MISSING, FDCPA_DISCLOSURE_MISSING
  | FDCPA_HARASSMENT, FDCPA_HARASSMENT
  | TCPA_CONSENT_MISSING, TCPA_CONSENT_MISSING
  | CONTENT_PROHIBITED, CONTENT_PROHIBITED => true
  | _, _ => false
  end.

(** The number of violations of type [t] in a list. *)
Definition countType (t : ViolationType) (l : list ComplianceViolation) : Z :=
  len (filter (fun v => ViolationType_eqb (v_type v) t) l).

(** The violation a per-channel weekly cap produces. *)
Definition isWeeklyLimitViolation (v : ComplianceViolation) : bool :=
  match v_type v with
  | TCPA_CONSENT_MISSING => textStartsWith (v_description v) "Weekly "
  | _ => false
  end.

(** The violation of the aggregate daily contact cap. *)
Definition isContactLimitViolation (v : ComplianceViolation) : bool :=
  match v_type v with
  | FDCPA_HARASSMENT =>
      textStartsWith (v_description v) "Daily contact limit exceeded"
  | _ => false
  end.

(** The violation of the minimum spacing between calls. *)
Definition isSpacingViolation (v : ComplianceViolation) : bool :=
  match v_type v with
  | FDCPA_HARASSMENT =>
      textStartsWith (v_description v) "Insufficient time between calls"
  | _ => false
  end.

(** The violation carries a non-empty suggested fix. *)
Definition hasFix (v : ComplianceViolation) : bool :=
  match v_suggestedFix v with
  | Some t => textTruthy t
  | None => false
  end.

(** The number of records of the history on channel [ch] at or after the
    instant [since]. *)
Definition sentSince (since : Z) (ch : Channel)
    (history : list CommunicationComplianceRecord) : Z :=
  len (filter (fun c => (since <=? r_timestamp c)
                        && Channel_eqb (r_channel c) ch) history).

(** The number of records of the history, on any channel, whose timestamp
    falls on the local day [day]. *)
Definition contactsOn (tz : Z) (day : Z)
    (history : list CommunicationComplianceRecord) : Z :=
  len (filter (fun c => JsDate.toDateString tz (r_timestamp c) =? day)
              history).

(** The per-channel weekly cap of the TCPA rules. *)
Definition weeklyCap (rules : TcpaComplianceRule) (ch : Channel) : Z :=
  match ch with
  | sms => maxWeeklyTexts rules
  | _ => maxWeeklyCalls rules
  end.

(** The warning that the consent found expires within thirty days.  The
    source files the warning on undocumented verbal consent under the same
    type; the description tells them apart. *)
Definition isExpiringWarning (w : ComplianceWarning) : bool :=
  match w_type w with
  | CONSENT_EXPIRING => textStartsWith (w_description w) "Consent for "
  | _ => false
  end.

Definition isHarassment (v : ComplianceViolation) : bool :=
  ViolationType_eqb (v_type v) FDCPA_HARASSMENT.

(** The local time of day of an instant, in milliseconds. *)
Definition timeOfDay (tz : Z) (d : Z) : Z :=
  JsDate.localTime tz d mod JsDate.msPerDay.

(** *** Occurrences in a text, for the content filter *)

(** The word occurs somewhere in the text, letter case aside. *)
Fixpoint occursIn (word s : string) : bool :=
  ContentFilter.matchesAt word s ||
  match s with
  | EmptyString => false
  | String _ s' => occursIn word s'
  end.

(** The text has the character [c], letter case aside. *)
Fixpoint hasChar (c : ascii) (s : string) : bool :=
  match s with
  | EmptyString => false
  | String d s' => Ascii.eqb (JsString.lowerChar d) c || hasChar c s'
  end.

(** A word that the marker ["[REDACTED]"] can neither contain nor
    complete: it has no bracket and does not occur in the marker. *)
Definition plainWord (word : string) : bool :=
  negb (hasChar "["%char word) && negb (hasChar "]"%char word)
  && negb (occursIn word "[REDACTED]").

End Verdict.

(* ================================================================== *)
(** * Properties *)

(** ** Retry scheduling and error classification *)

Section CommunicationFacts.
Import Communication Spec Effects.

Lemma setSeconds_add tz d s :
  JsDate.setSeconds tz d (JsDate.getSeconds tz d + s) = d + 1000 * s.
Proof.
  unfold JsDate.setSeconds, JsDate.msPerSecond. ring.
Qed.

Lemma orElse_some_nonzero d e : d <> 0 -> orElse (Some d) e = d.
Proof. destruct d; simpl; congruence. Qed.

Lemma calculateNextRetry_pending tz clock m rl w :
  (retryCount m < rl_maxRetries rl)%nat ->
  fst (calculateNextRetry tz clock m rl w)
  = Some (clock (reads w) + 1000 * retryDelay m rl).
Proof.
  intros Hlt. unfold calculateNextRetry.
  destruct (Nat.leb_spec (rl_maxRetries rl) (retryCount m)); [lia|].
  cbv [bind dateNow ret fst]. now rewrite setSeconds_add.
Qed.

Lemma firstDelay_orElse rl :
  orElse (nth_error (retryDelays rl) 0%nat) 60 = firstDelay rl.
Proof.
  unfold firstDelay. destruct (retryDelays rl) as [|d l]; simpl; [easy|].
  destruct d; reflexivity.
Qed.

(** C7, as the code has it: below the retry budget the next retry is
    scheduled [delay] seconds after the clock reading, where [delay] is
    the entry of the delay table at index [retryCount] when that entry
    exists and is not zero, and otherwise
    [min(firstDelay * multiplier ^ retryCount, maxDelaySeconds)], with a
    first delay of 60 seconds when the table has no non-zero head; at or
    beyond the budget no retry time is produced. *)
Theorem calculateNextRetry_delay tz clock m rl w :
  ((retryCount m < rl_maxRetries rl)%nat ->
     (forall d, nth_error (retryDelays rl) (retryCount m) = Some d ->
                d <> 0 ->
                fst (calculateNextRetry tz clock m rl w)
                = Some (clock (reads w) + 1000 * d))
     /\ (nth_error (retryDelays rl) (retryCount m) = None
         \/ nth_error (retryDelays rl) (retryCount m) = Some 0 ->
         fst (calculateNextRetry tz clock m rl w)
         = Some (clock (reads w) + 1000 * backoffDelay m rl)))
  /\ ((rl_maxRetries rl <= retryCount m)%nat ->
      fst (calculateNextRetry tz clock m rl w) = None).
Proof.
  split.
  - intros Hlt. rewrite (calculateNextRetry_pending _ _ _ _ _ Hlt).
    unfold retryDelay. split.
    + intros d Hd Hnz. rewrite Hd. now rewrite orElse_some_nonzero.
    + intros Hnone. rewrite firstDelay_orElse.
      destruct Hnone as [-> | ->]; reflexivity.
  - intros Hge. unfold calculateNextRetry.
    destruct (Nat.leb_spec (rl_maxRetries rl) (retryCount m)); [|lia].
    reflexivity.
Qed.

(** The second attempt under the default policy waits the second table
    entry, 300 seconds; the fourth is never scheduled. *)
Lemma calculateNextRetry_delay_witness :
  fst (calculateNextRetry 0 (fun _ => Samples.noon)
         (Samples.messageAt 1) Samples.defaultRetryLogic Samples.idle)
  = Some (Samples.noon + 1000 * 300)
  /\ fst (calculateNextRetry 0 (fun _ => Samples.noon)
            (Samples.messageAt 3) Samples.defaultRetryLogic Samples.idle)
     = None.
Proof.
  split.
  - apply (proj1 (calculateNextRetry_delay 0 (fun _ => Samples.noon)
                    (Samples.messageAt 1) Samples.defaultRetryLogic
                    Samples.idle)).
    + simpl; lia.
    + reflexivity.
    + discriminate.
  - apply (proj2 (calculateNextRetry_delay 0 (fun _ => Samples.noon)
                    (Samples.messageAt 3) Samples.defaultRetryLogic
                    Samples.idle)).
    simpl; lia.
Defined.

(** C7 as stated fails when a table entry is zero: the index is within
    the table and below the budget, yet the delay is not the entry (0)
    but the backoff value, 60 seconds. *)
Lemma calculateNextRetry_zero_entry :
  (retryCount (Samples.messageAt 0)
   < rl_maxRetries Samples.immediateRetryLogic)%nat
  /\ nth_error (retryDelays Samples.immediateRetryLogic)
               (retryCount (Samples.messageAt 0)) = Some 0
  /\ retryDelay (Samples.messageAt 0) Samples.immediateRetryLogic = 60
  /\ fst (calculateNextRetry 0 (fun _ => Samples.noon)
            (Samples.messageAt 0) Samples.immediateRetryLogic Samples.idle)
     <> Some (Samples.noon + 1000 * 0).
Proof.
  repeat split; try reflexivity.
  - simpl; lia.
  - vm_compute. discriminate.
Qed.


(** The three outcomes of [classifyError], by the phrases found in the
    lower-cased message. *)
Lemma classifyError_cases e :
  let lower := JsString.toLowerCase (errorMessageOf e) in
  let c := classifyError e in
  (cl_type c = rate_limit /\ retryable c = true)
  \/ ((cl_type c = compliance \/ cl_type c = permanent)
      /\ retryable c = false)
  \/ (cl_type c = temporary /\ retryable c = true)
  \/ (cl_type c = unknown /\ retryable c = true).
Proof.
  cbv zeta. unfold classifyError.
  repeat match goal with
         | |- context [if ?b then _ else _] => destruct b
         end; simpl; auto 10.
Qed.

(** C8: a classified error is retryable exactly when its type is
    temporary, rate_limit or unknown, and not retryable exactly when its
    type is permanent or compliance; a message holding none of the phrases
    the classifier looks for has type unknown and is retryable. *)
Theorem classifyError_retryable e :
  let c := classifyError e in
  (retryable c = true <->
   cl_type c = temporary \/ cl_type c = rate_limit \/ cl_type c = unknown)
  /\ (retryable c = false <->
      cl_type c = permanent \/ cl_type c = compliance)
  /\ ((forall p, In p classifierPhrases ->
         JsString.includes (JsString.toLowerCase (errorMessageOf e)) p
         = false) ->
      cl_type c = unknown /\ retryable c = true).
Proof.
  cbv zeta. split; [|split].
  - destruct (classifyError_cases e) as [[Ht Hr]|[[[Ht|Ht] Hr]|[[Ht Hr]|[Ht Hr]]]];
      rewrite Ht, Hr; split; intros H; auto;
      try discriminate; destruct H as [H|[H|H]]; discriminate.
  - destruct (classifyError_cases e) as [[Ht Hr]|[[[Ht|Ht] Hr]|[[Ht Hr]|[Ht Hr]]]];
      rewrite Ht, Hr; split; intros H; auto;
      try discriminate; destruct H as [H|H]; discriminate.
  - intros Hnone. unfold classifyError.
    rewrite !Hnone by (simpl; auto 10). simpl. auto.
Qed.

(** The message of the repository's own test, "Something went wrong",
    holds no known phrase. *)
Lemma classifyError_retryable_witness :
  cl_type (classifyError (Samples.errorOf "Something went wrong")) = unknown
  /\ retryable (classifyError (Samples.errorOf "Something went wrong"))
     = true.
Proof.
  apply (proj2 (proj2 (classifyError_retryable
                         (Samples.errorOf "Something went wrong")))).
  intros p Hp. simpl in Hp.
  repeat (destruct Hp as [<- | Hp]; [vm_compute; reflexivity|]).
  destruct Hp.
Defined.

(** C10: the rate-limit phrases are tested first, so a message that holds
    a rate-limit phrase together with a permanent or compliance phrase is
    classified rate_limit and retryable. *)
Theorem classifyError_rate_limit_first e :
  let lower := JsString.toLowerCase (errorMessageOf e) in
  JsString.includes lower "rate limit" = true
  \/ JsString.includes lower "too many requests" = true ->
  JsString.includes lower "compliance" = true
  \/ JsString.includes lower "blocked" = true
  \/ JsString.includes lower "invalid recipient" = true
  \/ JsString.includes lower "unsubscribed" = true ->
  classifyError e
  = {| cl_type := rate_limit; retryable := true;
       cl_message := errorMessageOf e |}.
Proof.
  cbv zeta. intros Hrate _. unfold classifyError.
  destruct Hrate as [-> | ->]; [reflexivity|].
  now rewrite orb_true_r.
Qed.

Lemma classifyError_rate_limit_first_witness :
  classifyError
    (Samples.errorOf "Too many requests: recipient blocked for compliance")
  = {| cl_type := rate_limit; retryable := true;
       cl_message := "Too many requests: recipient blocked for compliance" |}.
Proof.
  apply (classifyError_rate_limit_first
           (Samples.errorOf
              "Too many requests: recipient blocked for compliance")).
  - right. vm_compute. reflexivity.
  - left. vm_compute. reflexivity.
Defined.

(** [shouldRetry] never retries a message that has used up its budget, and
    retries one that has not unless the error names a non-retryable
    pattern. *)
Lemma shouldRetry_budget m error :
  (maxRetries m <= retryCount m)%nat -> shouldRetry m error = false.
Proof.
  intros H. unfold shouldRetry.
  destruct (Nat.leb_spec (maxRetries m) (retryCount m)); [reflexivity|lia].
Qed.

Lemma shouldRetry_no_error m :
  (retryCount m < maxRetries m)%nat -> shouldRetry m None = true.
Proof.
  intros H. unfold shouldRetry.
  destruct (Nat.leb_spec (maxRetries m) (retryCount m)); [lia|reflexivity].
Qed.

(** The patterns of [shouldRetry] are spelled with underscores: the error
    text "invalid recipient", which [classifyError] files as permanent,
    does not stop a retry here. *)
Example shouldRetry_invalid_recipient :
  shouldRetry (Samples.messageAt 2) (Some "invalid recipient") = true
  /\ retryable (classifyError (Samples.errorOf "Invalid recipient")) = false.
Proof. split; vm_compute; reflexivity. Qed.

(** ** Further properties of the communication utilities *)

(** *** Truncation *)

Lemma length_substring0 n s :
  String.length (CommunicationUtils.substring0 n s)
  = Nat.min n (String.length s).
Proof.
  unfold CommunicationUtils.substring0.
  revert s. induction n as [|n IH]; intros s.
  - destruct s; reflexivity.
  - destruct s as [|c s]; [reflexivity|].
    cbn [String.substring String.length]. now rewrite IH.
Qed.

Lemma prefix_substring0 n s :
  String.prefix (CommunicationUtils.substring0 n s) s = true.
Proof.
  unfold CommunicationUtils.substring0.
  revert s. induction n as [|n IH]; intros s.
  - destruct s; reflexivity.
  - destruct s as [|c s]; [reflexivity|].
    cbn [String.substring String.prefix].
    destruct (ascii_dec c c); [apply IH|congruence].
Qed.

Lemma length_append (a b : string) :
  String.length (a ++ b)%string = (String.length a + String.length b)%nat.
Proof. induction a as [|c a IH]; cbn; [reflexivity|]. now rewrite IH. Qed.

(** X1: [formatSmsContent] never returns more than 1600 characters.  A
    content of at most 1600 characters is returned as it is; a longer one
    becomes exactly 1600 characters: its first 1597 followed by three
    dots. *)
Theorem formatSmsContent_length content :
  (String.length (CommunicationUtils.formatSmsContent content) <= 1600)%nat
  /\ ((String.length content <= 1600)%nat ->
      CommunicationUtils.formatSmsContent content = content)
  /\ ((1600 < String.length content)%nat ->
      String.length (CommunicationUtils.formatSmsContent content) = 1600%nat
      /\ exists kept,
           CommunicationUtils.formatSmsContent content
           = (kept ++ "...")%string
           /\ String.length kept = 1597%nat
           /\ String.prefix kept content = true).
Proof.
  unfold CommunicationUtils.formatSmsContent.
  destruct (Nat.leb_spec (String.length content) 1600) as [Hle|Hgt].
  - split; [exact Hle|]. split; [reflexivity|intros; lia].
  - assert (Hkept : String.length
                      (CommunicationUtils.substring0 (1600 - 3) content)
                    = 1597%nat)
      by (rewrite length_substring0; lia).
    assert (Hlen : String.length
                     (CommunicationUtils.substring0 (1600 - 3) content
                      ++ "...")%string = 1600%nat)
      by (rewrite length_append, Hkept; reflexivity).
    split; [lia|]. split; [intros; lia|]. intros _.
    split; [exact Hlen|].
    exists (CommunicationUtils.substring0 (1600 - 3) content).
    split; [reflexivity|]. split; [exact Hkept|apply prefix_substring0].
Qed.

(** X2: the script of [preparePhoneCallScript] never exceeds 500
    characters: a content of at most 500 characters is read as it is, a
    longer one is cut to its first 497 characters and three dots; the
    caller always gets three notes with it. *)
Theorem preparePhoneCallScript_length content :
  let s := CommunicationUtils.script
             (CommunicationUtils.preparePhoneCallScript content) in
  (String.length s <= 500)%nat
  /\ ((String.length content <= 500)%nat -> s = content)
  /\ ((500 < String.length content)%nat ->
      String.length s = 500%nat
      /\ s = (CommunicationUtils.substring0 497 content ++ "...")%string)
  /\ List.length (CommunicationUtils.notes
                    (CommunicationUtils.preparePhoneCallScript content))
     = 3%nat.
Proof.
  cbv zeta. unfold CommunicationUtils.preparePhoneCallScript.
  cbn [CommunicationUtils.script CommunicationUtils.notes].
  destruct (Nat.ltb_spec 500 (String.length content)) as [Hgt|Hle].
  - assert (Hlen : String.length
                     (CommunicationUtils.substring0 497 content ++ "...")%string
                   = 500%nat)
      by (rewrite length_append, length_substring0;
          change (String.length "...") with 3%nat; lia).
    split; [lia|]. split; [intros; lia|].
    split; [intros _; split; [exact Hlen|reflexivity]|reflexivity].
  - split; [exact Hle|]. split; [reflexivity|].
    split; [intros; lia|reflexivity].
Qed.

(** *** Request validation *)

Lemma stringIn_In s l : CommunicationUtils.stringIn s l = true <-> In s l.
Proof.
  unfold CommunicationUtils.stringIn. rewrite existsb_exists. split.
  - intros (x & Hx & He). apply String.eqb_eq in He. now subst.
  - intros H. exists s. split; [exact H|apply String.eqb_refl].
Qed.

(** The test of a required property that must be one of the strings of
    [l], none of which is empty. *)
Lemma required_one_of (o : option string) l :
  (forall x, In x l -> JsString.truthy x = true) ->
  negb (truthyOpt o)
  || negb (match o with
           | Some s => CommunicationUtils.stringIn s l
           | None => false
           end) = false
  <-> exists s, o = Some s /\ In s l.
Proof.
  intros Hl. destruct o as [s|]; cbn [truthyOpt negb orb].
  - destruct (CommunicationUtils.stringIn s l) eqn:E.
    + apply stringIn_In in E. rewrite (Hl s E). cbn.
      split; [eauto|reflexivity].
    + rewrite orb_true_r. split; [discriminate|].
      intros (x & Hx & Hin). injection Hx as <-.
      apply stringIn_In in Hin. congruence.
  - split; [discriminate|]. intros (x & Hx & _). discriminate.
Qed.

(** X3: [validateCommunicationRequest] accepts a request exactly when it
    names a customer, one of the three channels and one of the three
    strategies and, on the email channel, a subject; it reports every
    failed requirement, at most four, and a request is valid exactly when
    nothing is reported. *)
Theorem validateCommunicationRequest_accepts request :
  let v := CommunicationUtils.validateCommunicationRequest request in
  (CommunicationUtils.isValid v = true
   <-> CommunicationUtils.errors v = [])
  /\ (CommunicationUtils.isValid v = true
      <-> truthyOpt (CommunicationUtils.rq_customerId request) = true
          /\ (exists ch,
                CommunicationUtils.rq_channel request = Some ch
                /\ In ch ["email"; "sms"; "phone"])
          /\ (exists st,
                CommunicationUtils.rq_strategy request = Some st
                /\ In st ["reminder"; "negotiation"; "final_notice"])
          /\ (CommunicationUtils.rq_channel request = Some "email" ->
              truthyOpt (CommunicationUtils.subjectOf request) = true))
  /\ (List.length (CommunicationUtils.errors v) <= 4)%nat.
Proof.
  cbv zeta. unfold CommunicationUtils.validateCommunicationRequest.
  cbn [CommunicationUtils.isValid CommunicationUtils.errors].
  assert (Hsub :
    match CommunicationUtils.rq_channel request with
    | Some ch => String.eqb ch "email"
    | None => false
    end && negb (truthyOpt (CommunicationUtils.subjectOf request)) = false
    <-> (CommunicationUtils.rq_channel request = Some "email" ->
         truthyOpt (CommunicationUtils.subjectOf request) = true)).
  { destruct (CommunicationUtils.rq_channel request) as [ch|];
      [|split; [intros _ H; discriminate H|reflexivity]].
    destruct (String.eqb_spec ch "email") as [->|Hne]; cbn [andb].
    - destruct (truthyOpt (CommunicationUtils.subjectOf request));
        cbn; split; intros H;
        try (specialize (H eq_refl)); try discriminate; auto.
    - split; [|reflexivity]. intros _ H. congruence. }
  pose proof (required_one_of (CommunicationUtils.rq_channel request)
                ["email"; "sms"; "phone"]) as Hch.
  pose proof (required_one_of (CommunicationUtils.rq_strategy request)
                ["reminder"; "negotiation"; "final_notice"]) as Hst.
  set (a := truthyOpt (CommunicationUtils.rq_customerId request)) in *.
  match type of Hch with _ -> ?x = false <-> _ => set (b := x) in * end.
  match type of Hst with _ -> ?x = false <-> _ => set (c := x) in * end.
  match type of Hsub with ?x = false <-> _ => set (d := x) in * end.
  assert (Hb : b = false <-> exists s,
                 CommunicationUtils.rq_channel request = Some s
                 /\ In s ["email"; "sms"; "phone"]).
  { apply Hch. intros x [<-|[<-|[<-|[]]]]; reflexivity. }
  assert (Hc : c = false <-> exists s,
                 CommunicationUtils.rq_strategy request = Some s
                 /\ In s ["reminder"; "negotiation"; "final_notice"]).
  { apply Hst. intros x [<-|[<-|[<-|[]]]]; reflexivity. }
  rewrite <- Hb, <- Hc, <- Hsub.
  clearbody a b c d. clear.
  destruct a, b, c, d; cbn; repeat split; intros; try lia;
    try discriminate; try reflexivity;
    repeat match goal with H : _ /\ _ |- _ => destruct H end;
    discriminate.
Qed.

(** *** Channel selection *)

Lemma existsb_Channel_eqb ch l :
  existsb (Channel_eqb ch) l = true <-> In ch l.
Proof.
  rewrite existsb_exists. split.
  - intros (x & Hx & He). destruct ch, x; try discriminate; exact Hx.
  - intros H. exists ch. split; [exact H|now destruct ch].
Qed.

(** Whether [determineNextChannel] may pick the channel. *)
Lemma determineNextChannel_value attempts preferences :
  let ok ch :=
    negb (existsb (Channel_eqb ch) (attempted attempts))
    && CommunicationUtils.enabled
         (CommunicationUtils.settingsOf preferences ch) in
  CommunicationUtils.determineNextChannel attempts preferences
  = if ok email then Some email
    else if ok sms then Some sms
    else if ok phone then Some phone
    else None.
Proof. reflexivity. Qed.

(** X4: [determineNextChannel] picks the first channel, in the order
    email, sms, phone, that is enabled in the preferences and has not been
    attempted yet (an attempt counts for the channel of its provider).  It
    answers null exactly when every channel has been attempted or is
    disabled.  Once the picked channel is attempted in turn, the next pick
    comes later in the order, so a retry cycle tries each channel at most
    once. *)
Theorem determineNextChannel_first_untried attempts preferences :
  (forall ch,
     CommunicationUtils.determineNextChannel attempts preferences = Some ch ->
     CommunicationUtils.enabled
       (CommunicationUtils.settingsOf preferences ch) = true
     /\ ~ In ch (attempted attempts)
     /\ (forall ch',
           (rank ch' < rank ch)%nat ->
           CommunicationUtils.enabled
             (CommunicationUtils.settingsOf preferences ch') = false
           \/ In ch' (attempted attempts))
     /\ (forall a ch2,
           CommunicationUtils.providerChannel (CommunicationUtils.provider a)
           = ch ->
           CommunicationUtils.determineNextChannel (attempts ++ [a])
             preferences = Some ch2 ->
           (rank ch < rank ch2)%nat))
  /\ (CommunicationUtils.determineNextChannel attempts preferences = None
      <-> forall ch,
            CommunicationUtils.enabled
              (CommunicationUtils.settingsOf preferences ch) = false
            \/ In ch (attempted attempts)).
Proof.
  assert (Hok : forall l ch,
    negb (existsb (Channel_eqb ch) l)
    && CommunicationUtils.enabled
         (CommunicationUtils.settingsOf preferences ch) = false
    <-> CommunicationUtils.enabled
          (CommunicationUtils.settingsOf preferences ch) = false
        \/ In ch l).
  { intros l ch. rewrite <- existsb_Channel_eqb.
    destruct (existsb _ _), (CommunicationUtils.enabled _); cbn;
      intuition discriminate. }
  assert (Hok' : forall l ch,
    negb (existsb (Channel_eqb ch) l)
    && CommunicationUtils.enabled
         (CommunicationUtils.settingsOf preferences ch) = true
    <-> CommunicationUtils.enabled
          (CommunicationUtils.settingsOf preferences ch) = true
        /\ ~ In ch l).
  { intros l ch. rewrite <- existsb_Channel_eqb.
    destruct (existsb _ _), (CommunicationUtils.enabled _); cbn;
      intuition discriminate. }
  assert (Hext : forall a ch,
    In ch (attempted (attempts ++ [a]))
    <-> In ch (attempted attempts)
        \/ ch = CommunicationUtils.providerChannel
                  (CommunicationUtils.provider a)).
  { intros a ch. unfold attempted. rewrite map_app, in_app_iff. cbn.
    intuition. }
  split.
  - intros ch Hpick. rewrite determineNextChannel_value in Hpick.
    cbv zeta in Hpick.
    destruct (negb _ && _) eqn:E1 in Hpick;
      [|destruct (negb _ && _) eqn:E2 in Hpick;
        [|destruct (negb _ && _) eqn:E3 in Hpick; [|discriminate]]];
      injection Hpick as <-.
    + apply Hok' in E1 as [He Hn].
      repeat split; [exact He|exact Hn| |].
      * intros ch' Hr. destruct ch'; cbn in Hr; lia.
      * intros a ch2 Ha Hnext. destruct ch2; cbn; try lia.
        rewrite determineNextChannel_value in Hnext. cbv zeta in Hnext.
        destruct (negb _ && _) eqn:F1 in Hnext; [|
          destruct (negb _ && _) in Hnext; [discriminate|];
          destruct (negb _ && _) in Hnext; discriminate].
        apply Hok' in F1 as [_ F1]. exfalso. apply F1, Hext. now right.
    + apply Hok in E1. apply Hok' in E2 as [He Hn].
      repeat split; [exact He|exact Hn| |].
      * intros ch' Hr. destruct ch'; cbn in Hr; try lia. exact E1.
      * intros a ch2 Ha Hnext.
        rewrite determineNextChannel_value in Hnext. cbv zeta in Hnext.
        destruct (negb _ && _) eqn:F1 in Hnext.
        { apply Hok' in F1 as [F0 F1].
          destruct E1 as [E1|E1]; [congruence|].
          exfalso. apply F1, Hext. now left. }
        destruct (negb _ && _) eqn:F2 in Hnext.
        { apply Hok' in F2 as [_ F2]. exfalso. apply F2, Hext. now right. }
        destruct (negb _ && _) in Hnext; [|discriminate].
        injection Hnext as <-. cbn. lia.
    + apply Hok in E1, E2. apply Hok' in E3 as [He Hn].
      repeat split; [exact He|exact Hn| |].
      * intros ch' Hr. destruct ch'; cbn in Hr; try lia; assumption.
      * intros a ch2 Ha Hnext.
        rewrite determineNextChannel_value in Hnext. cbv zeta in Hnext.
        destruct (negb _ && _) eqn:F1 in Hnext.
        { apply Hok' in F1 as [F0 F1].
          destruct E1 as [E1|E1]; [congruence|].
          exfalso. apply F1, Hext. now left. }
        destruct (negb _ && _) eqn:F2 in Hnext.
        { apply Hok' in F2 as [F0 F2].
          destruct E2 as [E2|E2]; [congruence|].
          exfalso. apply F2, Hext. now left. }
        destruct (negb _ && _) eqn:F3 in Hnext; [|discriminate].
        apply Hok' in F3 as [_ F3]. exfalso. apply F3, Hext. now right.
  - rewrite determineNextChannel_value. cbv zeta. split.
    + intros H ch.
      destruct (negb _ && _) eqn:E1 in H; [discriminate|].
      destruct (negb _ && _) eqn:E2 in H; [discriminate|].
      destruct (negb _ && _) eqn:E3 in H; [discriminate|].
      apply Hok. now destruct ch.
    + intros H.
      rewrite (proj2 (Hok _ email) (H email)),
        (proj2 (Hok _ sms) (H sms)), (proj2 (Hok _ phone) (H phone)).
      reflexivity.
Qed.

(** *** Provider webhooks *)

(** X5: [parseProviderWebhook] always yields a message id, "unknown"
    when the payload carries neither [message_id] nor [id].  A dropped or
    bounced event or a failed status gives failed, also when another
    property says processed or queued; otherwise a processed event or a
    queued status gives pending; and every other payload, the empty one
    included, is reported as delivered. *)
Theorem parseProviderWebhook_status provider payload :
  let p := CommunicationUtils.parseProviderWebhook provider payload in
  let failing :=
    CommunicationUtils.optIs (CommunicationUtils.event payload) "dropped"
    || CommunicationUtils.optIs (CommunicationUtils.event payload) "bounce"
    || CommunicationUtils.optIs (CommunicationUtils.wp_status payload)
         "failed" in
  let waiting :=
    CommunicationUtils.optIs (CommunicationUtils.event payload) "processed"
    || CommunicationUtils.optIs (CommunicationUtils.wp_status payload)
         "queued" in
  JsString.truthy (CommunicationUtils.pw_messageId p) = true
  /\ (truthyOpt (CommunicationUtils.message_id payload) = false ->
      truthyOpt (CommunicationUtils.wp_id payload) = false ->
      CommunicationUtils.pw_messageId p = "unknown")
  /\ (CommunicationUtils.pw_status p = failed <-> failing = true)
  /\ (CommunicationUtils.pw_status p = pending
      <-> failing = false /\ waiting = true)
  /\ (CommunicationUtils.pw_status p = delivered
      <-> failing = false /\ waiting = false).
Proof.
  cbv zeta. unfold CommunicationUtils.parseProviderWebhook.
  cbn [CommunicationUtils.pw_messageId CommunicationUtils.pw_status].
  split; [|split].
  - destruct (CommunicationUtils.message_id payload) as [m|];
      [destruct (JsString.truthy m) eqn:Hm; [exact Hm|]|];
      (destruct (CommunicationUtils.wp_id payload) as [i|];
       [destruct (JsString.truthy i) eqn:Hi; [exact Hi|reflexivity]
       |reflexivity]).
  - intros Hm Hi.
    destruct (CommunicationUtils.message_id payload) as [m|];
      cbn in Hm; rewrite ?Hm;
      (destruct (CommunicationUtils.wp_id payload) as [i|];
       cbn in Hi; rewrite ?Hi; reflexivity).
  - destruct (_ || _ || _); [|destruct (_ || _)];
      repeat split; intros; try discriminate; try reflexivity;
      match goal with H : _ /\ _ |- _ => destruct H; discriminate end.
Qed.

(** *** Quiet hours *)

Section QuietHours.
Variable tz : Z.
Variable clock : nat -> Z.
Variable Number : string -> option Z.

Ltac clock_arith :=
  unfold CommunicationUtils.getMinutes, CommunicationUtils.setHoursMinutes,
    JsDate.getHours, JsDate.addDays, JsDate.dayNumber, JsDate.localTime,
    JsDate.msPerHour, JsDate.msPerDay, JsDate.msPerMinute in *;
  Z.to_euclidean_division_equations; lia.

Lemma bind_split {L A B} (c : M L A) (k : A -> M L B) (w : World L) :
  bind c k w = k (fst (c w)) (snd (c w)).
Proof. unfold bind. now destruct (c w). Qed.

Lemma setHoursMinutes_reads d h m :
  0 <= h <= 23 -> 0 <= m <= 59 ->
  JsDate.getHours tz (CommunicationUtils.setHoursMinutes tz d h m) = h
  /\ CommunicationUtils.getMinutes tz
       (CommunicationUtils.setHoursMinutes tz d h m) = m
  /\ JsDate.getHours tz
       (JsDate.addDays (CommunicationUtils.setHoursMinutes tz d h m) 1) = h
  /\ CommunicationUtils.getMinutes tz
       (JsDate.addDays (CommunicationUtils.setHoursMinutes tz d h m) 1) = m.
Proof. intros Hh Hm. repeat split; clock_arith. Qed.

Lemma setHoursMinutes_same_day d h m :
  0 <= h <= 23 -> 0 <= m <= 59 ->
  d - JsDate.msPerDay < CommunicationUtils.setHoursMinutes tz d h m
  < d + JsDate.msPerDay.
Proof. intros Hh Hm. clock_arith. Qed.

(** The value of [getNextAllowedTime] under quiet hours. *)
Lemma getNextAllowedTime_quiet preferences channel q w :
  CommunicationUtils.quietHours
    (CommunicationUtils.settingsOf preferences channel) = Some q ->
  let now := clock (reads w) in
  let e := CommunicationUtils.hourAndMinute Number
             (CommunicationUtils.qh_end q) in
  let at_end := CommunicationUtils.setHoursMinutes tz now (fst e) (snd e) in
  fst (CommunicationUtils.getNextAllowedTime tz clock Number preferences
         channel w)
  = if at_end <=? now then JsDate.addDays at_end 1 else at_end.
Proof.
  intros Hq. cbv zeta. unfold CommunicationUtils.getNextAllowedTime.
  rewrite bind_split. cbv beta. rewrite Hq.
  destruct (CommunicationUtils.hourAndMinute Number _) as [eh em].
  reflexivity.
Qed.

(** Under quiet hours whose end reads as a clock time, the next allowed
    time is the next occurrence of that clock time. *)
Lemma getNextAllowedTime_clock_time preferences channel w q eh em :
  CommunicationUtils.quietHours
    (CommunicationUtils.settingsOf preferences channel) = Some q ->
  CommunicationUtils.hourAndMinute Number (CommunicationUtils.qh_end q)
  = (eh, em) ->
  0 <= eh <= 23 -> 0 <= em <= 59 ->
  let now := clock (reads w) in
  let next :=
    fst (CommunicationUtils.getNextAllowedTime tz clock Number preferences
           channel w) in
  now < next <= now + JsDate.msPerDay
  /\ JsDate.getHours tz next = eh
  /\ CommunicationUtils.getMinutes tz next = em.
Proof.
  intros Hq He Heh Hem. cbv zeta.
  rewrite (getNextAllowedTime_quiet _ _ q w Hq). cbv zeta.
  rewrite He. cbn [fst snd].
  pose proof (setHoursMinutes_reads (clock (reads w)) eh em Heh Hem)
    as (H1 & H2 & H3 & H4).
  destruct (Z.leb_spec
              (CommunicationUtils.setHoursMinutes tz (clock (reads w)) eh em)
              (clock (reads w))) as [Hle|Hgt].
  - split; [|split; [exact H3|exact H4]].
    clear H1 H2 H3 H4. clock_arith.
  - split; [|split; [exact H1|exact H2]].
    clear H1 H2 H3 H4. clock_arith.
Qed.

(** X6: without quiet hours for the channel every time is allowed and
    the next allowed time is the present.  With quiet hours whose end
    reads as an hour and a minute of the day, the next allowed time is the
    next occurrence of that clock time: strictly after now, at most a day
    ahead, at the end's hour and minute. *)
Theorem next_allowed_time_is_quiet_end preferences channel w :
  let now := clock (reads w) in
  let next :=
    fst (CommunicationUtils.getNextAllowedTime tz clock Number preferences
           channel w) in
  (CommunicationUtils.quietHours
     (CommunicationUtils.settingsOf preferences channel) = None ->
   next = now
   /\ fst (CommunicationUtils.isWithinAllowedHours tz clock Number
             preferences channel w) = true)
  /\ (forall q eh em,
        CommunicationUtils.quietHours
          (CommunicationUtils.settingsOf preferences channel) = Some q ->
        CommunicationUtils.hourAndMinute Number
          (CommunicationUtils.qh_end q) = (eh, em) ->
        0 <= eh <= 23 -> 0 <= em <= 59 ->
        now < next <= now + JsDate.msPerDay
        /\ JsDate.getHours tz next = eh
        /\ CommunicationUtils.getMinutes tz next = em).
Proof.
  cbv zeta. split.
  - intros Hq.
    unfold CommunicationUtils.getNextAllowedTime,
      CommunicationUtils.isWithinAllowedHours.
    rewrite !bind_split. cbv beta. rewrite Hq. split; reflexivity.
  - intros q eh em Hq He Heh Hem.
    exact (getNextAllowedTime_clock_time preferences channel w q eh em
             Hq He Heh Hem).
Qed.

(** X7: the instant [getNextAllowedTime] answers with is one that
    [isWithinAllowedHours] still refuses.  With quiet hours whose end
    reads as an hour and a minute of the day, at the clock reading equal
    to the next allowed time the current minute equals the end minute,
    which both branches of [isWithinAllowedHours] count as quiet. *)
Theorem next_allowed_time_still_quiet preferences channel w w' q eh em :
  CommunicationUtils.quietHours
    (CommunicationUtils.settingsOf preferences channel) = Some q ->
  CommunicationUtils.hourAndMinute Number (CommunicationUtils.qh_end q)
  = (eh, em) ->
  0 <= eh <= 23 -> 0 <= em <= 59 ->
  clock (reads w')
  = fst (CommunicationUtils.getNextAllowedTime tz clock Number preferences
           channel w) ->
  fst (CommunicationUtils.isWithinAllowedHours tz clock Number preferences
         channel w') = false.
Proof.
  intros Hq He Heh Hem Hat.
  pose proof (getNextAllowedTime_clock_time preferences channel w q eh em
                Hq He Heh Hem) as (_ & Hh & Hm).
  cbv zeta in Hh, Hm. rewrite <- Hat in Hh, Hm.
  unfold CommunicationUtils.isWithinAllowedHours.
  rewrite bind_split. cbv beta. rewrite Hq.
  unfold dateNow. cbn [fst snd]. rewrite Hh, Hm, He.
  destruct (CommunicationUtils.hourAndMinute Number
              (CommunicationUtils.qh_start q)) as [sh sm].
  destruct (Z.leb_spec (sh * 60 + sm) (eh * 60 + em)) as [Hle|Hgt];
    cbn [ret fst].
  - apply orb_false_iff. split; [apply Z.ltb_ge; lia|apply Z.ltb_irrefl].
  - apply andb_false_iff. left. apply Z.ltb_irrefl.
Qed.

End QuietHours.

End CommunicationFacts.

(** ** The compliance evaluator *)

Section ComplianceFacts.
Import Compliance Verdict Effects.

Variable tz : Z.
Variable clock : nat -> Z.
Variable random : nat -> string.

Lemma bind_run {L A B} (c : M L A) (k : A -> M L B) (w : World L) :
  bind c k w = k (fst (c w)) (snd (c w)).
Proof. unfold bind. now destruct (c w). Qed.

Lemma len_zero_iff {A} (l : list A) : (len l =? 0) = true <-> l = [].
Proof.
  unfold len. destruct l; simpl; split; intros H; try easy.
Qed.

Ltac run_binds := repeat (rewrite bind_run; cbv beta).

(** The verdict fields of an evaluation are computed from its violation
    list. *)
Lemma evaluate_verdict startTime rules profile request w :
  let r := fst (evaluate tz clock random startTime rules profile request w) in
  canProceed r = (len (violations r) =? 0)
  /\ compliant r = canProceed r
  /\ (nextAllowedTime r = None <-> canProceed r = true).
Proof.
  cbv zeta. unfold evaluate. run_binds. cbn [ret fst canProceed violations compliant nextAllowedTime].
  split; [reflexivity|split; [reflexivity|]].
  match goal with |- context [negb ?b] => destruct b end; cbn [negb];
    rewrite ?bind_run; cbn [ret fst]; split; congruence.
Qed.

Lemma checkCompliance_run request w :
  checkCompliance tz clock random request w
  = evaluate tz clock random (clock (reads w))
      (fst (loadComplianceRules clock None
              (mkWorld (S (reads w)) (draws w) (console w))))
      (fst (getCustomerComplianceProfile (customerId request) w))
      request
      (mkWorld (S (S (reads w))) (draws w) (console w)).
Proof.
  unfold checkCompliance. run_binds. reflexivity.
Qed.

(** C1: the verdict may proceed exactly when the accumulated violation
    list is empty, whatever the warnings; this holds for the evaluation
    over any rule set and profile, and so for [checkCompliance]. *)
Theorem canProceed_iff_no_violations startTime rules profile request w :
  let r := fst (evaluate tz clock random startTime rules profile request w) in
  let r' := fst (checkCompliance tz clock random request w) in
  (canProceed r = true <-> violations r = [])
  /\ (canProceed r = false <-> violations r <> [])
  /\ (canProceed r' = true <-> violations r' = [])
  /\ (canProceed r' = false <-> violations r' <> []).
Proof.
  cbv zeta.
  assert (H : forall r : ComplianceCheckResult,
             canProceed r = (len (violations r) =? 0) ->
             (canProceed r = true <-> violations r = [])
             /\ (canProceed r = false <-> violations r <> [])).
  { intros r Hr. rewrite Hr. split; [apply len_zero_iff|].
    rewrite <- len_zero_iff. destruct (len (violations r) =? 0); split; congruence. }
  split; [|split; [|rewrite checkCompliance_run]];
    apply H, evaluate_verdict.
Qed.

(** *** Calendar arithmetic *)

Ltac date_arith :=
  unfold JsDate.getWeekStart, JsDate.getDay, JsDate.getHours,
    JsDate.setHours, JsDate.addDays, JsDate.toDateString, JsDate.dayNumber,
    JsDate.localTime, JsDate.msPerHour, JsDate.msPerDay in *;
  Z.to_euclidean_division_equations; lia.

(** Before the window opens, the opening hour of the same day is ahead. *)
Lemma setHours_today_ahead now s :
  JsDate.getHours tz now < s -> now <= JsDate.setHours tz now s.
Proof. intros H. date_arith. Qed.

(** An hour of a later day is ahead, whatever non-negative hour it is. *)
Lemma setHours_later_day now d s :
  0 <= s ->
  JsDate.dayNumber tz now < JsDate.dayNumber tz d ->
  now <= JsDate.setHours tz d s.
Proof. intros Hs Hd. date_arith. Qed.

Lemma dayNumber_addDays d n :
  JsDate.dayNumber tz (JsDate.addDays d n) = JsDate.dayNumber tz d + n.
Proof. date_arith. Qed.

Lemma dayNumber_le a b : a <= b -> JsDate.dayNumber tz a <= JsDate.dayNumber tz b.
Proof. intros H. date_arith. Qed.

(** The week start is at most six days back, so a week after it is at
    least one day ahead. *)
Lemma dayNumber_next_week now :
  JsDate.dayNumber tz now
  < JsDate.dayNumber tz (JsDate.addDays (JsDate.getWeekStart tz now) 7).
Proof. date_arith. Qed.

(** [getNextAllowedTime] never answers with a time before the reading it
    took as [now], when the window's opening hour is not negative. *)
Lemma getNextAllowedTime_not_before cid ch zone profile rules w :
  0 <= start (callingHours rules) ->
  clock (reads w)
  <= fst (getNextAllowedTime tz clock cid ch zone profile rules w).
Proof.
  intros Hs. unfold getNextAllowedTime.
  cbv beta iota zeta delta [bind dateNow ret fst].
  set (now := clock (reads w)).
  set (s := start (callingHours rules)) in *.
  match goal with
  | |- _ <= (if ?weekly then _ else _) => destruct weekly
  end.
  { apply setHours_later_day; [exact Hs|apply dayNumber_next_week]. }
  assert (Hfirst :
    now <= (if JsDate.getHours tz now <? s then JsDate.setHours tz now s
            else if end_ (callingHours rules) <? JsDate.getHours tz now
                 then JsDate.setHours tz (JsDate.addDays now 1) s
                 else now)).
  { destruct (Z.ltb_spec (JsDate.getHours tz now) s).
    - now apply setHours_today_ahead.
    - destruct (_ <? _); [|lia].
      apply setHours_later_day; [exact Hs|].
      rewrite dayNumber_addDays. lia. }
  match goal with
  | |- _ <= (if ?daily then _ else _) => destruct daily
  end; [|exact Hfirst].
  apply setHours_later_day; [exact Hs|].
  rewrite dayNumber_addDays.
  apply dayNumber_le in Hfirst. lia.
Qed.

(** *** How the checks use the host *)

Lemma onlyReads_refl w : onlyReads w w.
Proof. unfold onlyReads. auto. Qed.

Lemma onlyReads_trans w1 w2 w3 :
  onlyReads w1 w2 -> onlyReads w2 w3 -> onlyReads w1 w3.
Proof. unfold onlyReads. intros (?&?&?) (?&?&?). repeat split; try lia; congruence. Qed.

Ltac run_host :=
  cbv beta iota zeta delta [bind dateNow ret fst snd];
  cbn [reads draws console].

Ltac solve_onlyReads :=
  run_host; unfold onlyReads; cbn [reads draws console];
  repeat split; lia.

Lemma checkTcpaCompliance_onlyReads request profile rules w :
  onlyReads w (snd (checkTcpaCompliance tz clock request profile rules w)).
Proof.
  unfold checkTcpaCompliance.
  destruct (consentRequired rules);
    [destruct (findConsent request profile) as [c|];
       [destruct (expiresAt c)|]|];
    solve_onlyReads.
Qed.

Lemma checkFdcpaCompliance_onlyReads request profile rules w :
  onlyReads w (snd (checkFdcpaCompliance tz clock request profile rules w)).
Proof.
  unfold checkFdcpaCompliance.
  destruct (hd_error _);
    [destruct (Channel_eqb (channel request) phone)|];
    solve_onlyReads.
Qed.

Lemma verifyConsent_onlyReads request profile rules w :
  onlyReads w (snd (verifyConsent clock request profile rules w)).
Proof.
  unfold verifyConsent.
  destruct (consentRequired rules); cbn [negb];
    [destruct (findConsent request profile) as [c|];
       [destruct (expiresAt c) as [e|]|]|];
    try solve_onlyReads.
  run_host. destruct (e <? _); solve_onlyReads.
Qed.

Lemma checkFrequencyLimits_onlyReads cid ch profile rules w :
  onlyReads w (snd (checkFrequencyLimits tz clock cid ch profile rules w)).
Proof. unfold checkFrequencyLimits. solve_onlyReads. Qed.

(** The world in which an evaluation asks for the next allowed time. *)
Lemma evaluate_nextAllowedTime startTime rules profile request w :
  let r := fst (evaluate tz clock random startTime rules profile request w) in
  canProceed r = false ->
  exists w',
    onlyReads w w'
    /\ nextAllowedTime r
       = Some (fst (getNextAllowedTime tz clock (customerId request)
                      (channel request)
                      (match customerTimezone request with
                       | Some z => if JsString.truthy z then z else "UTC"
                       | None => "UTC"
                       end)
                      profile (tcpa rules) w')).
Proof.
  cbv zeta. unfold evaluate. run_binds.
  cbn [ret fst canProceed nextAllowedTime].
  intros ->. cbn [negb]. rewrite bind_run. cbn [ret fst].
  eexists. split; [|reflexivity].
  eapply onlyReads_trans; [apply checkTcpaCompliance_onlyReads|].
  eapply onlyReads_trans; [apply checkFdcpaCompliance_onlyReads|].
  eapply onlyReads_trans; [apply verifyConsent_onlyReads|].
  apply checkFrequencyLimits_onlyReads.
Qed.

Lemma evaluate_not_in_past startTime rules profile request w :
  0 <= start (callingHours (tcpa rules)) ->
  let r := fst (evaluate tz clock random startTime rules profile request w) in
  canProceed r = false ->
  exists t n,
    nextAllowedTime r = Some t
    /\ (reads w <= n)%nat
    /\ clock n <= t
    /\ (monotone clock -> clock (reads w) <= t).
Proof.
  intros Hs r Hblocked.
  destruct (evaluate_nextAllowedTime startTime rules profile request w Hblocked)
    as (w' & (Hreads & _) & Hnext).
  eexists. exists (reads w'). split; [exact Hnext|].
  pose proof (getNextAllowedTime_not_before (customerId request)
                (channel request)
                (match customerTimezone request with
                 | Some z => if JsString.truthy z then z else "UTC"
                 | None => "UTC"
                 end) profile (tcpa rules) w' Hs) as Hle.
  repeat split; [exact Hreads|exact Hle|].
  intros Hmono. specialize (Hmono _ _ Hreads). lia.
Qed.

(** C6: a blocked evaluation carries a next allowed time, and that time is
    not before the clock reading [getNextAllowedTime] took as now, a
    reading of this evaluation; with a clock that never goes back it is
    not before the start of the evaluation.  This holds over any profile
    and any rule set whose calling window opens at a non-negative hour,
    and so for [checkCompliance] with the rules it loads. *)
Theorem nextAllowedTime_not_in_past request w :
  (forall startTime rules profile,
     0 <= start (callingHours (tcpa rules)) ->
     let r := fst (evaluate tz clock random startTime rules profile request w) in
     canProceed r = false ->
     exists t n,
       nextAllowedTime r = Some t
       /\ (reads w <= n)%nat
       /\ clock n <= t
       /\ (monotone clock -> clock (reads w) <= t))
  /\ (let r := fst (checkCompliance tz clock random request w) in
      canProceed r = false ->
      exists t n,
        nextAllowedTime r = Some t
        /\ (reads w <= n)%nat
        /\ clock n <= t
        /\ (monotone clock -> clock (reads w) <= t)).
Proof.
  split; [intros; now apply evaluate_not_in_past|].
  cbv zeta. rewrite checkCompliance_run. intros Hblocked.
  apply evaluate_not_in_past in Hblocked; [|cbv; discriminate].
  destruct Hblocked as (t & n & Hnext & Hn & Hle & Hmono).
  cbn [reads] in *.
  exists t, n. repeat split; [exact Hnext|lia|exact Hle|].
  intros Hm. specialize (Hmono Hm).
  pose proof (Hm (reads w) (S (S (reads w)))). lia.
Qed.

(** *** Frequency caps *)

Ltac split_ifs :=
  repeat match goal with
         | |- context [if ?b then _ else _] => destruct b
         end.

(** The TCPA check reports the daily cap exactly when the channel is sms
    or phone and today's same-channel records have reached it. *)
Lemma checkTcpaCompliance_daily request profile rules w day :
  (forall n, JsDate.toDateString tz (clock n) = day) ->
  existsb isDailyLimitViolation
    (f_violations (fst (checkTcpaCompliance tz clock request profile rules w)))
  = (Channel_eqb (channel request) sms || Channel_eqb (channel request) phone)
    && (dailyCap rules (channel request)
        <=? sentOn tz day (channel request) (communicationHistory profile)).
Proof.
  intros Hday. unfold checkTcpaCompliance, sentOn.
  destruct (consentRequired rules);
    [destruct (findConsent request profile) as [c|];
       [destruct (expiresAt c)|]|];
    run_host; cbn [f_violations]; rewrite !Hday;
    destruct (channel request); cbn [Channel_eqb orb andb dailyCap];
    rewrite !existsb_app;
    split_ifs; reflexivity.
Qed.

(** So does the frequency check. *)
Lemma checkFrequencyLimits_daily cid ch profile rules w day :
  (forall n, JsDate.toDateString tz (clock n) = day) ->
  existsb isDailyLimitViolation
    (f_violations (fst (checkFrequencyLimits tz clock cid ch profile rules w)))
  = (Channel_eqb ch sms || Channel_eqb ch phone)
    && (dailyCap (tcpa rules) ch
        <=? sentOn tz day ch (communicationHistory profile)).
Proof.
  intros Hday. unfold checkFrequencyLimits, sentOn.
  run_host; cbn [f_violations]; rewrite !Hday.
  destruct ch; cbn [Channel_eqb orb andb dailyCap];
    rewrite !existsb_app;
    split_ifs; reflexivity.
Qed.

Lemma existsb_none_filed (p : ComplianceViolation -> bool) l :
  (forall v, p v = true -> filedUnderConsent v = true) ->
  existsb filedUnderConsent l = false ->
  existsb p l = false.
Proof.
  intros Hp. induction l as [|v l IH]; simpl; [easy|].
  intros H. apply orb_false_iff in H as [Hv Hl].
  rewrite (IH Hl), orb_false_r.
  destruct (p v) eqn:E; [|reflexivity]. apply Hp in E. congruence.
Qed.

Lemma isDailyLimitViolation_filed v :
  isDailyLimitViolation v = true -> filedUnderConsent v = true.
Proof.
  unfold isDailyLimitViolation, filedUnderConsent.
  now destruct (v_type v).
Qed.

Lemma isConsentViolation_filed v :
  isConsentViolation v = true -> filedUnderConsent v = true.
Proof.
  unfold isConsentViolation, filedUnderConsent.
  now destruct (v_type v).
Qed.

(** The FDCPA check and the content check file nothing under the consent
    type. *)
Lemma checkFdcpaCompliance_none_filed request profile rules w :
  existsb filedUnderConsent
    (f_violations (fst (checkFdcpaCompliance tz clock request profile rules w)))
  = false.
Proof.
  unfold checkFdcpaCompliance, prohibitedPatterns.
  destruct (hd_error _);
    [destruct (Channel_eqb (channel request) phone)|];
    run_host; cbn [f_violations flat_map];
    rewrite !existsb_app; split_ifs; reflexivity.
Qed.

Lemma validateContent_none_filed content strategy rules :
  existsb filedUnderConsent
    (f_violations (validateContent content strategy rules)) = false.
Proof.
  unfold validateContent. cbn [f_violations].
  rewrite !existsb_app; split_ifs; reflexivity.
Qed.

(** The consent check reports no cap. *)
Lemma verifyConsent_no_daily request profile rules w :
  existsb isDailyLimitViolation
    (f_violations (fst (verifyConsent clock request profile rules w)))
  = false.
Proof.
  unfold verifyConsent.
  destruct (consentRequired rules); cbn [negb];
    [destruct (findConsent request profile) as [c|];
       [destruct (expiresAt c) as [e|]|]|];
    run_host; try reflexivity.
  destruct (e <? _); reflexivity.
Qed.

(** The violations and warnings of an evaluation are those of the five
    checks, in the order the checks run. *)
Lemma evaluate_findings startTime rules profile request w :
  exists w1 w2 w3,
    let tcpaResult :=
      fst (checkTcpaCompliance tz clock request profile (tcpa rules) w) in
    let fdcpaResult :=
      fst (checkFdcpaCompliance tz clock request profile (fdcpa rules) w1) in
    let contentResult :=
      validateContent (content request) (strategy request) rules in
    let consentResult :=
      fst (verifyConsent clock request profile (tcpa rules) w2) in
    let frequencyResult :=
      fst (checkFrequencyLimits tz clock (customerId request)
             (channel request) profile rules w3) in
    let r := fst (evaluate tz clock random startTime rules profile request w) in
    violations r
    = f_violations tcpaResult ++ f_violations fdcpaResult
      ++ f_violations contentResult ++ f_violations consentResult
      ++ f_violations frequencyResult
    /\ warnings r
       = f_warnings tcpaResult ++ f_warnings fdcpaResult
         ++ f_warnings contentResult ++ f_warnings consentResult
         ++ f_warnings frequencyResult.
Proof.
  unfold evaluate. run_binds. cbn [ret fst violations warnings].
  do 3 eexists. cbv zeta. split; reflexivity.
Qed.

Lemma evaluate_daily startTime rules profile request w day :
  (forall n, JsDate.toDateString tz (clock n) = day) ->
  existsb isDailyLimitViolation
    (violations (fst (evaluate tz clock random startTime rules profile
                        request w)))
  = (Channel_eqb (channel request) sms || Channel_eqb (channel request) phone)
    && (dailyCap (tcpa rules) (channel request)
        <=? sentOn tz day (channel request) (communicationHistory profile)).
Proof.
  intros Hday.
  destruct (evaluate_findings startTime rules profile request w)
    as (w1 & w2 & w3 & Hv & _).
  cbv zeta in Hv. rewrite Hv, !existsb_app.
  rewrite (checkTcpaCompliance_daily _ _ _ _ day Hday).
  rewrite (checkFrequencyLimits_daily _ _ _ _ _ day Hday).
  rewrite (existsb_none_filed _ _ isDailyLimitViolation_filed
             (checkFdcpaCompliance_none_filed _ _ _ _)).
  rewrite (existsb_none_filed _ _ isDailyLimitViolation_filed
             (validateContent_none_filed _ _ _)).
  rewrite verifyConsent_no_daily.
  cbn [orb]. now rewrite orb_diag.
Qed.

(** C2: on sms and on phone, with every clock reading of the evaluation
    on the local day [day], a history holding exactly the daily cap of
    same-channel records of that day yields the daily-cap violation, from
    the TCPA check and from the frequency check alike; a history holding
    one record fewer yields none. *)
Theorem daily_cap_boundary startTime rules profile request w day :
  channel request = sms \/ channel request = phone ->
  (forall n, JsDate.toDateString tz (clock n) = day) ->
  let sent :=
    sentOn tz day (channel request) (communicationHistory profile) in
  let cap := dailyCap (tcpa rules) (channel request) in
  let r := fst (evaluate tz clock random startTime rules profile request w) in
  (sent = cap ->
   existsb isDailyLimitViolation (violations r) = true
   /\ (forall w',
         existsb isDailyLimitViolation
           (f_violations (fst (checkTcpaCompliance tz clock request profile
                                 (tcpa rules) w'))) = true)
   /\ (forall w',
         existsb isDailyLimitViolation
           (f_violations (fst (checkFrequencyLimits tz clock
                                 (customerId request) (channel request)
                                 profile rules w'))) = true))
  /\ (sent = cap - 1 ->
      existsb isDailyLimitViolation (violations r) = false).
Proof.
  intros Hch Hday sent cap r.
  assert (Hsome :
    Channel_eqb (channel request) sms || Channel_eqb (channel request) phone
    = true) by (destruct Hch as [-> | ->]; reflexivity).
  split; intros Hsent.
  - assert (Hcap : (cap <=? sent) = true) by (apply Z.leb_le; lia).
    repeat split; intros;
      [unfold r; rewrite (evaluate_daily _ _ _ _ _ day Hday)
      |rewrite (checkTcpaCompliance_daily _ _ _ _ day Hday)
      |rewrite (checkFrequencyLimits_daily _ _ _ _ _ day Hday)];
      fold sent cap; now rewrite Hsome, Hcap.
  - assert (Hcap : (cap <=? sent) = false) by (apply Z.leb_gt; lia).
    unfold r. rewrite (evaluate_daily _ _ _ _ _ day Hday).
    fold sent cap. now rewrite Hcap, andb_false_r.
Qed.

(** *** Frequency warnings *)

Lemma checkTcpaCompliance_no_warnings request profile rules w :
  f_warnings (fst (checkTcpaCompliance tz clock request profile rules w)) = [].
Proof.
  unfold checkTcpaCompliance.
  destruct (consentRequired rules);
    [destruct (findConsent request profile) as [c|];
       [destruct (expiresAt c)|]|];
    reflexivity.
Qed.

Lemma checkFdcpaCompliance_no_warnings request profile rules w :
  f_warnings (fst (checkFdcpaCompliance tz clock request profile rules w)) = [].
Proof.
  unfold checkFdcpaCompliance.
  destruct (hd_error _);
    [destruct (Channel_eqb (channel request) phone)|];
    reflexivity.
Qed.

Lemma validateContent_no_frequency_warning content strategy rules :
  existsb isFrequencyWarning
    (f_warnings (validateContent content strategy rules)) = false.
Proof.
  unfold validateContent. cbn [f_warnings]. split_ifs; reflexivity.
Qed.

Lemma verifyConsent_no_frequency_warning request profile rules w :
  existsb isFrequencyWarning
    (f_warnings (fst (verifyConsent clock request profile rules w))) = false.
Proof.
  unfold verifyConsent.
  destruct (consentRequired rules); cbn [negb];
    [destruct (findConsent request profile) as [c|];
       [destruct (expiresAt c) as [e|]|]|];
    run_host; try reflexivity.
  - destruct (e <? _); cbn [f_warnings fst];
      rewrite ?existsb_app; split_ifs; reflexivity.
  - cbn [f_warnings]. split_ifs; reflexivity.
Qed.

(** The frequency check warns exactly on sms, once today's sms records
    reach four fifths of the daily text cap. *)
Lemma checkFrequencyLimits_warning cid ch profile rules w day :
  (forall n, JsDate.toDateString tz (clock n) = day) ->
  existsb isFrequencyWarning
    (f_warnings (fst (checkFrequencyLimits tz clock cid ch profile rules w)))
  = Channel_eqb ch sms
    && reaches80 (sentOn tz day ch (communicationHistory profile))
                 (maxDailyTexts (tcpa rules)).
Proof.
  intros Hday. unfold checkFrequencyLimits, sentOn.
  run_host; cbn [f_warnings]; rewrite !Hday.
  destruct ch; cbn [Channel_eqb andb]; try reflexivity.
  split_ifs; reflexivity.
Qed.

Lemma evaluate_frequency_warning startTime rules profile request w day :
  (forall n, JsDate.toDateString tz (clock n) = day) ->
  existsb isFrequencyWarning
    (warnings (fst (evaluate tz clock random startTime rules profile
                      request w)))
  = Channel_eqb (channel request) sms
    && reaches80 (sentOn tz day (channel request)
                    (communicationHistory profile))
                 (maxDailyTexts (tcpa rules)).
Proof.
  intros Hday.
  destruct (evaluate_findings startTime rules profile request w)
    as (w1 & w2 & w3 & _ & Hw).
  cbv zeta in Hw. rewrite Hw.
  rewrite checkTcpaCompliance_no_warnings, checkFdcpaCompliance_no_warnings.
  cbn [app]. rewrite !existsb_app.
  rewrite validateContent_no_frequency_warning,
    verifyConsent_no_frequency_warning.
  cbn [orb]. apply (checkFrequencyLimits_warning _ _ _ _ _ day Hday).
Qed.

(** C9, as the code has it: with every clock reading of the evaluation on
    the local day [day], an sms evaluation whose history holds at least
    four fifths of the daily text cap in sms records of that day carries a
    frequency-limit warning, at and beyond the cap as well; an email or
    phone evaluation carries none. *)
Theorem frequency_warning_sms_only startTime rules profile request w day :
  (forall n, JsDate.toDateString tz (clock n) = day) ->
  let sent :=
    sentOn tz day (channel request) (communicationHistory profile) in
  let r := fst (evaluate tz clock random startTime rules profile request w) in
  (channel request = sms ->
   4 * maxDailyTexts (tcpa rules) <= 5 * sent ->
   existsb isFrequencyWarning (warnings r) = true)
  /\ (channel request = sms ->
      5 * sent < 4 * maxDailyTexts (tcpa rules) ->
      existsb isFrequencyWarning (warnings r) = false)
  /\ (channel request <> sms ->
      existsb isFrequencyWarning (warnings r) = false).
Proof.
  intros Hday sent r. unfold r.
  rewrite (evaluate_frequency_warning _ _ _ _ _ day Hday).
  fold sent. unfold reaches80.
  split; [|split].
  - intros -> H. apply Z.leb_le in H. now rewrite H.
  - intros -> H. apply Z.leb_gt in H. now rewrite H.
  - intros H. destruct (channel request); try reflexivity. congruence.
Qed.

(** *** The record of an evaluation and the compliant flag *)

Lemma getNextAllowedTime_onlyReads cid ch zone profile rules w :
  onlyReads w (snd (getNextAllowedTime tz clock cid ch zone profile rules w)).
Proof. unfold getNextAllowedTime. solve_onlyReads. Qed.

(** Every evaluation, blocked or not, logs one profile update whose record
    carries the verdict in its [compliant] flag. *)
Lemma evaluate_record startTime rules profile request w :
  let r := fst (evaluate tz clock random startTime rules profile request w) in
  exists record,
    console (snd (evaluate tz clock random startTime rules profile request w))
    = console w ++ [UpdatingProfile (customerId request) record]
    /\ r_compliant record = canProceed r
    /\ r_channel record = channel request.
Proof.
  cbv zeta. unfold evaluate. run_binds.
  unfold updateCustomerComplianceProfile, createAuditEntry.
  run_binds.
  unfold ret, dateNow, mathRandom36, consoleLog.
  cbn [fst snd console reads draws].
  eexists. split.
  - f_equal.
    match goal with
    | |- console (snd (?c ?w')) = _ =>
        assert (Hlast : console (snd (c w')) = console w')
    end.
    { match goal with |- context [negb ?b] => destruct b end; cbn [negb];
        [reflexivity|].
      rewrite bind_run. cbn [snd].
      apply getNextAllowedTime_onlyReads. }
    rewrite Hlast.
    etransitivity; [apply checkFrequencyLimits_onlyReads|].
    etransitivity; [apply verifyConsent_onlyReads|].
    etransitivity; [apply checkFdcpaCompliance_onlyReads|].
    apply checkTcpaCompliance_onlyReads.
  - split; reflexivity.
Qed.

Lemma len_filter_withCompliant (p : CommunicationComplianceRecord -> bool)
    history c b :
  p (withCompliant b c) = p c ->
  len (filter p (history ++ [withCompliant b c]))
  = len (filter p (history ++ [c])).
Proof.
  intros Hp. unfold len. rewrite !filter_app, !length_app.
  cbn [filter]. rewrite Hp. now destruct (p c).
Qed.

(** The frequency checks do not read the [compliant] flag of a record. *)
Lemma checkFrequencyLimits_flag cid ch profile rules w history c b :
  checkFrequencyLimits tz clock cid ch
    (withHistory (history ++ [withCompliant b c]) profile) rules w
  = checkFrequencyLimits tz clock cid ch
      (withHistory (history ++ [c]) profile) rules w.
Proof.
  unfold checkFrequencyLimits. run_host.
  cbn [communicationHistory withHistory].
  rewrite !(len_filter_withCompliant _ history c b) by reflexivity.
  reflexivity.
Qed.

Lemma checkTcpaCompliance_flag request profile rules w history c b :
  checkTcpaCompliance tz clock request
    (withHistory (history ++ [withCompliant b c]) profile) rules w
  = checkTcpaCompliance tz clock request
      (withHistory (history ++ [c]) profile) rules w.
Proof.
  unfold checkTcpaCompliance.
  change (findConsent request (withHistory (history ++ [withCompliant b c]) profile))
    with (findConsent request (withHistory (history ++ [c]) profile)).
  destruct (consentRequired rules);
    [destruct (findConsent request _) as [k|];
       [destruct (expiresAt k)|]|];
    run_host; cbn [communicationHistory withHistory];
    rewrite !(len_filter_withCompliant _ history c b) by reflexivity;
    reflexivity.
Qed.

(** C3, as the code has it: every evaluation, blocked or not, hands the
    profile update a record whose [compliant] flag is the verdict; and the
    frequency counts of the TCPA check and of the frequency check do not
    read that flag, so a record weighs on the budget the same whether its
    flag is false or true. *)
Theorem record_counts_whatever_flag startTime rules profile request w :
  let r := fst (evaluate tz clock random startTime rules profile request w) in
  (exists record,
     console (snd (evaluate tz clock random startTime rules profile request w))
     = console w ++ [UpdatingProfile (customerId request) record]
     /\ r_compliant record = canProceed r
     /\ r_channel record = channel request)
  /\ (forall history c b w',
        checkFrequencyLimits tz clock (customerId request) (channel request)
          (withHistory (history ++ [withCompliant b c]) profile) rules w'
        = checkFrequencyLimits tz clock (customerId request) (channel request)
            (withHistory (history ++ [c]) profile) rules w')
  /\ (forall history c b w',
        checkTcpaCompliance tz clock request
          (withHistory (history ++ [withCompliant b c]) profile) (tcpa rules) w'
        = checkTcpaCompliance tz clock request
            (withHistory (history ++ [c]) profile) (tcpa rules) w').
Proof.
  cbv zeta. split; [apply evaluate_record|]. split; intros.
  - apply checkFrequencyLimits_flag.
  - apply checkTcpaCompliance_flag.
Qed.

(** *** What a verdict depends on *)

Ltac solve_clockOnly :=
  intros w1 w2 Hreads; run_host; rewrite ?Hreads; split; reflexivity.

Lemma checkTcpaCompliance_clockOnly request profile rules :
  clockOnly (checkTcpaCompliance tz clock request profile rules).
Proof.
  unfold checkTcpaCompliance.
  destruct (consentRequired rules);
    [destruct (findConsent request profile) as [c|];
       [destruct (expiresAt c)|]|];
    solve_clockOnly.
Qed.

Lemma checkFdcpaCompliance_clockOnly request profile rules :
  clockOnly (checkFdcpaCompliance tz clock request profile rules).
Proof.
  unfold checkFdcpaCompliance.
  destruct (hd_error _);
    [destruct (Channel_eqb (channel request) phone)|];
    solve_clockOnly.
Qed.

Lemma verifyConsent_clockOnly request profile rules :
  clockOnly (verifyConsent clock request profile rules).
Proof.
  unfold verifyConsent.
  destruct (consentRequired rules); cbn [negb];
    [destruct (findConsent request profile) as [c|];
       [destruct (expiresAt c) as [e|]|]|];
    try solve_clockOnly.
  intros w1 w2 Hreads. run_host. rewrite Hreads.
  destruct (e <? _); run_host; rewrite ?Hreads; split; reflexivity.
Qed.

Lemma checkFrequencyLimits_clockOnly cid ch profile rules :
  clockOnly (checkFrequencyLimits tz clock cid ch profile rules).
Proof. unfold checkFrequencyLimits. solve_clockOnly. Qed.

Lemma getNextAllowedTime_clockOnly cid ch zone profile rules :
  clockOnly (getNextAllowedTime tz clock cid ch zone profile rules).
Proof. unfold getNextAllowedTime. solve_clockOnly. Qed.

(** C4, as the code has it: the verdict is a function of the request, the
    profile, the rule set and of the host's clock readings.  Two
    evaluations of the same request, profile and rule set that start at
    the same point of the same clock agree on every field of the result,
    the audit entry included, except the audit id, whose suffix is drawn at
    random; they agree on the id too when the draws are equal. *)
Theorem verdict_fixed_by_clock startTime rules profile request
    random1 random2 w1 w2 :
  reads w1 = reads w2 ->
  let r1 :=
    fst (evaluate tz clock random1 startTime rules profile request w1) in
  let r2 :=
    fst (evaluate tz clock random2 startTime rules profile request w2) in
  r2 = withAuditId (a_id (auditEntry r2)) r1
  /\ (exists stamp,
        a_id (auditEntry r1)
        = [Lit "audit_"; Num stamp; Lit "_"; Lit (random1 (draws w1))]
        /\ a_id (auditEntry r2)
           = [Lit "audit_"; Num stamp; Lit "_"; Lit (random2 (draws w2))])
  /\ (random1 (draws w1) = random2 (draws w2) -> r1 = r2).
Proof.
  intros H0. cbv zeta. unfold evaluate. run_binds.
  destruct (checkTcpaCompliance_clockOnly request profile (tcpa rules)
              w1 w2 H0) as [E1 H1].
  destruct (checkFdcpaCompliance_clockOnly request profile (fdcpa rules)
              _ _ H1) as [E2 H2].
  destruct (verifyConsent_clockOnly request profile (tcpa rules)
              _ _ H2) as [E3 H3].
  destruct (checkFrequencyLimits_clockOnly (customerId request)
              (channel request) profile rules _ _ H3) as [E4 H4].
  pose proof (checkFrequencyLimits_onlyReads (customerId request)
                (channel request) profile rules) as D4.
  pose proof (verifyConsent_onlyReads request profile (tcpa rules)) as D3.
  pose proof (checkFdcpaCompliance_onlyReads request profile (fdcpa rules)) as D2.
  pose proof (checkTcpaCompliance_onlyReads request profile (tcpa rules)) as D1.
  rewrite E1, E2, E3, E4.
  match type of H4 with
  | reads ?a = reads ?b =>
      assert (Hd1 : draws a = draws w1)
        by (rewrite (proj1 (proj2 (D4 _))), (proj1 (proj2 (D3 _))),
              (proj1 (proj2 (D2 _))); apply D1);
      assert (Hd2 : draws b = draws w2)
        by (rewrite (proj1 (proj2 (D4 _))), (proj1 (proj2 (D3 _))),
              (proj1 (proj2 (D2 _))); apply D1);
      clear E1 E2 E3 E4 H1 H2 H3 D1 D2 D3 D4;
      set (u1 := a) in *; set (u2 := b) in *
  end.
  clearbody u1 u2.
  set (allViolations := _ ++ _ ++ _ ++ _ ++ _).
  set (allWarnings := _ ++ _ ++ _ ++ _ ++ _).
  unfold createAuditEntry. run_binds.
  destruct (negb (len allViolations =? 0)).
  - rewrite !bind_run.
    destruct (getNextAllowedTime_clockOnly (customerId request)
                (channel request)
                (match customerTimezone request with
                 | Some z => if JsString.truthy z then z else "UTC"
                 | None => "UTC"
                 end) profile (tcpa rules) _ _ H4) as [E5 H5].
    pose proof (getNextAllowedTime_onlyReads (customerId request)
                  (channel request)
                  (match customerTimezone request with
                   | Some z => if JsString.truthy z then z else "UTC"
                   | None => "UTC"
                   end) profile (tcpa rules)) as D5.
    rewrite E5.
    unfold ret, dateNow, mathRandom36.
    cbn [fst snd reads draws console].
    rewrite H5, (proj1 (proj2 (D5 u1))), (proj1 (proj2 (D5 u2))), Hd1, Hd2.
    split; [reflexivity|split; [eexists; split; reflexivity|]].
    intros ->. reflexivity.
  - unfold ret, dateNow, mathRandom36.
    cbn [fst snd reads draws console].
    rewrite H4, Hd1, Hd2.
    split; [reflexivity|split; [eexists; split; reflexivity|]].
    intros ->. reflexivity.
Qed.

(** *** Consent *)

Lemma findConsent_some request profile c :
  findConsent request profile = Some c ->
  In c (consentHistory profile)
  /\ Channel_eqb (c_type c) (channel request) = true
  /\ granted c = true
  /\ truthyOpt (revokedAt c) = false.
Proof.
  unfold findConsent. intros H. apply find_some in H as [Hin Hp].
  apply andb_prop in Hp as [Hp Hrev]. apply andb_prop in Hp as [Hty Hgr].
  apply negb_true_iff in Hrev. auto.
Qed.

(** The consent check decides on the first granted, unrevoked record of
    the channel alone: it reports a violation when there is none, or when
    that record has expired at the reading it takes. *)
Lemma verifyConsent_violation request profile rules w :
  existsb isConsentViolation
    (f_violations (fst (verifyConsent clock request profile rules w)))
  = consentRequired rules
    && match findConsent request profile with
       | None => true
       | Some c =>
           match expiresAt c with
           | Some e => e <? clock (reads w)
           | None => false
           end
       end.
Proof.
  unfold verifyConsent.
  destruct (consentRequired rules); cbn [negb andb];
    [destruct (findConsent request profile) as [c|];
       [destruct (expiresAt c) as [e|]|]|];
    run_host; try reflexivity.
  destruct (e <? _); reflexivity.
Qed.

(** Without any valid record for the channel, the consent check reports
    a violation. *)
Lemma verifyConsent_no_valid_consent request profile rules w :
  consentRequired rules = true ->
  existsb (validConsent (clock (reads w)) (channel request))
          (consentHistory profile) = false ->
  existsb isConsentViolation
    (f_violations (fst (verifyConsent clock request profile rules w)))
  = true.
Proof.
  intros Hreq Hnone. rewrite verifyConsent_violation, Hreq. cbn [andb].
  destruct (findConsent request profile) as [c|] eqn:Hfind; [|reflexivity].
  apply findConsent_some in Hfind as (Hin & Hty & Hgr & Hrev).
  assert (Hc : validConsent (clock (reads w)) (channel request) c = false).
  { destruct (validConsent _ _ c) eqn:E; [|reflexivity].
    assert (existsb (validConsent (clock (reads w)) (channel request))
                    (consentHistory profile) = true)
      by (apply existsb_exists; eauto).
    congruence. }
  unfold validConsent in Hc. rewrite Hty, Hgr, Hrev in Hc. cbn in Hc.
  destruct (expiresAt c) as [e|]; [|discriminate].
  apply Z.leb_gt in Hc. now apply Z.ltb_lt.
Qed.

(** With a valid record for the channel at the head of the granted,
    unrevoked records, the consent check reports nothing. *)
Lemma verifyConsent_first_valid request profile rules w c :
  findConsent request profile = Some c ->
  validConsent (clock (reads w)) (channel request) c = true ->
  existsb isConsentViolation
    (f_violations (fst (verifyConsent clock request profile rules w)))
  = false.
Proof.
  intros Hfind Hvalid. rewrite verifyConsent_violation, Hfind.
  unfold validConsent in Hvalid.
  apply andb_prop in Hvalid as [_ Hexp].
  destruct (expiresAt c) as [e|]; [|apply andb_false_r].
  apply Z.leb_le in Hexp.
  replace (e <? clock (reads w)) with false; [apply andb_false_r|].
  symmetry. apply Z.ltb_ge. exact Hexp.
Qed.

(** ** Further properties of the compliance code *)

(** *** The week window *)

(** X8: [getWeekStart] answers with the Sunday of the date's week at the
    date's own time of day, not at midnight: it goes back by the number of
    the weekday, between zero and six whole days. *)
Theorem getWeekStart_sunday_same_time d :
  JsDate.getDay tz (JsDate.getWeekStart tz d) = 0
  /\ timeOfDay tz (JsDate.getWeekStart tz d) = timeOfDay tz d
  /\ JsDate.getHours tz (JsDate.getWeekStart tz d) = JsDate.getHours tz d
  /\ JsDate.getWeekStart tz d = d - JsDate.getDay tz d * JsDate.msPerDay
  /\ 0 <= JsDate.getDay tz d <= 6.
Proof.
  unfold timeOfDay. repeat split; date_arith.
Qed.

(** *** The next allowed time *)

Lemma getHours_setHours d s :
  0 <= s <= 23 -> JsDate.getHours tz (JsDate.setHours tz d s) = s.
Proof. intros H. date_arith. Qed.

Lemma dayNumber_setHours d s :
  0 <= s <= 23 ->
  JsDate.dayNumber tz (JsDate.setHours tz d s) = JsDate.dayNumber tz d.
Proof. intros H. date_arith. Qed.

(** The value of [getNextAllowedTime], by the three adjustments. *)
Lemma getNextAllowedTime_value cid ch zone profile rules w :
  let now := clock (reads w) in
  let s := start (callingHours rules) in
  let first :=
    if JsDate.getHours tz now <? s then JsDate.setHours tz now s
    else if end_ (callingHours rules) <? JsDate.getHours tz now
         then JsDate.setHours tz (JsDate.addDays now 1) s
         else now in
  let second :=
    if dailyCap rules ch
       <=? sentOn tz (JsDate.toDateString tz now) ch
             (communicationHistory profile)
    then JsDate.setHours tz (JsDate.addDays first 1) s
    else first in
  fst (getNextAllowedTime tz clock cid ch zone profile rules w)
  = if weeklyCap rules ch
       <=? sentSince (JsDate.getWeekStart tz now) ch
             (communicationHistory profile)
    then JsDate.setHours tz (JsDate.addDays (JsDate.getWeekStart tz now) 7) s
    else second.
Proof.
  cbv zeta. unfold getNextAllowedTime, sentOn, sentSince.
  run_host. destruct ch; reflexivity.
Qed.

(** X9: when the calling window is well formed (it opens at an hour of
    the day and does not close before it opens), the time
    [getNextAllowedTime] answers with lies inside the window as
    [isWithinAllowedHours] sees it. *)
Theorem getNextAllowedTime_within_hours cid ch zone profile rules w :
  0 <= start (callingHours rules) <= 23 ->
  start (callingHours rules) <= end_ (callingHours rules) ->
  isWithinAllowedHours tz
    (fst (getNextAllowedTime tz clock cid ch zone profile rules w))
    zone rules = true.
Proof.
  intros Hs He. rewrite getNextAllowedTime_value. cbv zeta.
  unfold isWithinAllowedHours.
  set (now := clock (reads w)). set (s := start (callingHours rules)) in *.
  set (e := end_ (callingHours rules)) in *.
  assert (Hopen : forall d,
            (s <=? JsDate.getHours tz (JsDate.setHours tz d s))
            && (JsDate.getHours tz (JsDate.setHours tz d s) <=? e) = true).
  { intros d. rewrite getHours_setHours by exact Hs.
    apply andb_true_intro. split; apply Z.leb_le; lia. }
  destruct (weeklyCap rules ch <=? _); [apply Hopen|].
  destruct (dailyCap rules ch <=? _); [apply Hopen|].
  destruct (Z.ltb_spec (JsDate.getHours tz now) s); [apply Hopen|].
  destruct (Z.ltb_spec e (JsDate.getHours tz now)); [apply Hopen|].
  apply andb_true_intro. split; apply Z.leb_le; lia.
Qed.

(** X10: inside the calling window and under both caps,
    [getNextAllowedTime] answers with the reading it took, unchanged; once
    the daily or the weekly cap of the channel is reached it answers with
    the opening hour of a later local day.  The caps are those of texts
    for sms and those of calls for phone and for email alike. *)
Theorem getNextAllowedTime_now_or_later_day cid ch zone profile rules w :
  let now := clock (reads w) in
  let next := fst (getNextAllowedTime tz clock cid ch zone profile rules w) in
  let sentToday :=
    sentOn tz (JsDate.toDateString tz now) ch (communicationHistory profile) in
  let sentThisWeek :=
    sentSince (JsDate.getWeekStart tz now) ch (communicationHistory profile) in
  (start (callingHours rules) <= JsDate.getHours tz now
     <= end_ (callingHours rules) ->
   sentToday < dailyCap rules ch ->
   sentThisWeek < weeklyCap rules ch ->
   next = now)
  /\ (0 <= start (callingHours rules) <= 23 ->
      dailyCap rules ch <= sentToday \/ weeklyCap rules ch <= sentThisWeek ->
      JsDate.dayNumber tz now < JsDate.dayNumber tz next
      /\ JsDate.getHours tz next = start (callingHours rules)).
Proof.
  cbv zeta. rewrite getNextAllowedTime_value. cbv zeta.
  set (now := clock (reads w)). set (s := start (callingHours rules)).
  split.
  - intros Hin Hd Hw.
    apply Z.leb_gt in Hd, Hw. rewrite Hd, Hw.
    destruct (Z.ltb_spec (JsDate.getHours tz now) s); [lia|].
    destruct (Z.ltb_spec (end_ (callingHours rules)) (JsDate.getHours tz now));
      [lia|reflexivity].
  - intros Hs Hcap.
    destruct (weeklyCap rules ch <=? _) eqn:Hw.
    { split; [|now apply getHours_setHours].
      rewrite dayNumber_setHours by exact Hs. apply dayNumber_next_week. }
    destruct Hcap as [Hd|Hw']; [|apply Z.leb_gt in Hw; lia].
    apply Z.leb_le in Hd. rewrite Hd.
    split; [|now apply getHours_setHours].
    rewrite dayNumber_setHours, dayNumber_addDays by exact Hs.
    destruct (JsDate.getHours tz now <? s);
      [rewrite dayNumber_setHours by exact Hs; lia|].
    destruct (_ <? JsDate.getHours tz now); [|lia].
    rewrite dayNumber_setHours, dayNumber_addDays by exact Hs. lia.
Qed.


(** *** Violation counts by type *)

Lemma countType_app t l1 l2 :
  countType t (l1 ++ l2) = countType t l1 + countType t l2.
Proof.
  unfold countType, len. rewrite filter_app, length_app. lia.
Qed.

(** The TCPA check: one time violation outside the window, one content
    violation on prohibited content, no disclosure violation. *)
Lemma checkTcpaCompliance_counts request profile rules w h :
  (forall n, JsDate.getHours tz (clock n) = h) ->
  let l :=
    f_violations (fst (checkTcpaCompliance tz clock request profile rules w)) in
  countType TCPA_TIME_RESTRICTION l
  = (if (h <? start (callingHours rules)) || (end_ (callingHours rules) <? h)
     then 1 else 0)
  /\ countType CONTENT_PROHIBITED l
     = (if containsProhibitedContent (content request)
             (prohibitedContent rules) then 1 else 0)
  /\ countType FDCPA_DISCLOSURE_MISSING l = 0.
Proof.
  intros Hh. cbv zeta. unfold checkTcpaCompliance.
  destruct (consentRequired rules);
    [destruct (findConsent request profile) as [c|];
       [destruct (expiresAt c)|]|];
    run_host; cbn [f_violations]; rewrite !Hh, !countType_app;
    split_ifs; repeat split; reflexivity.
Qed.

Lemma checkFdcpaCompliance_counts request profile rules w :
  let l :=
    f_violations (fst (checkFdcpaCompliance tz clock request profile rules w)) in
  countType TCPA_TIME_RESTRICTION l = 0
  /\ countType CONTENT_PROHIBITED l = 0
  /\ countType FDCPA_DISCLOSURE_MISSING l
     = (if 0 <? len (missing (validateRequiredDisclosures (content request)
                                (requiredDisclosures rules)))
        then 1 else 0).
Proof.
  cbv zeta. unfold checkFdcpaCompliance, prohibitedPatterns.
  destruct (hd_error _);
    [destruct (Channel_eqb (channel request) phone)|];
    run_host; cbn [f_violations flat_map]; rewrite !countType_app;
    split_ifs; repeat split; reflexivity.
Qed.

Lemma validateContent_counts content strategy rules :
  let l := f_violations (validateContent content strategy rules) in
  countType TCPA_TIME_RESTRICTION l = 0
  /\ countType CONTENT_PROHIBITED l
     = (if containsProhibitedContent content (prohibitedContent (tcpa rules))
        then 1 else 0)
  /\ countType FDCPA_DISCLOSURE_MISSING l
     = (if 0 <? len (missing (validateRequiredDisclosures content
                                (requiredDisclosures (fdcpa rules))))
        then 1 else 0).
Proof.
  cbv zeta. unfold validateContent. cbn [f_violations].
  rewrite !countType_app. split_ifs; repeat split; reflexivity.
Qed.

Lemma verifyConsent_counts request profile rules w :
  let l := f_violations (fst (verifyConsent clock request profile rules w)) in
  countType TCPA_TIME_RESTRICTION l = 0
  /\ countType CONTENT_PROHIBITED l = 0
  /\ countType FDCPA_DISCLOSURE_MISSING l = 0.
Proof.
  cbv zeta. unfold verifyConsent.
  destruct (consentRequired rules); cbn [negb];
    [destruct (findConsent request profile) as [c|];
       [destruct (expiresAt c) as [e|]|]|];
    run_host; try (repeat split; reflexivity).
  destruct (e <? _); repeat split; reflexivity.
Qed.

Lemma checkFrequencyLimits_counts cid ch profile rules w :
  let l :=
    f_violations (fst (checkFrequencyLimits tz clock cid ch profile rules w)) in
  countType TCPA_TIME_RESTRICTION l = 0
  /\ countType CONTENT_PROHIBITED l = 0
  /\ countType FDCPA_DISCLOSURE_MISSING l = 0.
Proof.
  cbv zeta. unfold checkFrequencyLimits.
  run_host; cbn [f_violations]; rewrite !countType_app.
  destruct ch; cbn [Channel_eqb]; rewrite ?countType_app;
    split_ifs; repeat split; reflexivity.
Qed.

(** X11: with every clock reading of the evaluation at the local hour [h],
    the verdict carries exactly one time-restriction violation when [h]
    is outside the calling window and none inside it; the test is the one
    [isWithinAllowedHours] makes, both window ends included. *)
Theorem time_restriction_outside_window startTime rules profile request w h n :
  (forall k, JsDate.getHours tz (clock k) = h) ->
  countType TCPA_TIME_RESTRICTION
    (violations (fst (evaluate tz clock random startTime rules profile
                        request w)))
  = if isWithinAllowedHours tz (clock n) "UTC" (tcpa rules) then 0 else 1.
Proof.
  intros Hh.
  destruct (evaluate_findings startTime rules profile request w)
    as (w1 & w2 & w3 & Hv & _).
  cbv zeta in Hv. rewrite Hv, !countType_app.
  rewrite (proj1 (checkTcpaCompliance_counts _ _ _ _ h Hh)).
  rewrite (proj1 (checkFdcpaCompliance_counts _ _ _ _)).
  rewrite (proj1 (validateContent_counts _ _ _)).
  rewrite (proj1 (verifyConsent_counts _ _ _ _)).
  rewrite (proj1 (checkFrequencyLimits_counts _ _ _ _ _)).
  unfold isWithinAllowedHours. rewrite Hh.
  destruct (Z.ltb_spec h (start (callingHours (tcpa rules))));
    destruct (Z.ltb_spec (end_ (callingHours (tcpa rules))) h);
    destruct (Z.leb_spec (start (callingHours (tcpa rules))) h);
    destruct (Z.leb_spec h (end_ (callingHours (tcpa rules))));
    cbn [orb andb]; lia.
Qed.

Lemma evaluate_content_counts startTime rules profile request w :
  let l :=
    violations (fst (evaluate tz clock random startTime rules profile
                       request w)) in
  countType FDCPA_DISCLOSURE_MISSING l
  = (if 0 <? len (missing (validateRequiredDisclosures (content request)
                             (requiredDisclosures (fdcpa rules))))
     then 2 else 0)
  /\ countType CONTENT_PROHIBITED l
     = (if containsProhibitedContent (content request)
             (prohibitedContent (tcpa rules)) then 2 else 0).
Proof.
  cbv zeta.
  destruct (evaluate_findings startTime rules profile request w)
    as (w1 & w2 & w3 & Hv & _).
  cbv zeta in Hv. rewrite Hv, !countType_app.
  split.
  - rewrite (proj2 (proj2 (checkFdcpaCompliance_counts _ _ _ _))).
    rewrite (proj2 (proj2 (validateContent_counts _ _ _))).
    rewrite (proj2 (proj2 (verifyConsent_counts _ _ _ _))).
    rewrite (proj2 (proj2 (checkFrequencyLimits_counts _ _ _ _ _))).
    assert (H0 : countType FDCPA_DISCLOSURE_MISSING
                   (f_violations (fst (checkTcpaCompliance tz clock request
                                         profile (tcpa rules) w))) = 0).
    { unfold checkTcpaCompliance.
      destruct (consentRequired (tcpa rules));
        [destruct (findConsent request profile) as [c|];
           [destruct (expiresAt c)|]|];
        run_host; cbn [f_violations]; rewrite !countType_app;
        split_ifs; reflexivity. }
    rewrite H0. destruct (0 <? _); reflexivity.
  - rewrite (proj1 (proj2 (checkFdcpaCompliance_counts _ _ _ _))).
    rewrite (proj1 (proj2 (validateContent_counts _ _ _))).
    rewrite (proj1 (proj2 (verifyConsent_counts _ _ _ _))).
    rewrite (proj1 (proj2 (checkFrequencyLimits_counts _ _ _ _ _))).
    assert (H0 : countType CONTENT_PROHIBITED
                   (f_violations (fst (checkTcpaCompliance tz clock request
                                         profile (tcpa rules) w)))
                 = if containsProhibitedContent (content request)
                        (prohibitedContent (tcpa rules)) then 1 else 0).
    { unfold checkTcpaCompliance.
      destruct (consentRequired (tcpa rules));
        [destruct (findConsent request profile) as [c|];
           [destruct (expiresAt c)|]|];
        run_host; cbn [f_violations]; rewrite !countType_app;
        split_ifs; reflexivity. }
    rewrite H0. destruct (containsProhibitedContent _ _); reflexivity.
Qed.

(** X12: a missing disclosure and a prohibited term are each reported
    twice by an evaluation, once by the TCPA or FDCPA check and once by
    the content validation, which repeat the same tests: the verdict holds
    two such violations or none. *)
Theorem content_findings_reported_twice startTime rules profile request w :
  let l :=
    violations (fst (evaluate tz clock random startTime rules profile
                       request w)) in
  countType FDCPA_DISCLOSURE_MISSING l
  = (if 0 <? len (missing (validateRequiredDisclosures (content request)
                             (requiredDisclosures (fdcpa rules))))
     then 2 else 0)
  /\ countType CONTENT_PROHIBITED l
     = (if containsProhibitedContent (content request)
             (prohibitedContent (tcpa rules)) then 2 else 0).
Proof. exact (evaluate_content_counts startTime rules profile request w). Qed.

(** *** The audit entry and the recommended actions *)

Lemma evaluate_audit startTime rules profile request w :
  let r := fst (evaluate tz clock random startTime rules profile request w) in
  let a := auditEntry r in
  (a_result a = FAIL <-> canProceed r = false)
  /\ (a_result a = WARNING <-> canProceed r = true /\ warnings r <> [])
  /\ (a_result a = PASS <-> violations r = [] /\ warnings r = [])
  /\ len (a_violations a) = len (violations r)
  /\ len (a_warnings a) = len (warnings r)
  /\ a_customerId a = customerId request
  /\ a_communicationId a = communicationId request.
Proof.
  cbv zeta. unfold evaluate. run_binds.
  unfold createAuditEntry. run_binds.
  cbn [ret fst auditEntry canProceed violations warnings a_result
         a_violations a_warnings a_customerId a_communicationId].
  set (allViolations := _ ++ _ ++ _ ++ _ ++ _).
  set (allWarnings := _ ++ _ ++ _ ++ _ ++ _).
  unfold len. rewrite !length_map.
  destruct allViolations as [|v vs], allWarnings as [|x xs];
    cbn; repeat split; intros; try easy;
    match goal with H : _ /\ _ |- _ => destruct H; congruence end.
Qed.

(** X13: the audit entry of an evaluation classifies the verdict: FAIL
    exactly when the evaluation is blocked, WARNING exactly when it may
    proceed with warnings, PASS exactly when there are neither violations
    nor warnings; it names the request's customer and communication and
    holds one line per violation and per warning. *)
Theorem audit_entry_classifies_verdict startTime rules profile request w :
  let r := fst (evaluate tz clock random startTime rules profile request w) in
  let a := auditEntry r in
  (a_result a = FAIL <-> canProceed r = false)
  /\ (a_result a = WARNING <-> canProceed r = true /\ warnings r <> [])
  /\ (a_result a = PASS <-> violations r = [] /\ warnings r = [])
  /\ len (a_violations a) = len (violations r)
  /\ len (a_warnings a) = len (warnings r)
  /\ a_customerId a = customerId request
  /\ a_communicationId a = communicationId request.
Proof. exact (evaluate_audit startTime rules profile request w). Qed.

Lemma generateRecommendedActions_nil vs ws :
  forallb hasFix vs = true ->
  (generateRecommendedActions vs ws = [] <-> vs = [] /\ ws = []).
Proof.
  intros Hfix. unfold generateRecommendedActions.
  destruct vs as [|v vs].
  - cbn [flat_map app].
    destruct ws as [|x xs]; [cbn; tauto|].
    set (recs := flat_map _ (x :: xs)).
    destruct recs; cbn; split; intros H; try easy;
      destruct H; discriminate.
  - cbn [forallb] in Hfix. apply andb_prop in Hfix as [Hv _].
    unfold hasFix in Hv. cbn [flat_map].
    destruct (v_suggestedFix v) as [t|]; [|discriminate]. rewrite Hv.
    cbn [app].
    destruct (_ && _); cbn [app]; split; intros H;
      try discriminate; destruct H; discriminate.
Qed.

Lemma checkTcpaCompliance_fixes request profile rules w :
  forallb hasFix
    (f_violations (fst (checkTcpaCompliance tz clock request profile rules w)))
  = true.
Proof.
  unfold checkTcpaCompliance.
  destruct (consentRequired rules);
    [destruct (findConsent request profile) as [c|];
       [destruct (expiresAt c)|]|];
    run_host; cbn [f_violations]; rewrite !forallb_app;
    split_ifs; reflexivity.
Qed.

Lemma checkFdcpaCompliance_fixes request profile rules w :
  forallb hasFix
    (f_violations (fst (checkFdcpaCompliance tz clock request profile rules w)))
  = true.
Proof.
  unfold checkFdcpaCompliance, prohibitedPatterns.
  destruct (hd_error _);
    [destruct (Channel_eqb (channel request) phone)|];
    run_host; cbn [f_violations flat_map]; rewrite !forallb_app;
    split_ifs; reflexivity.
Qed.

Lemma validateContent_fixes content strategy rules :
  forallb hasFix (f_violations (validateContent content strategy rules)) = true.
Proof.
  unfold validateContent. cbn [f_violations].
  rewrite !forallb_app. split_ifs; reflexivity.
Qed.

Lemma verifyConsent_fixes request profile rules w :
  forallb hasFix
    (f_violations (fst (verifyConsent clock request profile rules w))) = true.
Proof.
  unfold verifyConsent.
  destruct (consentRequired rules); cbn [negb];
    [destruct (findConsent request profile) as [c|];
       [destruct (expiresAt c) as [e|]|]|];
    run_host; try reflexivity.
  destruct (e <? _); reflexivity.
Qed.

Lemma checkFrequencyLimits_fixes cid ch profile rules w :
  forallb hasFix
    (f_violations (fst (checkFrequencyLimits tz clock cid ch profile rules w)))
  = true.
Proof.
  unfold checkFrequencyLimits.
  run_host; cbn [f_violations]; rewrite !forallb_app.
  destruct ch; cbn [Channel_eqb]; rewrite ?forallb_app;
    split_ifs; reflexivity.
Qed.

(** X14: every violation the checks raise comes with a suggested fix, so
    the recommended actions of a verdict are empty exactly when it has
    neither violations nor warnings: a blocked evaluation always tells
    what to do, and a verdict with warnings but no recommendation gets the
    general one. *)
Theorem recommended_actions_whenever_findings startTime rules profile
    request w :
  let r := fst (evaluate tz clock random startTime rules profile request w) in
  (recommendedActions r = [] <-> violations r = [] /\ warnings r = [])
  /\ (canProceed r = false -> recommendedActions r <> []).
Proof.
  cbv zeta.
  assert (Hfix : forallb hasFix
            (violations (fst (evaluate tz clock random startTime rules
                                profile request w))) = true).
  { destruct (evaluate_findings startTime rules profile request w)
      as (w1 & w2 & w3 & Hv & _).
    cbv zeta in Hv. rewrite Hv, !forallb_app.
    now rewrite checkTcpaCompliance_fixes, checkFdcpaCompliance_fixes,
      validateContent_fixes, verifyConsent_fixes, checkFrequencyLimits_fixes. }
  assert (Hrec :
    recommendedActions (fst (evaluate tz clock random startTime rules
                               profile request w))
    = generateRecommendedActions
        (violations (fst (evaluate tz clock random startTime rules
                            profile request w)))
        (warnings (fst (evaluate tz clock random startTime rules
                          profile request w)))).
  { unfold evaluate. run_binds. reflexivity. }
  rewrite Hrec. split; [now apply generateRecommendedActions_nil|].
  intros Hblocked Hnil.
  apply generateRecommendedActions_nil in Hnil as [Hv _]; [|exact Hfix].
  pose proof (proj1 (evaluate_verdict startTime rules profile request w)) as Hc.
  cbv zeta in Hc. rewrite Hv in Hc. cbn in Hc. congruence.
Qed.

(** X15: [checkCompliance] as written never lets a communication proceed.
    The profile it loads has no consent on file and the rules it loads
    require consent, so whatever the request and the hour, the verdict
    holds a consent violation, is blocked with audit result FAIL, and
    carries a next allowed time. *)
Theorem checkCompliance_always_blocked request w :
  let r := fst (checkCompliance tz clock random request w) in
  existsb isConsentViolation (violations r) = true
  /\ canProceed r = false
  /\ compliant r = false
  /\ a_result (auditEntry r) = FAIL
  /\ nextAllowedTime r <> None.
Proof.
  cbv zeta. rewrite checkCompliance_run.
  set (startTime := clock (reads w)).
  set (rules := fst (loadComplianceRules clock None _)).
  set (profile := fst (getCustomerComplianceProfile (customerId request) w)).
  set (w0 := mkWorld _ _ _).
  assert (Hv : existsb isConsentViolation
            (violations (fst (evaluate tz clock random startTime rules
                                profile request w0))) = true).
  { destruct (evaluate_findings startTime rules profile request w0)
      as (w1 & w2 & w3 & Hv & _).
    cbv zeta in Hv. rewrite Hv, existsb_app.
    apply orb_true_iff. left.
    unfold checkTcpaCompliance, rules, profile.
    run_host. cbn [f_violations app existsb].
    reflexivity. }
  assert (Hc : canProceed (fst (evaluate tz clock random startTime rules
                                  profile request w0)) = false).
  { rewrite (proj1 (evaluate_verdict startTime rules profile request w0)).
    destruct (violations _) as [|v l]; [discriminate|reflexivity]. }
  pose proof (evaluate_verdict startTime rules profile request w0)
    as (_ & Hcompliant & Hnext).
  pose proof (evaluate_audit startTime rules profile
                request w0) as (Hfail & _).
  cbv zeta in *.
  split; [exact Hv|]. split; [exact Hc|].
  split; [congruence|]. split; [now apply Hfail|].
  intros Hnone. apply Hnext in Hnone. congruence.
Qed.

(** *** The aggregate daily cap and the weekly caps *)

Lemma existsb_implied {A} (p q : A -> bool) l :
  (forall v, p v = true -> q v = true) ->
  existsb q l = false -> existsb p l = false.
Proof.
  intros Hpq. induction l as [|v l IH]; simpl; [easy|].
  intros H. apply orb_false_iff in H as [Hv Hl].
  rewrite (IH Hl), orb_false_r.
  destruct (p v) eqn:E; [|reflexivity]. apply Hpq in E. congruence.
Qed.

Lemma isContactLimitViolation_harassment v :
  isContactLimitViolation v = true -> isHarassment v = true.
Proof.
  unfold isContactLimitViolation, isHarassment. now destruct (v_type v).
Qed.

Lemma isSpacingViolation_harassment v :
  isSpacingViolation v = true -> isHarassment v = true.
Proof.
  unfold isSpacingViolation, isHarassment. now destruct (v_type v).
Qed.

Lemma isWeeklyLimitViolation_filed v :
  isWeeklyLimitViolation v = true -> filedUnderConsent v = true.
Proof.
  unfold isWeeklyLimitViolation, filedUnderConsent. now destruct (v_type v).
Qed.

(** The TCPA check, the content validation and the consent check raise no
    harassment violation. *)
Lemma checkTcpaCompliance_no_harassment request profile rules w :
  existsb isHarassment
    (f_violations (fst (checkTcpaCompliance tz clock request profile rules w)))
  = false.
Proof.
  unfold checkTcpaCompliance.
  destruct (consentRequired rules);
    [destruct (findConsent request profile) as [c|];
       [destruct (expiresAt c)|]|];
    run_host; cbn [f_violations]; rewrite !existsb_app;
    split_ifs; reflexivity.
Qed.

Lemma validateContent_no_harassment content strategy rules :
  existsb isHarassment (f_violations (validateContent content strategy rules))
  = false.
Proof.
  unfold validateContent. cbn [f_violations].
  rewrite !existsb_app; split_ifs; reflexivity.
Qed.

Lemma verifyConsent_no_harassment request profile rules w :
  existsb isHarassment
    (f_violations (fst (verifyConsent clock request profile rules w)))
  = false.
Proof.
  unfold verifyConsent.
  destruct (consentRequired rules); cbn [negb];
    [destruct (findConsent request profile) as [c|];
       [destruct (expiresAt c) as [e|]|]|];
    run_host; try reflexivity.
  destruct (e <? _); reflexivity.
Qed.

Lemma checkFdcpaCompliance_contacts request profile rules w day :
  (forall n, JsDate.toDateString tz (clock n) = day) ->
  existsb isContactLimitViolation
    (f_violations (fst (checkFdcpaCompliance tz clock request profile rules w)))
  = (maxDailyContacts rules
     <=? contactsOn tz day (communicationHistory profile)).
Proof.
  intros Hday. unfold checkFdcpaCompliance, prohibitedPatterns, contactsOn.
  destruct (hd_error _);
    [destruct (Channel_eqb (channel request) phone)|];
    run_host; cbn [f_violations flat_map]; rewrite !Hday, !existsb_app;
    split_ifs; reflexivity.
Qed.

Lemma checkFrequencyLimits_contacts cid ch profile rules w day :
  (forall n, JsDate.toDateString tz (clock n) = day) ->
  existsb isContactLimitViolation
    (f_violations (fst (checkFrequencyLimits tz clock cid ch profile rules w)))
  = (maxDailyContacts (fdcpa rules)
     <=? contactsOn tz day (communicationHistory profile)).
Proof.
  intros Hday. unfold checkFrequencyLimits, contactsOn.
  run_host; cbn [f_violations]; rewrite !Hday, !existsb_app.
  destruct ch; cbn [Channel_eqb]; rewrite ?existsb_app;
    split_ifs; reflexivity.
Qed.

(** X16: the aggregate daily cap counts the records of every channel.
    With every clock reading of the evaluation on the local day [day],
    the verdict holds the daily-contact violation exactly when the records
    of that day, on any channel, have reached [maxDailyContacts]; it is
    then blocked whatever the channel of the request, email included. *)
Theorem daily_contact_cap_all_channels startTime rules profile request w day :
  (forall n, JsDate.toDateString tz (clock n) = day) ->
  let r := fst (evaluate tz clock random startTime rules profile request w) in
  let contacts := contactsOn tz day (communicationHistory profile) in
  existsb isContactLimitViolation (violations r)
  = (maxDailyContacts (fdcpa rules) <=? contacts)
  /\ (maxDailyContacts (fdcpa rules) <= contacts -> canProceed r = false).
Proof.
  intros Hday. cbv zeta.
  assert (He : existsb isContactLimitViolation
            (violations (fst (evaluate tz clock random startTime rules
                                profile request w)))
          = (maxDailyContacts (fdcpa rules)
             <=? contactsOn tz day (communicationHistory profile))).
  { destruct (evaluate_findings startTime rules profile request w)
      as (w1 & w2 & w3 & Hv & _).
    cbv zeta in Hv. rewrite Hv, !existsb_app.
    rewrite (existsb_implied _ _ _ isContactLimitViolation_harassment
               (checkTcpaCompliance_no_harassment _ _ _ _)).
    rewrite (existsb_implied _ _ _ isContactLimitViolation_harassment
               (validateContent_no_harassment _ _ _)).
    rewrite (existsb_implied _ _ _ isContactLimitViolation_harassment
               (verifyConsent_no_harassment _ _ _ _)).
    rewrite (checkFdcpaCompliance_contacts _ _ _ _ day Hday).
    rewrite (checkFrequencyLimits_contacts _ _ _ _ _ day Hday).
    cbn [orb]. now rewrite orb_diag. }
  split; [exact He|].
  intros Hcap. apply Z.leb_le in Hcap. rewrite Hcap in He.
  rewrite (proj1 (evaluate_verdict startTime rules profile request w)).
  destruct (violations _); [discriminate|reflexivity].
Qed.

Lemma checkTcpaCompliance_weekly request profile rules w now :
  (forall n, clock n = now) ->
  existsb isWeeklyLimitViolation
    (f_violations (fst (checkTcpaCompliance tz clock request profile rules w)))
  = (Channel_eqb (channel request) sms || Channel_eqb (channel request) phone)
    && (weeklyCap rules (channel request)
        <=? sentSince (JsDate.getWeekStart tz now) (channel request)
              (communicationHistory profile)).
Proof.
  intros Hnow. unfold checkTcpaCompliance, sentSince.
  destruct (consentRequired rules);
    [destruct (findConsent request profile) as [c|];
       [destruct (expiresAt c)|]|];
    run_host; cbn [f_violations]; rewrite !Hnow;
    destruct (channel request); cbn [Channel_eqb orb andb weeklyCap];
    rewrite !existsb_app;
    split_ifs; reflexivity.
Qed.

Lemma checkFrequencyLimits_weekly cid ch profile rules w now :
  (forall n, clock n = now) ->
  existsb isWeeklyLimitViolation
    (f_violations (fst (checkFrequencyLimits tz clock cid ch profile rules w)))
  = (Channel_eqb ch sms || Channel_eqb ch phone)
    && (weeklyCap (tcpa rules) ch
        <=? sentSince (JsDate.getWeekStart tz now) ch
              (communicationHistory profile)).
Proof.
  intros Hnow. unfold checkFrequencyLimits, sentSince.
  run_host; cbn [f_violations]; rewrite !Hnow.
  destruct ch; cbn [Channel_eqb orb andb weeklyCap];
    rewrite !existsb_app;
    split_ifs; reflexivity.
Qed.

Lemma verifyConsent_no_weekly request profile rules w :
  existsb isWeeklyLimitViolation
    (f_violations (fst (verifyConsent clock request profile rules w)))
  = false.
Proof.
  unfold verifyConsent.
  destruct (consentRequired rules); cbn [negb];
    [destruct (findConsent request profile) as [c|];
       [destruct (expiresAt c) as [e|]|]|];
    run_host; try reflexivity.
  destruct (e <? _); reflexivity.
Qed.

(** X17: the weekly cap counts the same-channel records from
    [getWeekStart] of the evaluation instant on, that is from Sunday at
    the evaluation's time of day.  With the clock standing at [now], an
    sms or phone verdict holds the weekly-cap violation exactly when those
    records have reached the channel's weekly cap, and an email verdict
    never holds it. *)
Theorem weekly_cap_window startTime rules profile request w now :
  (forall n, clock n = now) ->
  let r := fst (evaluate tz clock random startTime rules profile request w) in
  existsb isWeeklyLimitViolation (violations r)
  = (Channel_eqb (channel request) sms || Channel_eqb (channel request) phone)
    && (weeklyCap (tcpa rules) (channel request)
        <=? sentSince (now - JsDate.getDay tz now * JsDate.msPerDay)
              (channel request) (communicationHistory profile)).
Proof.
  intros Hnow. cbv zeta.
  destruct (evaluate_findings startTime rules profile request w)
    as (w1 & w2 & w3 & Hv & _).
  cbv zeta in Hv. rewrite Hv, !existsb_app.
  rewrite (checkTcpaCompliance_weekly _ _ _ _ now Hnow).
  rewrite (checkFrequencyLimits_weekly _ _ _ _ _ now Hnow).
  rewrite (existsb_implied _ _ _ isWeeklyLimitViolation_filed
             (checkFdcpaCompliance_none_filed _ _ _ _)).
  rewrite (existsb_implied _ _ _ isWeeklyLimitViolation_filed
             (validateContent_none_filed _ _ _)).
  rewrite verifyConsent_no_weekly.
  cbn [orb]. rewrite orb_diag.
  replace (JsDate.getWeekStart tz now)
    with (now - JsDate.getDay tz now * JsDate.msPerDay); [reflexivity|].
  unfold JsDate.getWeekStart, JsDate.addDays. ring.
Qed.

(** X18: email has no cap of its own.  Whatever the history and the
    clock, neither the TCPA check nor the frequency check raises a daily or
    weekly cap violation for an email request, and the frequency check
    files nothing at all under the consent type. *)
Theorem email_has_no_channel_cap startTime rules profile request w :
  channel request = email ->
  let r := fst (evaluate tz clock random startTime rules profile request w) in
  existsb isDailyLimitViolation (violations r) = false
  /\ existsb isWeeklyLimitViolation (violations r) = false
  /\ (forall w',
        existsb filedUnderConsent
          (f_violations
             (fst (checkFrequencyLimits tz clock (customerId request) email
                     profile rules w'))) = false).
Proof.
  intros Hch. cbv zeta.
  assert (Hfreq : forall w',
    existsb filedUnderConsent
      (f_violations
         (fst (checkFrequencyLimits tz clock (customerId request) email
                 profile rules w'))) = false).
  { intros w'. unfold checkFrequencyLimits.
    run_host; cbn [f_violations Channel_eqb app]. split_ifs; reflexivity. }
  assert (Htcpa : forall w',
    existsb isDailyLimitViolation
      (f_violations (fst (checkTcpaCompliance tz clock request profile
                            (tcpa rules) w'))) = false
    /\ existsb isWeeklyLimitViolation
         (f_violations (fst (checkTcpaCompliance tz clock request profile
                               (tcpa rules) w'))) = false).
  { intros w'. unfold checkTcpaCompliance. rewrite Hch.
    destruct (consentRequired (tcpa rules));
      [destruct (findConsent request profile) as [c|];
         [destruct (expiresAt c)|]|];
      run_host; cbn [f_violations Channel_eqb orb]; rewrite !existsb_app;
      split_ifs; split; reflexivity. }
  destruct (evaluate_findings startTime rules profile request w)
    as (w1 & w2 & w3 & Hv & _).
  cbv zeta in Hv. rewrite Hv, !existsb_app, Hch.
  rewrite (proj1 (Htcpa w)), (proj2 (Htcpa w)).
  rewrite (existsb_none_filed _ _ isDailyLimitViolation_filed
             (checkFdcpaCompliance_none_filed _ _ _ _)).
  rewrite (existsb_implied _ _ _ isWeeklyLimitViolation_filed
             (checkFdcpaCompliance_none_filed _ _ _ _)).
  rewrite (existsb_none_filed _ _ isDailyLimitViolation_filed
             (validateContent_none_filed _ _ _)).
  rewrite (existsb_implied _ _ _ isWeeklyLimitViolation_filed
             (validateContent_none_filed _ _ _)).
  rewrite verifyConsent_no_daily, verifyConsent_no_weekly.
  rewrite (existsb_none_filed _ _ isDailyLimitViolation_filed (Hfreq w3)).
  rewrite (existsb_implied _ _ _ isWeeklyLimitViolation_filed (Hfreq w3)).
  repeat split. exact Hfreq.
Qed.

(** *** The consent check *)

(** X19: [verifyConsent] returns at its first violation: it never returns
    a violation together with a warning, and never more than one
    violation.  When consent is not required it returns nothing and does
    not read the clock.  For a consent found with an expiry that is not
    past, with the clock standing at [now], it warns of the expiry exactly
    when the expiry is at most thirty days ahead. *)
Theorem verifyConsent_outcomes request profile rules w :
  let f := fst (verifyConsent clock request profile rules w) in
  (f_violations f = [] \/ f_warnings f = [])
  /\ len (f_violations f) <= 1
  /\ (consentRequired rules = false ->
      f_violations f = [] /\ f_warnings f = []
      /\ snd (verifyConsent clock request profile rules w) = w)
  /\ (forall now c e,
        (forall n, clock n = now) ->
        consentRequired rules = true ->
        findConsent request profile = Some c ->
        expiresAt c = Some e ->
        now <= e ->
        f_violations f = []
        /\ (existsb isExpiringWarning (f_warnings f) = true
            <-> e - now <= 30 * JsDate.msPerDay)).
Proof.
  cbv zeta. unfold verifyConsent.
  destruct (consentRequired rules) eqn:Hreq; cbn [negb].
  - destruct (findConsent request profile) as [c|] eqn:Hfind.
    + destruct (expiresAt c) as [e|] eqn:Hexp.
      * run_host.
        destruct (e <? clock (reads w)) eqn:Hlt; run_host;
          cbn [f_violations f_warnings];
          (split; [auto|]); (split; [cbn; lia|]);
          (split; [discriminate|]);
          intros now c' e' Hnow _ Hc He Hle;
          injection Hc as <-; rewrite Hexp in He; injection He as <-;
          rewrite ?Hnow in *.
        { apply Z.ltb_lt in Hlt. lia. }
        split; [reflexivity|].
        rewrite existsb_app.
        match goal with
        | |- (existsb _ (if ?b then _ else _) || existsb _ (if ?m then _ else _)
              = true) <-> _ =>
            assert (Hb : b = true <-> e - now <= 30 * JsDate.msPerDay);
            [|destruct b, m; cbn; split; intros H;
              try reflexivity; try (apply Hb; reflexivity);
              try (apply Hb in H; discriminate); try discriminate;
              try tauto]
        end.
        unfold ceilDiv, JsDate.msPerDay. rewrite Z.leb_le.
        split; intros H; Z.to_euclidean_division_equations; lia.
      * run_host. cbn [f_violations f_warnings].
        repeat split; auto; try (cbn; lia); try discriminate;
          intros; congruence.
    + run_host. cbn [f_violations f_warnings].
      repeat split; auto; try (cbn; lia); try discriminate;
        intros; congruence.
  - run_host. cbn [f_violations f_warnings].
    repeat split; auto; try (cbn; lia); try discriminate.
Qed.

(** *** The spacing between calls *)

(** The head of a list sorted by descending key is a greatest element. *)
Lemma hd_sortBy_descending {A} (key : A -> Z) (l : list A) :
  match hd_error (sortBy (fun a b => key b - key a) l) with
  | Some m => In m l /\ Forall (fun x => key x <= key m) l
  | None => l = []
  end.
Proof.
  induction l as [|x l IH]; [reflexivity|].
  cbn [sortBy fold_right]. fold (sortBy (fun a b => key b - key a) l).
  destruct (sortBy (fun a b => key b - key a) l) as [|y s] eqn:Hs.
  - cbn in IH. subst l. cbn. split; [auto|].
    constructor; [lia|constructor].
  - cbn [hd_error] in IH. destruct IH as [Hin Hmax].
    cbn [insertBy]. destruct (Z.leb_spec (key y - key x) 0).
    + cbn [hd_error]. split; [left; reflexivity|].
      constructor; [lia|].
      eapply Forall_impl; [|exact Hmax]. cbn. intros; lia.
    + cbn [hd_error]. split; [right; exact Hin|].
      constructor; [lia|exact Hmax].
Qed.

(** The FDCPA check raises the spacing violation exactly on a phone
    request, when the latest phone record is younger than the minimum. *)
Lemma checkFdcpaCompliance_spacing request profile rules w now :
  (forall n, clock n = now) ->
  existsb isSpacingViolation
    (f_violations (fst (checkFdcpaCompliance tz clock request profile rules w)))
  = match hd_error
            (sortBy (fun a b => r_timestamp b - r_timestamp a)
               (filter (fun c => Channel_eqb (r_channel c) phone)
                       (communicationHistory profile))) with
    | Some lastCall =>
        Channel_eqb (channel request) phone
        && (now - r_timestamp lastCall
            <? minHoursBetweenCalls (callFrequencyRules rules)
               * JsDate.msPerHour)
    | None => false
    end.
Proof.
  intros Hnow. unfold checkFdcpaCompliance, prohibitedPatterns.
  destruct (hd_error _);
    [destruct (Channel_eqb (channel request) phone)|];
    run_host; cbn [f_violations flat_map andb]; rewrite ?Hnow, !existsb_app;
    split_ifs; reflexivity.
Qed.

Lemma checkFrequencyLimits_no_spacing cid ch profile rules w :
  existsb isSpacingViolation
    (f_violations (fst (checkFrequencyLimits tz clock cid ch profile rules w)))
  = false.
Proof.
  unfold checkFrequencyLimits.
  run_host; cbn [f_violations]; rewrite !existsb_app.
  destruct ch; cbn [Channel_eqb]; rewrite ?existsb_app;
    split_ifs; reflexivity.
Qed.

(** X20: the spacing rule looks at the most recent phone record, wherever
    it stands in the history.  With the clock standing at [now], a verdict
    holds the spacing violation exactly when the request is a call and
    some phone record of the history is less than [minHoursBetweenCalls]
    hours old; requests on other channels are never held to it. *)
Theorem call_spacing_latest_call startTime rules profile request w now :
  (forall n, clock n = now) ->
  let r := fst (evaluate tz clock random startTime rules profile request w) in
  existsb isSpacingViolation (violations r) = true
  <-> channel request = phone
      /\ exists c,
           In c (communicationHistory profile)
           /\ r_channel c = phone
           /\ now - r_timestamp c
              < minHoursBetweenCalls (callFrequencyRules (fdcpa rules))
                * JsDate.msPerHour.
Proof.
  intros Hnow. cbv zeta.
  destruct (evaluate_findings startTime rules profile request w)
    as (w1 & w2 & w3 & Hv & _).
  cbv zeta in Hv. rewrite Hv, !existsb_app.
  rewrite (existsb_implied _ _ _ isSpacingViolation_harassment
             (checkTcpaCompliance_no_harassment _ _ _ _)).
  rewrite (existsb_implied _ _ _ isSpacingViolation_harassment
             (validateContent_no_harassment _ _ _)).
  rewrite (existsb_implied _ _ _ isSpacingViolation_harassment
             (verifyConsent_no_harassment _ _ _ _)).
  rewrite checkFrequencyLimits_no_spacing.
  rewrite (checkFdcpaCompliance_spacing _ _ _ _ now Hnow).
  cbn [orb]. rewrite !orb_false_r.
  pose proof (hd_sortBy_descending r_timestamp
                (filter (fun c => Channel_eqb (r_channel c) phone)
                        (communicationHistory profile))) as Hhd.
  set (bound := minHoursBetweenCalls (callFrequencyRules (fdcpa rules))
                * JsDate.msPerHour).
  destruct (hd_error _) as [lastCall|].
  - destruct Hhd as [Hin Hmax]. apply filter_In in Hin as [Hin Hph].
    split.
    + intros H. apply andb_prop in H as [Hch Hlt].
      split; [now destruct (channel request)|].
      exists lastCall. repeat split; [exact Hin| |now apply Z.ltb_lt].
      now destruct (r_channel lastCall).
    + intros (Hch & c & Hc & Hcph & Hlt).
      rewrite Hch. cbn [Channel_eqb andb]. apply Z.ltb_lt.
      rewrite Forall_forall in Hmax.
      assert (r_timestamp c <= r_timestamp lastCall).
      { apply Hmax. apply filter_In. split; [exact Hc|]. now rewrite Hcph. }
      lia.
  - split; [discriminate|].
    intros (_ & c & Hc & Hcph & _).
    assert (Hin : In c (filter (fun c => Channel_eqb (r_channel c) phone)
                          (communicationHistory profile)))
      by (apply filter_In; split; [exact Hc|now rewrite Hcph]).
    rewrite Hhd in Hin. destruct Hin.
Qed.

(** *** Disclosures and prohibited content *)

Lemma filter_nil_iff {A} (p : A -> bool) l :
  filter p l = [] <-> forall x, In x l -> p x = false.
Proof.
  induction l as [|x l IH]; cbn; [tauto|].
  destruct (p x) eqn:E; split; intros H.
  - discriminate.
  - specialize (H x (or_introl eq_refl)). congruence.
  - intros y [<-|Hy]; [exact E|]. now apply IH.
  - apply IH. intros y Hy. apply H. now right.
Qed.

(** X21: the disclosure test is a case-insensitive search of each required
    phrase in the content.  A verdict is free of disclosure violations
    exactly when every required phrase occurs in the content, letter case
    aside; in particular with no required phrase there is never one. *)
Theorem disclosures_all_present startTime rules profile request w :
  let r := fst (evaluate tz clock random startTime rules profile request w) in
  countType FDCPA_DISCLOSURE_MISSING (violations r) = 0
  <-> forall d,
        In d (requiredDisclosures (fdcpa rules)) ->
        JsString.includes (JsString.toLowerCase (content request))
                          (JsString.toLowerCase d) = true.
Proof.
  cbv zeta.
  rewrite (proj1 (evaluate_content_counts startTime rules profile
                    request w)).
  unfold validateRequiredDisclosures. cbn [missing].
  set (l := filter _ _).
  assert (Hl : l = [] <-> forall d,
               In d (requiredDisclosures (fdcpa rules)) ->
               JsString.includes (JsString.toLowerCase (content request))
                                 (JsString.toLowerCase d) = true).
  { unfold l. rewrite filter_nil_iff.
    split; intros H d Hd; specialize (H d Hd);
      [now apply negb_false_iff in H|now apply negb_false_iff]. }
  rewrite <- Hl.
  destruct l; cbn; split; intros H; try reflexivity; discriminate.
Qed.

(** *** Letter case in the content tests *)










(** *** The risk score *)

Lemma fold_severity_bounds (l : list ComplianceViolation) acc :
  acc + 5 * len l
  <= fold_left (fun riskScore violation =>
                  match v_severity violation with
                  | high => riskScore + 20
                  | medium => riskScore + 10
                  | low => riskScore + 5
                  end) l acc
  <= acc + 20 * len l.
Proof.
  revert acc. induction l as [|v l IH]; intros acc.
  - cbn. lia.
  - cbn [fold_left]. unfold len in *. cbn [List.length].
    rewrite Nat2Z.inj_succ.
    destruct (v_severity v);
      match goal with |- context [fold_left _ l ?a] => specialize (IH a) end;
      lia.
Qed.

(** X23: the risk score lies between 0 and 100.  Every past violation
    weighs at least 15 points, so the score is at least
    [min(100, 15 * violations)], and seven violations on file give 100
    whatever their severity.  A profile with no violation, no
    communication and no consent record scores 0. *)
Theorem calculateRiskScore_bounds profile w :
  let score := fst (ComplianceRisk.calculateRiskScore clock profile w) in
  0 <= score <= 100
  /\ Z.min 100 (15 * len (violationHistory profile)) <= score
  /\ (7 <= len (violationHistory profile) -> score = 100)
  /\ (violationHistory profile = [] ->
      communicationHistory profile = [] ->
      consentHistory profile = [] ->
      score = 0).
Proof.
  cbv zeta. unfold ComplianceRisk.calculateRiskScore. run_binds.
  cbn [ret fst].
  pose proof (fold_severity_bounds (violationHistory profile)
                (0 + len (violationHistory profile) * 10)) as Hfold.
  set (base := fold_left _ _ _) in *.
  assert (Hlen : 0 <= len (violationHistory profile)) by (unfold len; lia).
  set (recent := fst (ComplianceRisk.filterM _ _ _)).
  set (expired := fst (ComplianceRisk.someM _ _ _)).
  assert (Hcases :
    base <= (if expired
             then (if 20 <? len recent then base + 15
                   else if 10 <? len recent then base + 5 else base) + 25
             else (if 20 <? len recent then base + 15
                   else if 10 <? len recent then base + 5 else base))
         <= base + 40).
  { destruct expired, (20 <? len recent), (10 <? len recent); lia. }
  split; [lia|]. split; [lia|]. split; [lia|].
  intros Hv Hc Hk. unfold expired, recent, base.
  rewrite Hv, Hc, Hk. reflexivity.
Qed.

(** *** The calling window *)

(** X24: the calling window runs from the opening hour to the last
    millisecond of the closing hour: with the default closing hour of 21
    a communication at 21:59 is inside it.  The time zone passed in plays
    no part; the hour is the host's local hour. *)
Theorem isWithinAllowedHours_whole_closing_hour timestamp zone zone' rules :
  isWithinAllowedHours tz timestamp zone rules
  = isWithinAllowedHours tz timestamp zone' rules
  /\ (isWithinAllowedHours tz timestamp zone rules = true
      <-> start (callingHours rules) * JsDate.msPerHour
          <= timeOfDay tz timestamp
          < (end_ (callingHours rules) + 1) * JsDate.msPerHour)
  /\ (end_ (callingHours rules) < start (callingHours rules) ->
      isWithinAllowedHours tz timestamp zone rules = false).
Proof.
  split; [reflexivity|].
  unfold isWithinAllowedHours, timeOfDay. cbv zeta.
  split.
  - rewrite andb_true_iff, !Z.leb_le.
    unfold JsDate.getHours, JsDate.localTime, JsDate.msPerHour,
      JsDate.msPerDay.
    Z.to_euclidean_division_equations; lia.
  - intros H. apply andb_false_iff. rewrite !Z.leb_gt. lia.
Qed.

End ComplianceFacts.

(* ================================================================== *)
(** ** The content filter of the communication service *)

Section ContentFilterFacts.
Import ContentFilter Verdict.

Lemma matchesAt_prefix word s :
  JsString.toLowerCase word = word ->
  String.prefix word (JsString.toLowerCase s) = matchesAt word s.
Proof.
  revert word. induction s as [|c s IH]; intros word Hlow.
  - destruct word; reflexivity.
  - destruct word as [|a word]; [reflexivity|].
    cbn [JsString.toLowerCase] in Hlow. injection Hlow as Ha Hword.
    cbn [JsString.toLowerCase String.prefix matchesAt].
    rewrite (IH word Hword), Ha.
    destruct (ascii_dec a (JsString.lowerChar c)) as [->|Hne].
    + now rewrite Ascii.eqb_refl.
    + apply Ascii.eqb_neq in Hne. now rewrite Hne.
Qed.

Lemma includes_occursIn word s :
  JsString.toLowerCase word = word ->
  JsString.includes (JsString.toLowerCase s) word = occursIn word s.
Proof.
  intros Hlow. induction s as [|c s IH].
  - cbn [JsString.toLowerCase JsString.includes occursIn].
    now rewrite <- (matchesAt_prefix word "" Hlow).
  - cbn [JsString.includes occursIn JsString.toLowerCase].
    rewrite IH.
    change (String (JsString.lowerChar c) (JsString.toLowerCase s))
      with (JsString.toLowerCase (String c s)).
    now rewrite (matchesAt_prefix word (String c s) Hlow).
Qed.

Lemma hasChar_head c a u :
  hasChar c (String a u) = false ->
  Ascii.eqb (JsString.lowerChar a) c = false /\ hasChar c u = false.
Proof. cbn [hasChar]. intros H. now apply orb_false_iff in H. Qed.

(** What the filtered text starts with, the text started with: a word
    without an opening bracket cannot lie across a marker. *)
Lemma matchesAt_replaceFrom word u s :
  hasChar "["%char u = false ->
  matchesAt u (replaceFrom word "[REDACTED]" 0 s) = true ->
  matchesAt u s = true.
Proof.
  revert s. induction u as [|a u IH]; intros s Hu H; [reflexivity|].
  apply hasChar_head in Hu as [Ha Hu].
  destruct s as [|c s]; [exact H|].
  cbn [replaceFrom] in H.
  destruct (matchesAt word (String c s)).
  - cbn [append matchesAt] in H.
    change (JsString.lowerChar "["%char) with "["%char in H.
    rewrite Ha in H. discriminate.
  - cbn [matchesAt] in H |- *.
    apply andb_true_iff in H as [Hc H].
    rewrite Hc. cbn [andb]. now apply IH.
Qed.

Lemma matchesAt_append u a z t :
  matchesAt u ((a ++ String z "") ++ t)%string = true ->
  matchesAt u (a ++ String z "")%string = true
  \/ hasChar (JsString.lowerChar z) u = true.
Proof.
  revert u. induction a as [|c a IH]; intros u H.
  - destruct u as [|d u]; [now left|]. right.
    cbn [append matchesAt] in H. apply andb_true_iff in H as [H _].
    cbn [hasChar]. now rewrite H.
  - destruct u as [|d u]; [now left|].
    cbn [append matchesAt] in H |- *.
    apply andb_true_iff in H as [Hd H].
    destruct (IH u H) as [Hin|Hz].
    + left. now rewrite Hd, Hin.
    + right. cbn [hasChar]. rewrite Hz. apply orb_true_r.
Qed.

Lemma occursIn_append u a z t :
  occursIn u ((a ++ String z "") ++ t)%string = true ->
  occursIn u (a ++ String z "")%string = true
  \/ hasChar (JsString.lowerChar z) u = true
  \/ occursIn u t = true.
Proof.
  induction a as [|c a IH]; intros H.
  - cbn [append] in H |- *. cbn [occursIn] in H.
    apply orb_true_iff in H as [H|H]; [|now right; right].
    destruct (matchesAt_append u "" z t H) as [Hin|Hz]; [|now right; left].
    left. cbn [append] in Hin. cbn [occursIn]. now rewrite Hin.
  - cbn [append] in H |- *. cbn [occursIn] in H |- *.
    apply orb_true_iff in H as [H|H].
    + destruct (matchesAt_append u (String c a) z t H) as [Hin|Hz];
        [|now right; left].
      left. cbn [append] in Hin. now rewrite Hin.
    + destruct (IH H) as [Hin|[Hz|Ht]];
        [left|now right; left|now right; right].
      rewrite Hin. apply orb_true_r.
Qed.

Lemma plainWord_parts u :
  plainWord u = true ->
  hasChar "["%char u = false /\ hasChar "]"%char u = false
  /\ occursIn u "[REDACTED]" = false.
Proof.
  unfold plainWord. intros H.
  apply andb_true_iff in H as [H H3]. apply andb_true_iff in H as [H1 H2].
  now rewrite negb_true_iff in H1, H2, H3.
Qed.

(** An occurrence in a marker followed by a text lies in the text. *)
Lemma occursIn_marker u t :
  plainWord u = true ->
  occursIn u ("[REDACTED]" ++ t)%string = true -> occursIn u t = true.
Proof.
  intros Hu H. apply plainWord_parts in Hu as (_ & Hclose & Hmarker).
  change "[REDACTED]" with ("[REDACTED" ++ String "]"%char "")%string in H.
  destruct (occursIn_append u _ _ t H) as [Hin|[Hz|Ht]]; [| |exact Ht].
  - change ("[REDACTED" ++ String "]"%char "")%string
      with "[REDACTED]" in Hin.
    rewrite Hin in Hmarker. discriminate.
  - change (JsString.lowerChar "]"%char) with "]"%char in Hz.
    rewrite Hz in Hclose. discriminate.
Qed.

(** Replacing one word brings no other plain word into the text. *)
Lemma occursIn_replaceFrom word u s k :
  plainWord u = true ->
  occursIn u (replaceFrom word "[REDACTED]" k s) = true ->
  occursIn u s = true.
Proof.
  intros Hu. revert k. induction s as [|c s IH]; intros k H; [exact H|].
  cbn [occursIn]. destruct k as [|k].
  - cbn [replaceFrom] in H.
    destruct (matchesAt word (String c s)) eqn:Hm.
    + apply (occursIn_marker u _ Hu) in H. apply IH in H.
      rewrite H. apply orb_true_r.
    + cbn [occursIn] in H. apply orb_true_iff in H as [H|H].
      * assert (Hs : matchesAt u (String c s) = true).
        { apply (matchesAt_replaceFrom word);
            [apply (plainWord_parts u Hu)|].
          cbn [replaceFrom]. now rewrite Hm. }
        now rewrite Hs.
      * apply IH in H. rewrite H. apply orb_true_r.
  - cbn [replaceFrom] in H. apply IH in H. rewrite H. apply orb_true_r.
Qed.

(** Replacing a plain word leaves no occurrence of it. *)
Lemma occursIn_replaced word s k :
  plainWord word = true ->
  occursIn word (replaceFrom word "[REDACTED]" k s) = false.
Proof.
  intros Hw. revert k. induction s as [|c s IH]; intros k.
  - cbn [replaceFrom occursIn].
    destruct word as [|a word]; [discriminate Hw|reflexivity].
  - destruct k as [|k]; cbn [replaceFrom]; [|apply IH].
    destruct (matchesAt word (String c s)) eqn:Hm.
    + destruct (occursIn word ("[REDACTED]" ++ _)%string) eqn:Hin;
        [|reflexivity].
      apply (occursIn_marker word _ Hw) in Hin. now rewrite IH in Hin.
    + cbn [occursIn]. rewrite IH, orb_false_r.
      destruct (matchesAt word
                  (String c (replaceFrom word "[REDACTED]" 0 s))) eqn:Hhead;
        [|reflexivity].
      rewrite <- Hm. symmetry.
      apply (matchesAt_replaceFrom word);
        [apply (plainWord_parts word Hw)|].
      cbn [replaceFrom]. now rewrite Hm.
Qed.

Lemma replaceAll_removes word s :
  plainWord word = true -> occursIn word (replaceAll word "[REDACTED]" s) = false.
Proof. intros Hw. apply occursIn_replaced, Hw. Qed.

Lemma replaceAll_keeps_out word u s :
  plainWord u = true ->
  occursIn u s = false -> occursIn u (replaceAll word "[REDACTED]" s) = false.
Proof.
  intros Hu Hs. destruct (occursIn u (replaceAll _ _ _)) eqn:H; [|reflexivity].
  unfold replaceAll in H. apply (occursIn_replaceFrom word u s 0 Hu) in H.
  now rewrite H in Hs.
Qed.

Lemma filterContentForCompliance_clean content channel word :
  In word prohibitedWords ->
  JsString.includes
    (JsString.toLowerCase
       (filteredContent (filterContentForCompliance content channel)))
    word = false.
Proof.
  intros Hin.
  assert (Hlow : JsString.toLowerCase word = word).
  { cbn in Hin. destruct Hin as [<-|[<-|[<-|[<-|[]]]]]; reflexivity. }
  rewrite (includes_occursIn word _ Hlow).
  unfold filterContentForCompliance, prohibitedWords. cbn [fold_left].
  rewrite !includes_occursIn by reflexivity.
  cbn in Hin.
  destruct (occursIn "lawsuit" content) eqn:H1,
           (occursIn "legal action" content) eqn:H2,
           (occursIn "arrest" content) eqn:H3,
           (occursIn "wage garnishment" content) eqn:H4;
    cbn [filteredContent];
    destruct Hin as [<-|[<-|[<-|[<-|[]]]]];
    repeat first
      [ assumption
      | apply replaceAll_removes; reflexivity
      | apply replaceAll_keeps_out; [reflexivity|] ].
Qed.

Lemma filterContentForCompliance_none content channel :
  (forall word, In word prohibitedWords ->
     JsString.includes (JsString.toLowerCase content) word = false) ->
  filterContentForCompliance content channel
  = {| filteredContent := content; violations := [] |}.
Proof.
  intros H. unfold filterContentForCompliance, prohibitedWords.
  cbn [fold_left].
  rewrite !H by (cbn; tauto). reflexivity.
Qed.

(** X25: whatever the content, the filtered content has none of the four
    prohibited words, in any letter case: replacing one word by the
    marker brings no other word in.  The violations name the words the
    original content had, in the order of the word list. *)
Theorem filterContentForCompliance_redacts content channel :
  (forall word, In word prohibitedWords ->
     JsString.includes
       (JsString.toLowerCase
          (filteredContent (filterContentForCompliance content channel)))
       word = false)
  /\ violations (filterContentForCompliance content channel)
     = map (fun word => ("Prohibited term: " ++ word)%string)
         (filter (fun word =>
                    JsString.includes (JsString.toLowerCase content) word)
            prohibitedWords).
Proof.
  split; [intros word; apply filterContentForCompliance_clean|].
  unfold filterContentForCompliance, prohibitedWords.
  cbn [fold_left filter].
  destruct (JsString.includes _ "lawsuit"),
           (JsString.includes _ "legal action"),
           (JsString.includes _ "arrest"),
           (JsString.includes _ "wage garnishment"); reflexivity.
Qed.

(** X26: filtering is idempotent, on any channels: the filtered content
    goes through the filter unchanged and with no violation; and a
    content in which no prohibited word is found is returned as it is. *)
Theorem filterContentForCompliance_idempotent content channel channel' :
  filterContentForCompliance
    (filteredContent (filterContentForCompliance content channel)) channel'
  = {| filteredContent :=
         filteredContent (filterContentForCompliance content channel);
       violations := [] |}
  /\ (violations (filterContentForCompliance content channel) = [] ->
      filteredContent (filterContentForCompliance content channel) = content).
Proof.
  split.
  - apply filterContentForCompliance_none. intros word.
    apply filterContentForCompliance_clean.
  - unfold filterContentForCompliance, prohibitedWords.
    cbn [fold_left].
    destruct (JsString.includes _ "lawsuit"),
             (JsString.includes _ "legal action"),
             (JsString.includes _ "arrest"),
             (JsString.includes _ "wage garnishment");
      cbn [violations filteredContent app]; intros H;
      try discriminate H; reflexivity.
Qed.

End ContentFilterFacts.

(* ================================================================== *)
(** ** The two retry decisions of the communication service *)

Section RetryDecisionFacts.
Import Communication.

Lemma prefix_append_word a b s :
  String.prefix (a ++ b)%string s = true -> String.prefix a s = true.
Proof.
  revert s. induction a as [|c a IH]; intros s H.
  - now destruct s.
  - destruct s as [|d s]; [discriminate H|]. cbn in H |- *.
    destruct (ascii_dec c d); [|discriminate H]. now apply IH.
Qed.

Lemma includes_append_word a b s :
  JsString.includes s (a ++ b)%string = true -> JsString.includes s a = true.
Proof.
  induction s as [|c s IH]; cbn [JsString.includes]; intros H.
  - rewrite orb_false_r in H |- *. now apply (prefix_append_word a b).
  - apply orb_true_iff in H as [H|H]; apply orb_true_iff.
    + left. now apply (prefix_append_word a b).
    + right. now apply IH.
Qed.

Lemma includes_truthy s word :
  JsString.includes (JsString.toLowerCase s) word = true ->
  JsString.truthy word = true -> JsString.truthy s = true.
Proof.
  destruct s; [|reflexivity]. destruct word; [discriminate 2|discriminate 1].
Qed.

Lemma shouldRetry_value m e :
  (retryCount m < maxRetries m)%nat ->
  shouldRetry m (Some e)
  = negb (JsString.truthy e &&
          existsb (fun pattern =>
                     JsString.includes (JsString.toLowerCase e) pattern)
            nonRetryableErrors).
Proof.
  intros Hbudget. unfold shouldRetry.
  destruct (Nat.leb_spec (maxRetries m) (retryCount m)); [lia|].
  now destruct (_ && _).
Qed.

(** X27: [shouldRetry] and [classifyError] decide on the same error text
    with different phrase lists, and agree only in part.  For a message
    with retries left and an error without a rate-limit phrase: on
    ["blocked"] and ["compliance_violation"] both refuse to retry; on
    ["invalid recipient"] or ["unsubscribed"] with none of
    [shouldRetry]'s patterns, [shouldRetry] retries what [classifyError]
    calls not retryable; on ["permanent_failure"] with none of
    [classifyError]'s permanent phrases, [shouldRetry] refuses what
    [classifyError] calls retryable. *)
Theorem shouldRetry_classifyError_agreement m error :
  let e := errorMessageOf error in
  let lowerError := JsString.toLowerCase e in
  (retryCount m < maxRetries m)%nat ->
  JsString.includes lowerError "rate limit" = false ->
  JsString.includes lowerError "too many requests" = false ->
  (JsString.includes lowerError "blocked" = true
   \/ JsString.includes lowerError "compliance_violation" = true ->
   shouldRetry m (Some e) = false
   /\ retryable (classifyError error) = false)
  /\ (JsString.includes lowerError "invalid recipient" = true
      \/ JsString.includes lowerError "unsubscribed" = true ->
      existsb (fun pattern => JsString.includes lowerError pattern)
        nonRetryableErrors = false ->
      shouldRetry m (Some e) = true
      /\ retryable (classifyError error) = false)
  /\ (JsString.includes lowerError "permanent_failure" = true ->
      JsString.includes lowerError "invalid recipient" = false ->
      JsString.includes lowerError "blocked" = false ->
      JsString.includes lowerError "unsubscribed" = false ->
      JsString.includes lowerError "compliance" = false ->
      shouldRetry m (Some e) = false
      /\ retryable (classifyError error) = true).
Proof.
  cbv zeta. intros Hbudget Hrate Hmany.
  rewrite (shouldRetry_value m _ Hbudget).
  unfold classifyError. rewrite Hrate, Hmany. cbn [orb].
  split; [|split].
  - intros H.
    assert (Htruthy : JsString.truthy (errorMessageOf error) = true).
    { destruct H as [H|H]; now apply (includes_truthy _ _ H). }
    rewrite Htruthy. cbn [nonRetryableErrors existsb andb].
    destruct H as [H|H].
    + rewrite H, !orb_true_r. cbn [negb orb]. split; reflexivity.
    + rewrite H, !orb_true_r.
      change "compliance_violation"
        with ("compliance" ++ "_violation")%string in H.
      apply includes_append_word in H. rewrite H, !orb_true_r.
      split; reflexivity.
  - intros H Hnone. rewrite Hnone, andb_false_r. split; [reflexivity|].
    destruct H as [H|H]; rewrite H, ?orb_true_r; reflexivity.
  - intros Hperm Hinv Hblocked Hunsub Hcompl.
    rewrite (includes_truthy _ _ Hperm eq_refl).
    cbn [nonRetryableErrors existsb andb]. rewrite Hperm.
    rewrite Hinv, Hblocked, Hunsub, Hcompl. cbn [orb negb].
    split; [reflexivity|].
    now destruct (_ || _).
Qed.

End RetryDecisionFacts.

(* ================================================================== *)
(** * Worked evaluations *)

Section Worked.
Import Compliance Verdict Effects Samples.

(** Five sms today under a cap of five: the sixth is refused for the
    daily cap; four today: it is not. *)
Lemma daily_cap_boundary_witness :
  existsb isDailyLimitViolation
    (violations (run noonClock defaultRules (contacted sms 5) sms)) = true
  /\ existsb isDailyLimitViolation
       (violations (run noonClock defaultRules (contacted sms 4) sms)) = false.
Proof.
  split.
  - unfold run.
    refine (proj1 (proj1 (daily_cap_boundary 0 noonClock noRandom
                            (noonClock 0%nat) defaultRules (contacted sms 5)
                            (requestOn sms) quiet newYear
                            (or_introl eq_refl) (fun _ => eq_refl)) _)).
    vm_compute. reflexivity.
  - unfold run.
    refine (proj2 (daily_cap_boundary 0 noonClock noRandom
                     (noonClock 0%nat) defaultRules (contacted sms 4)
                     (requestOn sms) quiet newYear
                     (or_introl eq_refl) (fun _ => eq_refl)) _).
    vm_compute. reflexivity.
Defined.

(** C3 as stated fails: with four sms on file today the frequency check
    passes; adding one more record of today whose [compliant] flag is
    false makes the same check report the daily cap. *)
Lemma blocked_record_counts :
  r_compliant blockedRecord = false
  /\ communicationHistory contactedAndBlocked
     = communicationHistory (contacted sms 4) ++ [blockedRecord]
  /\ f_violations
       (fst (checkFrequencyLimits 0 noonClock "CUST-001" sms
               (contacted sms 4) defaultRules quiet)) = []
  /\ existsb isDailyLimitViolation
       (f_violations
          (fst (checkFrequencyLimits 0 noonClock "CUST-001" sms
                  contactedAndBlocked defaultRules quiet))) = true
  /\ fst (checkFrequencyLimits 0 noonClock "CUST-001" sms
            contactedAndBlocked defaultRules quiet)
     <> fst (checkFrequencyLimits 0 noonClock "CUST-001" sms
               (contacted sms 4) defaultRules quiet).
Proof.
  repeat split; try (vm_compute; reflexivity).
  vm_compute. discriminate.
Qed.

(** C4 as stated fails: the same request, profile and rule set are
    cleared at noon and blocked at ten in the evening; and two evaluations
    at the same instant differ in the audit entry when the random draws
    differ.  [checkCompliance] itself, on the same request, returns
    different violation lists at the two hours. *)
Lemma same_inputs_different_verdicts :
  canProceed (run noonClock defaultRules (contacted sms 0) sms) = true
  /\ canProceed (run nightClock defaultRules (contacted sms 0) sms) = false
  /\ runWith noRandom noonClock defaultRules (contacted sms 0) sms
     <> runWith otherRandom noonClock defaultRules (contacted sms 0) sms
  /\ violations (fst (checkCompliance 0 noonClock noRandom (requestOn sms)
                        quiet))
     <> violations (fst (checkCompliance 0 nightClock noRandom
                           (requestOn sms) quiet)).
Proof.
  repeat split; try (vm_compute; reflexivity); vm_compute; discriminate.
Qed.

(** Two evaluations at noon with different random draws agree up to the
    audit id. *)
Lemma verdict_fixed_by_clock_witness :
  runWith otherRandom noonClock defaultRules (contacted sms 0) sms
  = withAuditId
      (a_id (auditEntry
               (runWith otherRandom noonClock defaultRules
                  (contacted sms 0) sms)))
      (runWith noRandom noonClock defaultRules (contacted sms 0) sms).
Proof.
  unfold runWith.
  exact (proj1 (verdict_fixed_by_clock 0 noonClock (noonClock 0%nat)
                  defaultRules (contacted sms 0) (requestOn sms)
                  noRandom otherRandom quiet quiet eq_refl)).
Defined.

(** C5 fails on the code for a renewed consent: the profile holds a valid
    sms consent, the renewal, yet both consent checks report the lapsed
    record that precedes it, and the evaluation is blocked. *)
Lemma renewed_consent_rejected :
  existsb (validConsent noon sms) (consentHistory renewed) = true
  /\ existsb isConsentViolation
       (f_violations
          (fst (verifyConsent noonClock (requestOn sms) renewed
                  (tcpa defaultRules) quiet))) = true
  /\ existsb isConsentViolation
       (f_violations
          (fst (checkTcpaCompliance 0 noonClock (requestOn sms) renewed
                  (tcpa defaultRules) quiet))) = true
  /\ existsb isConsentViolation
       (violations (run noonClock defaultRules renewed sms)) = true
  /\ canProceed (run noonClock defaultRules renewed sms) = false.
Proof.
  repeat split; vm_compute; reflexivity.
Qed.

(** A call attempted at ten in the evening is blocked until eight the
    next morning. *)
Lemma nextAllowedTime_not_in_past_witness :
  (exists t n,
     nextAllowedTime (run nightClock defaultRules (contacted phone 0) phone)
     = Some t
     /\ (0 <= n)%nat /\ nightClock n <= t
     /\ (monotone nightClock -> nightClock 0%nat <= t))
  /\ (exists t n,
        nextAllowedTime
          (fst (checkCompliance 0 nightClock noRandom (requestOn phone) quiet))
        = Some t
        /\ (0 <= n)%nat /\ nightClock n <= t
        /\ (monotone nightClock -> nightClock 0%nat <= t)).
Proof.
  split.
  - unfold run.
    apply (proj1 (nextAllowedTime_not_in_past 0 nightClock noRandom
                    (requestOn phone) quiet) (nightClock 0%nat) defaultRules
                 (contacted phone 0)).
    + vm_compute. discriminate.
    + vm_compute. reflexivity.
  - apply (proj2 (nextAllowedTime_not_in_past 0 nightClock noRandom
                    (requestOn phone) quiet)).
    vm_compute. reflexivity.
Defined.

(** Four sms today under a cap of five: the evaluation warns. *)
Lemma frequency_warning_sms_only_witness :
  existsb isFrequencyWarning
    (warnings (run noonClock defaultRules (contacted sms 4) sms)) = true.
Proof.
  unfold run.
  apply (proj1 (frequency_warning_sms_only 0 noonClock noRandom
                  (noonClock 0%nat) defaultRules (contacted sms 4)
                  (requestOn sms) quiet newYear (fun _ => eq_refl)) eq_refl).
  vm_compute. discriminate.
Defined.

(** C9 as stated fails on phone: four calls today under a daily cap of
    five reach four fifths of the cap and stay under it, and the
    evaluation carries no frequency warning. *)
Lemma phone_gets_no_frequency_warning :
  sentOn 0 newYear phone (communicationHistory (contacted phone 4)) = 4
  /\ dailyCap (tcpa fiveCallRules) phone = 5
  /\ reaches80 4 5 = true
  /\ existsb isFrequencyWarning
       (warnings (run noonClock fiveCallRules (contacted phone 4) phone))
     = false
  /\ f_warnings
       (fst (checkFrequencyLimits 0 noonClock "CUST-001" phone
               (contacted phone 4) fiveCallRules quiet)) = [].
Proof.
  repeat split; vm_compute; reflexivity.
Qed.

(** The scenario of the specification: a call at 22:00 with a calling
    window of 8 to 21 is refused for the hour and may resume at 08:00 the
    next day (2025-01-02T08:00:00Z). *)
Example late_call_resumes_next_morning :
  existsb (fun v => match v_type v with
                    | TCPA_TIME_RESTRICTION => true
                    | _ => false
                    end)
          (violations (run nightClock defaultRules (contacted phone 0) phone))
  = true
  /\ canProceed (run nightClock defaultRules (contacted phone 0) phone)
     = false
  /\ nextAllowedTime (run nightClock defaultRules (contacted phone 0) phone)
     = Some 1735804800000.
Proof. repeat split; vm_compute; reflexivity. Qed.

(** The scenario of the specification: content with every required
    disclosure and no prohibited term, sent at noon with consent on file,
    raises no violation. *)
Example disclosed_content_passes :
  violations (run noonClock defaultRules (contacted email 0) email) = []
  /\ canProceed (run noonClock defaultRules (contacted email 0) email) = true.
Proof. split; vm_compute; reflexivity. Qed.

(** The scenario of the specification: no consent record on file, channel
    sms: a consent violation, and the evaluation is blocked. *)
Example missing_consent_blocks :
  existsb isConsentViolation
    (violations (run noonClock defaultRules (profileWith [] []) sms)) = true
  /\ canProceed (run noonClock defaultRules (profileWith [] []) sms) = false.
Proof. split; vm_compute; reflexivity. Qed.

(** *** The further properties, at concrete inputs *)

(** With sms quiet from 22:00 to 08:00 and a clock at 22:00, the next
    allowed time is 08:00 the next morning; asked at that instant, the
    quiet-hours test still refuses. *)
Lemma next_allowed_time_still_quiet_witness :
  fst (CommunicationUtils.getNextAllowedTime 0 resumeClock decimal
         nightQuiet sms idle) = morning
  /\ fst (CommunicationUtils.isWithinAllowedHours 0 resumeClock decimal
            nightQuiet sms later) = false.
Proof.
  split; [vm_compute; reflexivity|].
  refine (next_allowed_time_still_quiet 0 resumeClock decimal nightQuiet sms
            idle later
            {| CommunicationUtils.qh_start := "22:00";
               CommunicationUtils.qh_end := "08:00" |} 8 0 _ _ _ _ _).
  - reflexivity.
  - vm_compute. reflexivity.
  - lia.
  - lia.
  - vm_compute. reflexivity.
Defined.

(** The time a call is put off to at ten in the evening falls inside the
    default calling window. *)
Lemma getNextAllowedTime_within_hours_witness :
  isWithinAllowedHours 0
    (fst (getNextAllowedTime 0 nightClock "CUST-001" phone "UTC"
            (contacted phone 0) (tcpa defaultRules) quiet))
    "UTC" (tcpa defaultRules) = true.
Proof.
  refine (getNextAllowedTime_within_hours 0 nightClock "CUST-001" phone "UTC"
            (contacted phone 0) (tcpa defaultRules) quiet _ _).
  - vm_compute. split; discriminate.
  - vm_compute. discriminate.
Defined.

(** At ten in the evening an evaluation carries exactly one
    time-restriction violation. *)
Lemma time_restriction_outside_window_witness :
  countType TCPA_TIME_RESTRICTION
    (violations (run nightClock defaultRules (contacted sms 0) sms))
  = if isWithinAllowedHours 0 (nightClock 0%nat) "UTC" (tcpa defaultRules)
    then 0 else 1.
Proof.
  unfold run.
  exact (time_restriction_outside_window 0 nightClock noRandom
           (nightClock 0%nat) defaultRules (contacted sms 0) (requestOn sms)
           quiet 22 0%nat (fun _ => eq_refl)).
Defined.

(** Seven emails today reach the aggregate cap of seven contacts: the
    eighth is refused for it. *)
Lemma daily_contact_cap_all_channels_witness :
  existsb isContactLimitViolation
    (violations (run noonClock defaultRules (contacted email 7) email))
  = true
  /\ canProceed (run noonClock defaultRules (contacted email 7) email)
     = false.
Proof.
  unfold run.
  pose proof (daily_contact_cap_all_channels 0 noonClock noRandom
                (noonClock 0%nat) defaultRules (contacted email 7)
                (requestOn email) quiet newYear (fun _ => eq_refl)) as H.
  cbv zeta in H. destruct H as [Hv Hc]. split.
  - refine (eq_trans Hv _). vm_compute. reflexivity.
  - apply Hc. vm_compute. discriminate.
Defined.

(** Fourteen sms since Sunday reach the weekly cap of fourteen texts. *)
Lemma weekly_cap_window_witness :
  existsb isWeeklyLimitViolation
    (violations (run noonClock defaultRules (contacted sms 14) sms)) = true.
Proof.
  unfold run.
  refine (eq_trans
            (weekly_cap_window 0 noonClock noRandom (noonClock 0%nat)
               defaultRules (contacted sms 14) (requestOn sms) quiet noon
               (fun _ => eq_refl)) _).
  vm_compute. reflexivity.
Defined.

(** Fifty emails today raise no per-channel cap. *)
Lemma email_has_no_channel_cap_witness :
  existsb isDailyLimitViolation
    (violations (run noonClock defaultRules (contacted email 50) email))
  = false
  /\ existsb isWeeklyLimitViolation
       (violations (run noonClock defaultRules (contacted email 50) email))
     = false.
Proof.
  unfold run.
  pose proof (email_has_no_channel_cap 0 noonClock noRandom
                (noonClock 0%nat) defaultRules (contacted email 50)
                (requestOn email) quiet eq_refl) as H.
  cbv zeta in H. destruct H as (Hd & Hw & _). split; assumption.
Defined.

(** A call an hour after the last one is refused for the spacing of two
    hours. *)
Lemma call_spacing_latest_call_witness :
  existsb isSpacingViolation
    (violations (run noonClock defaultRules (contacted phone 1) phone))
  = true.
Proof.
  unfold run.
  refine (proj2 (call_spacing_latest_call 0 noonClock noRandom
                   (noonClock 0%nat) defaultRules (contacted phone 1)
                   (requestOn phone) quiet noon (fun _ => eq_refl)) _).
  split; [reflexivity|].
  exists (recordOn phone (noon - 3600000) true).
  split; [left; reflexivity|]. split; [reflexivity|].
  vm_compute. reflexivity.
Defined.

(** Both decisions refuse a blocked recipient. *)
Lemma shouldRetry_classifyError_agreement_witness :
  Communication.shouldRetry (messageAt 0)
    (Some "Recipient blocked by carrier") = false
  /\ Communication.retryable
       (Communication.classifyError (errorOf "Recipient blocked by carrier"))
     = false.
Proof.
  refine (proj1 (shouldRetry_classifyError_agreement (messageAt 0)
                   (errorOf "Recipient blocked by carrier") _ _ _) _).
  - vm_compute. lia.
  - vm_compute. reflexivity.
  - vm_compute. reflexivity.
  - left. vm_compute. reflexivity.
Defined.

End Worked.
